(** * Angry Balls: a shallow embedding of [main.py]

    The game logic of [main.py] (classes [SimpleBird], [SimpleTarget],
    [SimpleGame], the gesture detectors, the two history stabilizers and the
    per-frame callback) is embedded as executable Rocq functions, and the
    properties of the specification are stated and settled on them.

    Numbers.  Python [float] is IEEE-754 binary64 and is modelled by Rocq's
    primitive [float]; Python [int] is modelled by [Z].  Fields that hold
    an [int] at some times and a [float] at others (positions, velocities,
    the play-field geometry) are kept as [float]: the integers stored there
    are small frame coordinates, which binary64 represents exactly, and
    Python converts them to [float] as soon as they meet one.  The OpenCV
    drawing code has no effect on the game state and is left out. *)

From Stdlib Require Import String ZArith List Bool Lia Floats.
Import ListNotations.

Set Implicit Arguments.
Set Warnings "-inexact-float".

(* ================================================================== *)
(** * Python numbers *)
(* ================================================================== *)

Module Py.

(** [float(n)] for an [int] [n]: round to nearest, ties to even. *)
Definition of_int (n : Z) : float :=
  SF2Prim (binary_normalize prec emax n 0 false).

(** [int(f)]: truncation towards zero.  [int(nan)] raises [ValueError]
    and [int(inf)] raises [OverflowError]: both are [None]. *)
Definition int (f : float) : option Z :=
  match Prim2SF f with
  | S754_zero _ => Some 0%Z
  | S754_finite s m e =>
      let mag := if (0 <=? e)%Z then (Z.pos m * 2 ^ e)%Z
                 else Z.shiftr (Z.pos m) (- e) in
      Some (if s then (- mag)%Z else mag)
  | S754_infinity _ | S754_nan => None
  end.

(** [math.floor], as a float (the value is unchanged when it is not
    finite; only finite arguments occur in [f // 2] below). *)
Definition floor (f : float) : float :=
  match Prim2SF f with
  | S754_finite s m e =>
      if (0 <=? e)%Z then f
      else
        let q := Z.shiftr (Z.pos m) (- e) in
        let exact := (Z.shiftl q (- e) =? Z.pos m)%Z in
        of_int (if s then (if exact then - q else - q - 1)%Z else q)
  | _ => f
  end.

(** [f // 2] on floats: for a divisor of 2 the quotient [f / 2] is exact
    and the result is its floor. *)
Definition floordiv2 (f : float) : float := floor (f / 2)%float.

(** [min(a, b)] and [max(a, b)] keep the first argument unless the
    second compares strictly better (so a [nan] second argument is
    ignored). *)
Definition min (a b : float) : float := if (b <? a)%float then b else a.
Definition max (a b : float) : float := if (a <? b)%float then b else a.

(** Comparison of a [float] with an [int].  Python compares the two
    exactly, without rounding the integer: [None] is the unordered case
    ([nan]), for which every comparison is false. *)
Definition compare_int (f : float) (n : Z) : option comparison :=
  match Prim2SF f with
  | S754_nan => None
  | S754_infinity s => Some (if s then Lt else Gt)
  | S754_zero _ => Some (0 ?= n)%Z
  | S754_finite s m e =>
      let sm := if s then Z.neg m else Z.pos m in
      if (0 <=? e)%Z then Some (sm * 2 ^ e ?= n)%Z
      else Some (sm ?= n * 2 ^ (- e))%Z
  end.

(** [f < n], [f <= n] and [n <= f] for a float [f] and an int [n]. *)
Definition float_lt_int (f : float) (n : Z) : bool :=
  match compare_int f n with Some Lt => true | _ => false end.
Definition float_le_int (f : float) (n : Z) : bool :=
  match compare_int f n with Some Lt | Some Eq => true | _ => false end.
Definition int_le_float (n : Z) (f : float) : bool :=
  match compare_int f n with Some Gt | Some Eq => true | _ => false end.

(** [sum] of a list of [int]s, and of a list of [bool]s counted as 0/1. *)
Definition sum (l : list Z) : Z := fold_left Z.add l 0%Z.
Definition sum_bool (l : list bool) : Z :=
  fold_left (fun acc (b : bool) => if b then (acc + 1)%Z else acc) l 0%Z.

(** [l[-n:]]: the last [n] elements (all of [l] when it is shorter). *)
Definition last_n (A : Type) (n : nat) (l : list A) : list A :=
  skipn (length l - n) l.

End Py.

(** The C library behind [x ** 2] and [x ** 0.5] on floats.  CPython
    evaluates both with [pow], whose results are not fixed bit for bit by
    IEEE-754, so the two uses are kept as an interface.  ([math.sqrt] is
    the correctly rounded IEEE square root, [PrimFloat.sqrt].)  The
    [OverflowError] that [**] raises on overflow needs coordinates beyond
    1e154 and is not modelled. *)
Class Libm : Type := {
  pow2 : float -> float;       (* x ** 2   *)
  pow_half : float -> float    (* x ** 0.5 *)
}.

(** The IEEE reading of the two powers, a correctly rounded square and
    square root: it is what the model is run with on concrete inputs, which
    are chosen so that every square and root involved is exact. *)
Definition ieee_libm : Libm :=
  {| pow2 := fun v => (v * v)%float; pow_half := sqrt |}.

(** What a method call leaves behind: it returned, or an exception escaped
    it.  Python objects are mutated in place, so in both cases the object
    carries every assignment made before that point. *)
Inductive outcome (S : Type) : Type :=
| Normal (s : S)
| Raised (s : S).

Definition state_of (S : Type) (o : outcome S) : S :=
  match o with Normal s | Raised s => s end.

Definition returned (S : Type) (o : outcome S) : bool :=
  match o with Normal _ => true | Raised _ => false end.

(** Sequencing of calls that may raise. *)
Definition and_then (S : Type) (o : outcome S) (k : S -> outcome S) : outcome S :=
  match o with
  | Normal s => k s
  | Raised s => Raised s
  end.

(* ================================================================== *)
(** * class SimpleBird *)
(* ================================================================== *)

Module SimpleBird.

Record t : Type := mk {
  x : float;
  y : float;
  start_x : float;
  start_y : float;
  radius : Z;
  vel_x : float;
  vel_y : float;
  is_flying : bool;
  trail : list (Z * Z)
}.

(** [__init__(self, x, y)] *)
Definition init (x0 y0 : float) : t :=
  {| x := x0; y := y0; start_x := x0; start_y := y0; radius := 15;
     vel_x := 0; vel_y := 0; is_flying := false; trail := [] |}.

(** [reset(self)] *)
Definition reset (b : t) : t :=
  {| x := start_x b; y := start_y b;
     start_x := start_x b; start_y := start_y b; radius := radius b;
     vel_x := 0; vel_y := 0; is_flying := false; trail := [] |}.

(** The four assignments of [update] that come before the trail is
    touched: gravity, drag, then integration with the new velocity. *)
Definition integrate (b : t) : t :=
  let vy := (vel_y b + 0.3)%float in
  let vx := (vel_x b * 0.995)%float in
  {| x := (x b + vx)%float; y := (y b + vy)%float;
     start_x := start_x b; start_y := start_y b; radius := radius b;
     vel_x := vx; vel_y := vy; is_flying := is_flying b; trail := trail b |}.

Definition set_trail (b : t) (tr : list (Z * Z)) : t :=
  {| x := x b; y := y b; start_x := start_x b; start_y := start_y b;
     radius := radius b; vel_x := vel_x b; vel_y := vel_y b;
     is_flying := is_flying b; trail := tr |}.

(** [(int(self.x), int(self.y))]; [None] when either conversion raises. *)
Definition pixel (b : t) : option (Z * Z) :=
  match Py.int (x b) with
  | None => None
  | Some ix =>
      match Py.int (y b) with
      | None => None
      | Some iy => Some (ix, iy)
      end
  end.

(** [update(self)] *)
Definition update (b : t) : outcome t :=
  if is_flying b then
    let b1 := integrate b in
    if (Z.of_nat (length (trail b1)) <? 20)%Z then
      match pixel b1 with
      | Some p => Normal (set_trail b1 (trail b1 ++ [p]))
      | None => Raised b1
      end
    else Normal b1
  else Normal b.

(** [launch(self, vel_x, vel_y)] *)
Definition launch (b : t) (vx vy : float) : outcome t :=
  let b1 := {| x := x b; y := y b; start_x := start_x b; start_y := start_y b;
               radius := radius b; vel_x := vx; vel_y := vy;
               is_flying := true; trail := trail b |} in
  match pixel b1 with
  | Some p => Normal (set_trail b1 [p])
  | None => Raised b1
  end.

End SimpleBird.

(* ================================================================== *)
(** * class SimpleTarget *)
(* ================================================================== *)

Module SimpleTarget.

Record t : Type := mk {
  x : float;
  y : float;
  radius : Z;
  is_destroyed : bool
}.

(** [__init__(self, x, y, radius=20)] *)
Definition init (x0 y0 : float) : t :=
  {| x := x0; y := y0; radius := 20; is_destroyed := false |}.

Definition set_destroyed (tg : t) (d : bool) : t :=
  {| x := x tg; y := y tg; radius := radius tg; is_destroyed := d |}.

(** [check_collision(self, bird)]: the target afterwards and the value
    returned. *)
Definition check_collision {L : Libm} (tg : t) (bird : SimpleBird.t) : t * bool :=
  if is_destroyed tg then (tg, false)
  else
    let distance :=
      sqrt (pow2 (x tg - SimpleBird.x bird) + pow2 (y tg - SimpleBird.y bird))%float in
    if Py.float_lt_int distance (radius tg + SimpleBird.radius bird)
    then (set_destroyed tg true, true)
    else (tg, false).

End SimpleTarget.

(* ================================================================== *)
(** * The restart button (the dict [self.reset_button]) *)
(* ================================================================== *)

Module Button.

(** One field per key of the dict.  ['progress'] starts as [0.0] and is
    only ever changed by [+= 2], [+= 1], [- 3], [= 0] and
    [= max_progress]: it holds whole numbers and is kept in [Z]. *)
Record t : Type := mk {
  x : Z;
  y : Z;
  width : Z;
  height : Z;
  clicked : bool;
  hover : bool;
  progress : Z;
  max_progress : Z;
  active : bool;
  detection_padding : Z;
  fallback_activated : bool;
  has_triggered : bool;
  was_in_area : bool;
  trigger_cooldown : Z
}.

Definition set_hover (b : t) (v : bool) : t :=
  mk (x b) (y b) (width b) (height b) (clicked b) v (progress b)
     (max_progress b) (active b) (detection_padding b) (fallback_activated b)
     (has_triggered b) (was_in_area b) (trigger_cooldown b).

Definition set_progress (b : t) (v : Z) : t :=
  mk (x b) (y b) (width b) (height b) (clicked b) (hover b) v
     (max_progress b) (active b) (detection_padding b) (fallback_activated b)
     (has_triggered b) (was_in_area b) (trigger_cooldown b).

Definition set_active (b : t) (v : bool) : t :=
  mk (x b) (y b) (width b) (height b) (clicked b) (hover b) (progress b)
     (max_progress b) v (detection_padding b) (fallback_activated b)
     (has_triggered b) (was_in_area b) (trigger_cooldown b).

Definition set_has_triggered (b : t) (v : bool) : t :=
  mk (x b) (y b) (width b) (height b) (clicked b) (hover b) (progress b)
     (max_progress b) (active b) (detection_padding b) (fallback_activated b)
     v (was_in_area b) (trigger_cooldown b).

Definition set_was_in_area (b : t) (v : bool) : t :=
  mk (x b) (y b) (width b) (height b) (clicked b) (hover b) (progress b)
     (max_progress b) (active b) (detection_padding b) (fallback_activated b)
     (has_triggered b) v (trigger_cooldown b).

(** The dict literal of [SimpleGame.__init__]. *)
Definition init (frame_height : Z) : t :=
  {| x := 10; y := frame_height / 2 + 130; width := 110; height := 40;
     clicked := false; hover := false; progress := 0; max_progress := 60;
     active := false; detection_padding := 20; fallback_activated := false;
     has_triggered := false; was_in_area := false; trigger_cooldown := 30 |}.

(** [lo <= v <= hi] with [int] bounds and a pointer coordinate [v] (a
    [float], or the [int] -1 passed as the float of the same value). *)
Definition between (lo : Z) (v : float) (hi : Z) : bool :=
  Py.int_le_float lo v && Py.float_le_int v hi.

(** [in_expanded_area] and [in_button_area] of [check_button_hover]. *)
Definition in_expanded_area (b : t) (px py : float) : bool :=
  let padding := detection_padding b in
  let expanded_x1 := (x b - padding)%Z in
  let expanded_y1 := (y b - padding)%Z in
  let expanded_x2 := (x b + width b + padding)%Z in
  let expanded_y2 := (y b + height b + padding)%Z in
  between expanded_x1 px expanded_x2 && between expanded_y1 py expanded_y2.

Definition in_button_area (b : t) (px py : float) : bool :=
  between (x b) px (x b + width b) && between (y b) py (y b + height b).

End Button.

(* ================================================================== *)
(** * class SimpleGame *)
(* ================================================================== *)

Module SimpleGame.

Record t : Type := mk {
  width : Z;
  height : Z;
  pulling : bool;
  pull_x : float;
  pull_y : float;
  score : Z;
  game_won : bool;
  is_paused : bool;
  fist_detected : bool;
  last_fist_state : bool;
  pause_message_timer : Z;
  game_area_width : float;
  game_area_height : float;
  game_offset_x : float;
  game_offset_y : float;
  current_level : Z;
  max_level : Z;
  is_transitioning : bool;
  transition_progress : Z;
  transition_direction : String.string;
  reset_button : Button.t;
  bird : SimpleBird.t;
  targets : list SimpleTarget.t
}.

Definition set_pulling (g : t) (v : bool) : t :=
  mk (width g) (height g) v (pull_x g) (pull_y g) (score g) (game_won g)
     (is_paused g) (fist_detected g) (last_fist_state g) (pause_message_timer g)
     (game_area_width g) (game_area_height g) (game_offset_x g) (game_offset_y g)
     (current_level g) (max_level g) (is_transitioning g) (transition_progress g)
     (transition_direction g) (reset_button g) (bird g) (targets g).

Definition set_pull (g : t) (px py : float) : t :=
  mk (width g) (height g) (pulling g) px py (score g) (game_won g)
     (is_paused g) (fist_detected g) (last_fist_state g) (pause_message_timer g)
     (game_area_width g) (game_area_height g) (game_offset_x g) (game_offset_y g)
     (current_level g) (max_level g) (is_transitioning g) (transition_progress g)
     (transition_direction g) (reset_button g) (bird g) (targets g).

Definition set_score (g : t) (v : Z) : t :=
  mk (width g) (height g) (pulling g) (pull_x g) (pull_y g) v (game_won g)
     (is_paused g) (fist_detected g) (last_fist_state g) (pause_message_timer g)
     (game_area_width g) (game_area_height g) (game_offset_x g) (game_offset_y g)
     (current_level g) (max_level g) (is_transitioning g) (transition_progress g)
     (transition_direction g) (reset_button g) (bird g) (targets g).

Definition set_game_won (g : t) (v : bool) : t :=
  mk (width g) (height g) (pulling g) (pull_x g) (pull_y g) (score g) v
     (is_paused g) (fist_detected g) (last_fist_state g) (pause_message_timer g)
     (game_area_width g) (game_area_height g) (game_offset_x g) (game_offset_y g)
     (current_level g) (max_level g) (is_transitioning g) (transition_progress g)
     (transition_direction g) (reset_button g) (bird g) (targets g).

Definition set_is_paused (g : t) (v : bool) : t :=
  mk (width g) (height g) (pulling g) (pull_x g) (pull_y g) (score g) (game_won g)
     v (fist_detected g) (last_fist_state g) (pause_message_timer g)
     (game_area_width g) (game_area_height g) (game_offset_x g) (game_offset_y g)
     (current_level g) (max_level g) (is_transitioning g) (transition_progress g)
     (transition_direction g) (reset_button g) (bird g) (targets g).

Definition set_fist_detected (g : t) (v : bool) : t :=
  mk (width g) (height g) (pulling g) (pull_x g) (pull_y g) (score g) (game_won g)
     (is_paused g) v (last_fist_state g) (pause_message_timer g)
     (game_area_width g) (game_area_height g) (game_offset_x g) (game_offset_y g)
     (current_level g) (max_level g) (is_transitioning g) (transition_progress g)
     (transition_direction g) (reset_button g) (bird g) (targets g).

Definition set_last_fist_state (g : t) (v : bool) : t :=
  mk (width g) (height g) (pulling g) (pull_x g) (pull_y g) (score g) (game_won g)
     (is_paused g) (fist_detected g) v (pause_message_timer g)
     (game_area_width g) (game_area_height g) (game_offset_x g) (game_offset_y g)
     (current_level g) (max_level g) (is_transitioning g) (transition_progress g)
     (transition_direction g) (reset_button g) (bird g) (targets g).

Definition set_pause_message_timer (g : t) (v : Z) : t :=
  mk (width g) (height g) (pulling g) (pull_x g) (pull_y g) (score g) (game_won g)
     (is_paused g) (fist_detected g) (last_fist_state g) v
     (game_area_width g) (game_area_height g) (game_offset_x g) (game_offset_y g)
     (current_level g) (max_level g) (is_transitioning g) (transition_progress g)
     (transition_direction g) (reset_button g) (bird g) (targets g).

Definition set_current_level (g : t) (v : Z) : t :=
  mk (width g) (height g) (pulling g) (pull_x g) (pull_y g) (score g) (game_won g)
     (is_paused g) (fist_detected g) (last_fist_state g) (pause_message_timer g)
     (game_area_width g) (game_area_height g) (game_offset_x g) (game_offset_y g)
     v (max_level g) (is_transitioning g) (transition_progress g)
     (transition_direction g) (reset_button g) (bird g) (targets g).

Definition set_is_transitioning (g : t) (v : bool) : t :=
  mk (width g) (height g) (pulling g) (pull_x g) (pull_y g) (score g) (game_won g)
     (is_paused g) (fist_detected g) (last_fist_state g) (pause_message_timer g)
     (game_area_width g) (game_area_height g) (game_offset_x g) (game_offset_y g)
     (current_level g) (max_level g) v (transition_progress g)
     (transition_direction g) (reset_button g) (bird g) (targets g).

Definition set_transition_progress (g : t) (v : Z) : t :=
  mk (width g) (height g) (pulling g) (pull_x g) (pull_y g) (score g) (game_won g)
     (is_paused g) (fist_detected g) (last_fist_state g) (pause_message_timer g)
     (game_area_width g) (game_area_height g) (game_offset_x g) (game_offset_y g)
     (current_level g) (max_level g) (is_transitioning g) v
     (transition_direction g) (reset_button g) (bird g) (targets g).

Definition set_transition_direction (g : t) (v : String.string) : t :=
  mk (width g) (height g) (pulling g) (pull_x g) (pull_y g) (score g) (game_won g)
     (is_paused g) (fist_detected g) (last_fist_state g) (pause_message_timer g)
     (game_area_width g) (game_area_height g) (game_offset_x g) (game_offset_y g)
     (current_level g) (max_level g) (is_transitioning g) (transition_progress g)
     v (reset_button g) (bird g) (targets g).

Definition set_reset_button (g : t) (v : Button.t) : t :=
  mk (width g) (height g) (pulling g) (pull_x g) (pull_y g) (score g) (game_won g)
     (is_paused g) (fist_detected g) (last_fist_state g) (pause_message_timer g)
     (game_area_width g) (game_area_height g) (game_offset_x g) (game_offset_y g)
     (current_level g) (max_level g) (is_transitioning g) (transition_progress g)
     (transition_direction g) v (bird g) (targets g).

Definition set_bird (g : t) (v : SimpleBird.t) : t :=
  mk (width g) (height g) (pulling g) (pull_x g) (pull_y g) (score g) (game_won g)
     (is_paused g) (fist_detected g) (last_fist_state g) (pause_message_timer g)
     (game_area_width g) (game_area_height g) (game_offset_x g) (game_offset_y g)
     (current_level g) (max_level g) (is_transitioning g) (transition_progress g)
     (transition_direction g) (reset_button g) v (targets g).

Definition set_targets (g : t) (v : list SimpleTarget.t) : t :=
  mk (width g) (height g) (pulling g) (pull_x g) (pull_y g) (score g) (game_won g)
     (is_paused g) (fist_detected g) (last_fist_state g) (pause_message_timer g)
     (game_area_width g) (game_area_height g) (game_offset_x g) (game_offset_y g)
     (current_level g) (max_level g) (is_transitioning g) (transition_progress g)
     (transition_direction g) (reset_button g) (bird g) v.

(** ** [__init__] and [init_level] *)

(** The bird that [init_level] creates. *)
Definition level_bird (game_offset_x game_offset_y game_area_height : float)
  : SimpleBird.t :=
  SimpleBird.init (game_offset_x + 100)%float
                  (game_offset_y + game_area_height - 150)%float.

(** The target table of [init_level]: offsets from the bottom-right
    corner of the game area, level by level. *)
Definition level_offsets (level : Z) : list (float * float) :=
  if (level =? 1)%Z then
    [(100, 100); (150, 150); (200, 100)]%float
  else if (level =? 2)%Z then
    [(80, 80); (120, 120); (160, 160); (200, 80)]%float
  else if (level =? 3)%Z then
    [(70, 70); (110, 110); (150, 150); (190, 110); (230, 70)]%float
  else if (level =? 4)%Z then
    [(100, 60); (140, 60); (180, 60); (120, 100); (160, 100); (140, 140)]%float
  else
    [(80, 60); (120, 100); (160, 140); (200, 100); (240, 60); (130, 180);
     (170, 180)]%float.

Definition level_targets (game_offset_x game_offset_y game_area_width
                          game_area_height : float) (level : Z)
  : list SimpleTarget.t :=
  map (fun d : float * float =>
         SimpleTarget.init (game_offset_x + game_area_width - fst d)%float
                           (game_offset_y + game_area_height - snd d)%float)
      (level_offsets level).

(** [init_level(self)] *)
Definition init_level (g : t) : t :=
  let g1 := set_bird g (level_bird (game_offset_x g) (game_offset_y g)
                                   (game_area_height g)) in
  let g2 := set_targets g1 (level_targets (game_offset_x g) (game_offset_y g)
                              (game_area_width g) (game_area_height g)
                              (current_level g)) in
  set_pulling g2 false.

(** [__init__(self, width, height)] *)
Definition init (frame_width frame_height : Z) : t :=
  let gaw := Py.min (Py.of_int frame_width * 0.8)%float 800%float in
  let gah := Py.min (Py.of_int frame_height * 0.8)%float 600%float in
  let gox := Py.floordiv2 (Py.of_int frame_width - gaw)%float in
  let goy := Py.floordiv2 (Py.of_int frame_height - gah)%float in
  init_level
    {| width := frame_width; height := frame_height;
       pulling := false; pull_x := 0; pull_y := 0; score := 0;
       game_won := false;
       is_paused := false; fist_detected := false; last_fist_state := false;
       pause_message_timer := 0;
       game_area_width := gaw; game_area_height := gah;
       game_offset_x := gox; game_offset_y := goy;
       current_level := 1; max_level := 5;
       is_transitioning := false; transition_progress := 0;
       transition_direction := "left"%string;
       reset_button := Button.init frame_height;
       bird := SimpleBird.init 0 0; targets := [] |}.

(** ** Level transition *)

(** [start_transition(self, direction)] *)
Definition start_transition (g : t) (direction : String.string) : t :=
  set_transition_direction
    (set_transition_progress (set_is_transitioning g true) 0) direction.

(** [next_level(self)] *)
Definition next_level (g : t) : t :=
  if negb (is_transitioning g) && (current_level g <? max_level g)%Z then
    let g1 := start_transition g "left"%string in
    set_current_level g1 (current_level g1 + 1)
  else g.

(** [update_transition(self)]: the game afterwards and the value
    returned. *)
Definition update_transition (g : t) : t * bool :=
  if is_transitioning g then
    let g1 := set_transition_progress g (transition_progress g + 3) in
    if (100 <=? transition_progress g1)%Z then
      (init_level (set_transition_progress (set_is_transitioning g1 false) 0),
       true)
    else (g1, false)
  else (g, false).

(** ** Physics tick *)

(** The loop [for target in self.targets: if target.check_collision(...):
    self.score += 100]. *)
Fixpoint check_collisions {L : Libm} (b : SimpleBird.t)
         (ts : list SimpleTarget.t) (sc : Z) : list SimpleTarget.t * Z :=
  match ts with
  | [] => ([], sc)
  | tg :: rest =>
      let (tg', hit) := SimpleTarget.check_collision tg b in
      let sc' := if hit then (sc + 100)%Z else sc in
      let (rest', sc'') := check_collisions b rest sc' in
      (tg' :: rest', sc'')
  end.

(** The boundary test of [update]. *)
Definition out_of_bounds (g : t) : bool :=
  (game_offset_x g + game_area_width g <? SimpleBird.x (bird g))%float
  || (game_offset_y g + game_area_height g <? SimpleBird.y (bird g))%float
  || (SimpleBird.x (bird g) <? game_offset_x g)%float.

(** What [update] does after [self.bird.update()] has returned. *)
Definition after_physics {L : Libm} (g : t) : t :=
  let (ts, sc) := check_collisions (bird g) (targets g) (score g) in
  let g1 := set_score (set_targets g ts) sc in
  let g2 := if out_of_bounds g1 then
              if SimpleBird.is_flying (bird g1)
              then set_bird g1 (SimpleBird.reset (bird g1))
              else g1
            else g1 in
  set_game_won g2 (forallb SimpleTarget.is_destroyed (targets g2)).

(** [update(self)] *)
Definition update {L : Libm} (g : t) : outcome t :=
  if is_transitioning g then Normal (fst (update_transition g))
  else
    match SimpleBird.update (bird g) with
    | Raised b => Raised (set_bird g b)
    | Normal b => Normal (after_physics (set_bird g b))
    end.

(** ** Slingshot *)

(** [start_pull(self, x, y)] *)
Definition start_pull {L : Libm} (g : t) (px py : float) : t :=
  if negb (SimpleBird.is_flying (bird g)) && negb (game_won g) then
    let distance :=
      sqrt (pow2 (px - SimpleBird.x (bird g))
            + pow2 (py - SimpleBird.y (bird g)))%float in
    if (distance <? 40)%float then set_pulling g true else g
  else g.

Definition move_bird (b : SimpleBird.t) (px py : float) : SimpleBird.t :=
  SimpleBird.mk px py (SimpleBird.start_x b) (SimpleBird.start_y b)
                (SimpleBird.radius b) (SimpleBird.vel_x b) (SimpleBird.vel_y b)
                (SimpleBird.is_flying b) (SimpleBird.trail b).

(** [update_pull(self, x, y)] *)
Definition update_pull {L : Libm} (g : t) (px py : float) : t :=
  if pulling g then
    let max_distance := 100%float in
    let sx := SimpleBird.start_x (bird g) in
    let sy := SimpleBird.start_y (bird g) in
    let distance := sqrt (pow2 (px - sx) + pow2 (py - sy))%float in
    let (qx, qy) :=
      if (max_distance <? distance)%float then
        let direction_x := ((px - sx) / distance)%float in
        let direction_y := ((py - sy) / distance)%float in
        ((sx + direction_x * max_distance)%float,
         (sy + direction_y * max_distance)%float)
      else (px, py) in
    set_bird (set_pull g qx qy) (move_bird (bird g) qx qy)
  else g.

(** [release(self)] *)
Definition release (g : t) : outcome t :=
  if pulling g then
    let b := bird g in
    let vel_x := ((SimpleBird.start_x b - SimpleBird.x b) * 0.15)%float in
    let vel_y := ((SimpleBird.start_y b - SimpleBird.y b) * 0.15)%float in
    match SimpleBird.launch b vel_x vel_y with
    | Raised b' => Raised (set_bird g b')
    | Normal b' => Normal (set_pulling (set_bird g b') false)
    end
  else Normal g.

(** ** Restart *)

(** [reset_game(self)] *)
Definition reset_game (g : t) : t :=
  let g1 := set_bird g (SimpleBird.reset (bird g)) in
  let g2 := set_targets g1
              (map (fun tg => SimpleTarget.set_destroyed tg false) (targets g1)) in
  set_pulling (set_game_won (set_score g2 0) false) false.

(** [check_button_hover(self, x, y)]: the game afterwards and the value
    returned. *)
Definition check_button_hover (g : t) (px py : float) : t * bool :=
  let button := reset_button g in
  let in_expanded_area := Button.in_expanded_area button px py in
  let in_button_area := Button.in_button_area button px py in
  let current_in_area := in_expanded_area in
  let just_left := negb current_in_area && Button.was_in_area button in
  let button :=
    if just_left then
      Button.set_hover
        (Button.set_active
           (Button.set_progress (Button.set_has_triggered button false) 0)
           false)
        false
    else button in
  if current_in_area && negb (Button.has_triggered button) then
    let button := Button.set_active (Button.set_hover button true) true in
    let button :=
      Button.set_progress button
        (if in_button_area then Button.progress button + 2
         else Button.progress button + 1) in
    if (Button.max_progress button <=? Button.progress button)%Z then
      let g1 := reset_game (set_reset_button g button) in
      let button :=
        Button.set_active
          (Button.set_progress (Button.set_has_triggered button true)
                               (Button.max_progress button))
          false in
      (set_reset_button g1 (Button.set_was_in_area button current_in_area), true)
    else
      (set_reset_button g (Button.set_was_in_area button current_in_area), false)
  else if current_in_area && Button.has_triggered button then
    let button := Button.set_active (Button.set_hover button true) false in
    (set_reset_button g (Button.set_was_in_area button current_in_area), false)
  else if negb current_in_area then
    let button := Button.set_active (Button.set_hover button false) false in
    let button :=
      if negb (Button.has_triggered button)
      then Button.set_progress button (Z.max 0 (Button.progress button - 3))
      else button in
    (set_reset_button g (Button.set_was_in_area button current_in_area), false)
  else
    (set_reset_button g (Button.set_was_in_area button current_in_area), false).

(** ** Pause *)

(** [update_pause_state(self)] *)
Definition update_pause_state (g : t) : t :=
  let g1 :=
    if fist_detected g && negb (last_fist_state g) then
      set_pause_message_timer (set_is_paused g true) 120
    else if negb (fist_detected g) && last_fist_state g then
      set_pause_message_timer (set_is_paused g false) 60
    else g in
  let g2 := set_last_fist_state g1 (fist_detected g1) in
  if (0 <? pause_message_timer g2)%Z
  then set_pause_message_timer g2 (pause_message_timer g2 - 1)
  else g2.

End SimpleGame.

(* ================================================================== *)
(** * Gesture detection *)
(* ================================================================== *)

Module Landmark.
Record t : Type := mk { x : float; y : float; z : float }.
End Landmark.

(** One detected hand: the 21 landmarks of the provider, in its order
    (0 wrist; 1-4 thumb; 5-8 index; 9-12 middle; 13-16 ring; 17-20 pinky). *)
Definition Hand : Type := list Landmark.t.

(** [hand_landmarks.landmark[i]] (the provider always delivers 21 points,
    and no index above 20 is used). *)
Definition landmark (h : Hand) (i : nat) : Landmark.t :=
  nth i h (Landmark.mk 0 0 0).

Definition finger_tips : list nat := [8; 12; 16; 20]%nat.
Definition finger_pips : list nat := [6; 10; 14; 18]%nat.
Definition finger_mcps : list nat := [5; 9; 13; 17]%nat.

(** [detect_pinch(hand_landmarks, width, height)] *)
Definition detect_pinch {L : Libm} (hand_landmarks : option Hand) (width height : Z)
  : bool * (float * float) * float :=
  match hand_landmarks with
  | None => (false, (0, 0), 0)%float
  | Some h =>
      let thumb_tip := landmark h 4 in
      let index_tip := landmark h 8 in
      let thumb_x := (Landmark.x thumb_tip * Py.of_int width)%float in
      let thumb_y := (Landmark.y thumb_tip * Py.of_int height)%float in
      let index_x := (Landmark.x index_tip * Py.of_int width)%float in
      let index_y := (Landmark.y index_tip * Py.of_int height)%float in
      let distance :=
        sqrt (pow2 (thumb_x - index_x) + pow2 (thumb_y - index_y))%float in
      let center_x := ((thumb_x + index_x) / 2)%float in
      let center_y := ((thumb_y + index_y) / 2)%float in
      let is_pinching := (distance <? 40)%float in
      (is_pinching, (center_x, center_y), distance)
  end.

(** The loop shared by [detect_pointing] and [detect_left_swipe]: 1 for a
    finger whose tip is above its PIP joint, else 0. *)
Definition four_fingers_up (h : Hand) : list Z :=
  map (fun tp : nat * nat =>
         if (Landmark.y (landmark h (fst tp)) <? Landmark.y (landmark h (snd tp)))%float
         then 1%Z else 0%Z)
      (combine finger_tips finger_pips).

(** [detect_pointing(hand_landmarks, width, height)] *)
Definition detect_pointing (hand_landmarks : option Hand) (width height : Z)
  : bool * (float * float) :=
  match hand_landmarks with
  | None => (false, (0, 0)%float)
  | Some h =>
      let thumb_tip := landmark h 4 in
      let thumb_mcp := landmark h 2 in
      let thumb :=
        if (0.02 <? abs (Landmark.x thumb_tip - Landmark.x thumb_mcp))%float
        then 1%Z else 0%Z in
      let fingers_up := [thumb] ++ four_fingers_up h in
      let index_up := (nth 1 fingers_up 0 =? 1)%Z in
      let other_fingers_down := (Py.sum (skipn 2 fingers_up) <=? 1)%Z in
      let is_pointing := index_up && other_fingers_down in
      let index_tip := landmark h 8 in
      let point_x := (Landmark.x index_tip * Py.of_int width)%float in
      let point_y := (Landmark.y index_tip * Py.of_int height)%float in
      (is_pointing, (point_x, point_y))
  end.

(** [detect_left_swipe(hand_landmarks, width, height)] *)
Definition detect_left_swipe (hand_landmarks : option Hand) (width height : Z)
  : bool * (float * float) :=
  match hand_landmarks with
  | None => (false, (0, 0)%float)
  | Some h =>
      let wrist := landmark h 0 in
      let middle_tip := landmark h 12 in
      let wrist_x := (Landmark.x wrist * Py.of_int width)%float in
      let middle_x := (Landmark.x middle_tip * Py.of_int width)%float in
      let thumb :=
        if (Landmark.x (landmark h 3) <? Landmark.x (landmark h 4))%float
        then 1%Z else 0%Z in
      let fingers_up := [thumb] ++ four_fingers_up h in
      let open_palm := (3 <=? Py.sum fingers_up)%Z in
      let is_left_extended := (middle_x <? wrist_x - 50)%float in
      let swipe_center_x := ((wrist_x + middle_x) / 2)%float in
      let swipe_center_y :=
        ((Landmark.y wrist + Landmark.y middle_tip) / 2 * Py.of_int height)%float in
      (open_palm && is_left_extended, (swipe_center_x, swipe_center_y))
  end.

(** [((ax - bx)**2 + (ay - by)**2)**0.5], the distance expression that
    [detect_fist] writes out six times. *)
Definition dist {L : Libm} (ax ay bx by_ : float) : float :=
  pow_half (pow2 (ax - bx) + pow2 (ay - by_))%float.

(** [detect_fist(hand_landmarks)] *)
Definition detect_fist {L : Libm} (hand_landmarks : option Hand) : bool :=
  match hand_landmarks with
  | None => false
  | Some h =>
      let wrist := landmark h 0 in
      let middle_mcp := landmark h 9 in
      let palm_center_x := ((Landmark.x wrist + Landmark.x middle_mcp) / 2)%float in
      let palm_center_y := ((Landmark.y wrist + Landmark.y middle_mcp) / 2)%float in
      let thumb_tip := landmark h 4 in
      let thumb_mcp := landmark h 2 in
      let thumb_to_palm_dist :=
        dist (Landmark.x thumb_tip) (Landmark.y thumb_tip) palm_center_x palm_center_y in
      let thumb_mcp_to_palm_dist :=
        dist (Landmark.x thumb_mcp) (Landmark.y thumb_mcp) palm_center_x palm_center_y in
      let thumb_bent := (thumb_to_palm_dist <? thumb_mcp_to_palm_dist * 0.95)%float in
      let fingers_properly_bent :=
        [thumb_bent] ++
        map (fun idx : nat * (nat * nat) =>
               let tip := landmark h (fst idx) in
               let pip := landmark h (fst (snd idx)) in
               let mcp := landmark h (snd (snd idx)) in
               let basic_bent := (Landmark.y pip <? Landmark.y tip)%float in
               let tip_to_palm_dist :=
                 dist (Landmark.x tip) (Landmark.y tip) palm_center_x palm_center_y in
               let mcp_to_palm_dist :=
                 dist (Landmark.x mcp) (Landmark.y mcp) palm_center_x palm_center_y in
               let close_to_palm := (tip_to_palm_dist <? mcp_to_palm_dist * 0.9)%float in
               basic_bent && close_to_palm)
            (combine finger_tips (combine finger_pips finger_mcps)) in
      let most_fingers_bent := (4 <=? Py.sum_bool fingers_properly_bent)%Z in
      let finger_tips_coords :=
        map (fun tip_idx => (Landmark.x (landmark h tip_idx),
                             Landmark.y (landmark h tip_idx))) finger_tips in
      let max_finger_distance :=
        fold_left
          (fun (acc : float) (i : nat) =>
             let p := nth i finger_tips_coords (0, 0)%float in
             let q := nth (i + 1) finger_tips_coords (0, 0)%float in
             Py.max acc (dist (fst p) (snd p) (fst q) (snd q)))
          (seq 0 (length finger_tips_coords - 1)) 0%float in
      let hand_size :=
        dist (Landmark.x wrist) (Landmark.y wrist)
             (Landmark.x middle_mcp) (Landmark.y middle_mcp) in
      let fingers_close_together := (max_finger_distance <? hand_size * 0.5)%float in
      most_fingers_bent && fingers_close_together
  end.

(* ================================================================== *)
(** * The two detection histories (module globals) *)
(* ================================================================== *)

(** [update_fist_detection(is_fist_detected)]: the history afterwards and
    the value returned. *)
Definition update_fist_detection (fist_history : list bool) (is_fist_detected : bool)
  : list bool * bool :=
  let h1 := fist_history ++ [is_fist_detected] in
  let h2 := if (3 <? Z.of_nat (length h1))%Z then tl h1 else h1 in
  if (2 <=? Z.of_nat (length h2))%Z then
    let recent_fists := Py.last_n 2 h2 in
    let consecutive_fists := Z.of_nat (length (filter (fun fist : bool => fist) recent_fists)) in
    (h2, (1 <=? consecutive_fists)%Z)
  else (h2, is_fist_detected).

(** [update_swipe_detection(is_swiping, position)] *)
Definition update_swipe_detection
           (swipe_history : list (bool * (float * float)))
           (is_swiping : bool) (position : float * float)
  : list (bool * (float * float)) * bool :=
  let h1 := swipe_history ++ [(is_swiping, position)] in
  let h2 := if (10 <? Z.of_nat (length h1))%Z then tl h1 else h1 in
  if (5 <=? Z.of_nat (length h2))%Z then
    let recent_swipes := Py.last_n 5 h2 in
    let consecutive_swipes :=
      Z.of_nat (length (filter (fun sp : bool * (float * float) => fst sp) recent_swipes)) in
    (h2, (3 <=? consecutive_swipes)%Z)
  else (h2, false).

(* ================================================================== *)
(** * The per-frame callback *)
(* ================================================================== *)

(** What the callback reads from a frame: the image size and the hands
    the detector reports ([results.multi_hand_landmarks]; [None] and the
    empty list are both no hands). *)
Record Frame : Type := {
  frame_width : Z;
  frame_height : Z;
  hands : list Hand
}.

(** The module's global variables. *)
Record Globals : Type := {
  game : option SimpleGame.t;
  swipe_history : list (bool * (float * float));
  fist_history : list bool
}.

(** The [SimpleGame] methods the callback invokes, recorded in call order.
    The record is not a program variable: it is what the claims about
    "which updates a tick performs" speak about. *)
Inductive Call : Type :=
| call_check_button_hover (px py : float)
| call_update_pause_state
| call_start_pull (px py : float)
| call_update_pull (px py : float)
| call_release
| call_next_level
| call_update.

(** The callback's local gesture variables. *)
Record Locals : Type := {
  is_pinching : bool;
  pinch_center : float * float;
  pinch_distance : float;
  is_pointing : bool;
  point_position : float * float;
  is_swiping : bool;
  swipe_position : float * float
}.

Definition no_gesture : Locals :=
  {| is_pinching := false; pinch_center := (0, 0)%float; pinch_distance := 0;
     is_pointing := false; point_position := (0, 0)%float;
     is_swiping := false; swipe_position := (0, 0)%float |}.

(** Everything a running callback has in hand. *)
Record Run : Type := {
  locals : Locals;
  the_game : SimpleGame.t;
  swipes : list (bool * (float * float));
  fists : list bool;
  calls : list Call
}.

Definition with_game (r : Run) (g : SimpleGame.t) (c : list Call) : Run :=
  {| locals := locals r; the_game := g; swipes := swipes r; fists := fists r;
     calls := calls r ++ c |}.

(** The body of [for hand_landmarks in results.multi_hand_landmarks]. *)
Definition process_hand {L : Libm} (width height : Z) (r : Run) (hand : Hand) : Run :=
  let l0 := locals r in
  (* pinch *)
  let '(pinching, center, distance) := detect_pinch (Some hand) width height in
  let l1 :=
    if pinching then
      {| is_pinching := true; pinch_center := center; pinch_distance := distance;
         is_pointing := is_pointing l0; point_position := point_position l0;
         is_swiping := is_swiping l0; swipe_position := swipe_position l0 |}
    else l0 in
  (* pointing: the button is checked for every pointing hand *)
  let '(pointing, point_pos) := detect_pointing (Some hand) width height in
  let l2 :=
    if pointing then
      {| is_pinching := is_pinching l1; pinch_center := pinch_center l1;
         pinch_distance := pinch_distance l1;
         is_pointing := true; point_position := point_pos;
         is_swiping := is_swiping l1; swipe_position := swipe_position l1 |}
    else l1 in
  let '(g1, c1) :=
    if pointing then
      (fst (SimpleGame.check_button_hover (the_game r) (fst point_pos) (snd point_pos)),
       [call_check_button_hover (fst point_pos) (snd point_pos)])
    else (the_game r, []) in
  (* left swipe *)
  let '(swiping, swipe_pos) := detect_left_swipe (Some hand) width height in
  let l3 :=
    if swiping then
      {| is_pinching := is_pinching l2; pinch_center := pinch_center l2;
         pinch_distance := pinch_distance l2;
         is_pointing := is_pointing l2; point_position := point_position l2;
         is_swiping := true; swipe_position := swipe_pos |}
    else l2 in
  (* fist *)
  let raw_fist_detected := detect_fist (Some hand) in
  let '(fh, stable_fist_detected) := update_fist_detection (fists r) raw_fist_detected in
  let g2 := SimpleGame.set_fist_detected g1 stable_fist_detected in
  {| locals := l3; the_game := g2; swipes := swipes r; fists := fh;
     calls := calls r ++ c1 |}.

(** The slingshot part of the block [if not game.is_paused]. *)
Definition slingshot_logic {L : Libm} (r : Run) : outcome Run :=
  let g := the_game r in
  let l := locals r in
  let px := fst (pinch_center l) in
  let py := snd (pinch_center l) in
  if is_pinching l && negb (SimpleGame.pulling g) then
    Normal (with_game r (SimpleGame.start_pull g px py) [call_start_pull px py])
  else if is_pinching l && SimpleGame.pulling g then
    Normal (with_game r (SimpleGame.update_pull g px py) [call_update_pull px py])
  else if negb (is_pinching l) && SimpleGame.pulling g then
    match SimpleGame.release g with
    | Normal g' => Normal (with_game r g' [call_release])
    | Raised g' => Raised (with_game r g' [call_release])
    end
  else Normal r.

(** The button part of the block [if not game.is_paused]. *)
Definition button_logic (r : Run) : Run :=
  let g := the_game r in
  let l := locals r in
  if is_pointing l then
    let px := fst (point_position l) in
    let py := snd (point_position l) in
    with_game r (fst (SimpleGame.check_button_hover g px py))
              [call_check_button_hover px py]
  else
    with_game r (fst (SimpleGame.check_button_hover g (-1) (-1)))
              [call_check_button_hover (-1) (-1)].

(** [if not game.is_paused: ...] (first occurrence) *)
Definition game_logic {L : Libm} (r : Run) : outcome Run :=
  if negb (SimpleGame.is_paused (the_game r)) then
    and_then (slingshot_logic r) (fun r1 => Normal (button_logic r1))
  else Normal r.

(** Swipe detection and level switching. *)
Definition swipe_logic (r : Run) : Run :=
  let l := locals r in
  let '(sh, level_switched) :=
    update_swipe_detection (swipes r) (is_swiping l) (swipe_position l) in
  let r1 := {| locals := l; the_game := the_game r; swipes := sh;
               fists := fists r; calls := calls r |} in
  let g := the_game r1 in
  if level_switched && SimpleGame.game_won g && negb (SimpleGame.is_transitioning g) then
    if (SimpleGame.current_level g <? SimpleGame.max_level g)%Z
    then with_game r1 (SimpleGame.next_level g) [call_next_level]
    else r1
  else r1.

(** [if not game.is_paused: game.update()] *)
Definition update_logic {L : Libm} (r : Run) : outcome Run :=
  if negb (SimpleGame.is_paused (the_game r)) then
    match SimpleGame.update (the_game r) with
    | Normal g' => Normal (with_game r g' [call_update])
    | Raised g' => Raised (with_game r g' [call_update])
    end
  else Normal r.

(** The [try] block of [video_frame_callback], from the lazy creation of
    the game to [game.update()]. *)
Definition run_frame {L : Libm} (fr : Frame) (gl : Globals) : outcome Run :=
  let width := frame_width fr in
  let height := frame_height fr in
  let g0 := match game gl with
            | None => SimpleGame.init width height
            | Some g => g
            end in
  let r0 := {| locals := no_gesture; the_game := g0;
               swipes := swipe_history gl; fists := fist_history gl;
               calls := [] |} in
  let r1 := fold_left (process_hand width height) (hands fr) r0 in
  let r2 := with_game r1 (SimpleGame.update_pause_state (the_game r1))
                      [call_update_pause_state] in
  and_then (game_logic r2)
           (fun r3 => update_logic (swipe_logic r3)).

(** [video_frame_callback(frame)]: the globals after the frame (the
    [except] branch only draws, so a raised exception leaves them as they
    were at the raise) and the methods that were called. *)
Definition video_frame_callback {L : Libm} (fr : Frame) (gl : Globals)
  : Globals * list Call :=
  let r := state_of (run_frame fr gl) in
  ({| game := Some (the_game r); swipe_history := swipes r;
      fist_history := fists r |},
   calls r).


(* ================================================================== *)
(** * Runs, and the properties as the specification words them *)
(* ================================================================== *)

(** [n] successive calls of [game.update()] (an exception ends a frame,
    not the game: the next frame calls [update] on the object as it is). *)
Fixpoint updates {L : Libm} (n : nat) (g : SimpleGame.t) : SimpleGame.t :=
  match n with
  | O => g
  | S k => updates k (state_of (SimpleGame.update g))
  end.

(** Successive evaluations of [check_button_hover], one per pointer
    position: the game afterwards and the values returned ([true] is a
    fired restart). *)
Fixpoint hover_run (g : SimpleGame.t) (ps : list (float * float))
  : SimpleGame.t * list bool :=
  match ps with
  | [] => (g, [])
  | p :: rest =>
      let (g1, fired) := SimpleGame.check_button_hover g (fst p) (snd p) in
      let (g2, fs) := hover_run g1 rest in
      (g2, fired :: fs)
  end.

(** Successive calls of [update_fist_detection]: the history afterwards
    and the stabilized values returned. *)
Fixpoint fist_run (fist_history : list bool) (raws : list bool)
  : list bool * list bool :=
  match raws with
  | [] => (fist_history, [])
  | raw :: rest =>
      let (h1, stable) := update_fist_detection fist_history raw in
      let (h2, out) := fist_run h1 rest in
      (h2, stable :: out)
  end.

(** The fist rule in the specification's words, next to the rule that the
    code applies.  They differ in which fingertip distances are taken. *)
Section FistRule.
Context {L : Libm}.
Variable h : Hand.

Definition palm_center : float * float :=
  (((Landmark.x (landmark h 0) + Landmark.x (landmark h 9)) / 2)%float,
   ((Landmark.y (landmark h 0) + Landmark.y (landmark h 9)) / 2)%float).

(** wrist to middle-finger base *)
Definition hand_size : float :=
  dist (Landmark.x (landmark h 0)) (Landmark.y (landmark h 0))
       (Landmark.x (landmark h 9)) (Landmark.y (landmark h 9)).

Definition to_palm (i : nat) : float :=
  dist (Landmark.x (landmark h i)) (Landmark.y (landmark h i))
       (fst palm_center) (snd palm_center).

Definition thumb_is_bent : bool :=
  (to_palm 4 <? to_palm 2 * 0.95)%float.

Definition finger_is_bent (tip pip mcp : nat) : bool :=
  (Landmark.y (landmark h pip) <? Landmark.y (landmark h tip))%float
  && (to_palm tip <? to_palm mcp * 0.9)%float.

Definition bent_count : Z :=
  (Z.b2z thumb_is_bent + Z.b2z (finger_is_bent 8 6 5)
   + Z.b2z (finger_is_bent 12 10 9) + Z.b2z (finger_is_bent 16 14 13)
   + Z.b2z (finger_is_bent 20 18 17))%Z.

Definition tip_distance (i j : nat) : float :=
  dist (Landmark.x (landmark h i)) (Landmark.y (landmark h i))
       (Landmark.x (landmark h j)) (Landmark.y (landmark h j)).

Definition greatest (ds : list float) : float := fold_left Py.max ds 0%float.

(** all six pairs of the four non-thumb fingertips *)
Definition max_pairwise_tip_distance : float :=
  greatest [tip_distance 8 12; tip_distance 8 16; tip_distance 8 20;
            tip_distance 12 16; tip_distance 12 20; tip_distance 16 20].

(** neighbouring fingertips only *)
Definition max_adjacent_tip_distance : float :=
  greatest [tip_distance 8 12; tip_distance 12 16; tip_distance 16 20].

Definition fist_as_specified : bool :=
  (4 <=? bent_count)%Z && (max_pairwise_tip_distance <? hand_size * 0.5)%float.

Definition fist_by_adjacent_tips : bool :=
  (4 <=? bent_count)%Z && (max_adjacent_tip_distance <? hand_size * 0.5)%float.

End FistRule.

(** ** Concrete hands and frames (640 x 480) *)

Definition pt (px py : float) : Landmark.t := Landmark.mk px py 0.

(** A closed hand whose four fingertips lie in a row, 0.125 apart: wrist
    (0.5, 1), middle base (0.5, 0.5), palm centre (0.5, 0.75), hand size
    0.5.  All coordinates are dyadic and every distance is exact. *)
Definition row_fist : Hand :=
  [ pt 0.5 1;                                            (* 0 wrist *)
    pt 0.375 0.875; pt 0.25 0.75; pt 0.375 0.75; pt 0.5 0.75;        (* thumb *)
    pt 0 0.75; pt 0.25 0.5; pt 0.25 0.625; pt 0.25 0.75;             (* index *)
    pt 0.5 0.5; pt 0.375 0.5; pt 0.375 0.625; pt 0.375 0.75;         (* middle *)
    pt 0.75 0.75; pt 0.5 0.5; pt 0.5 0.625; pt 0.5 0.75;             (* ring *)
    pt 1 0.75; pt 0.625 0.5; pt 0.625 0.625; pt 0.625 0.75 ]%float.  (* pinky *)

(** A hand pointing with the index finger; the fingertip is at
    (0.125, 0.8125), pixel (80, 390) of a 640 x 480 frame, inside the
    restart button (x 10..120, y 370..410).  The other three fingers are
    folded, the thumb is stretched away from the index. *)
Definition pointing_hand : Hand :=
  [ pt 0.25 1;                                                         (* 0 wrist *)
    pt 0.3125 0.96875; pt 0.375 0.9375; pt 0.4375 0.90625; pt 0.5 0.875;   (* thumb *)
    pt 0.1875 0.9375; pt 0.125 0.875; pt 0.125 0.84375; pt 0.125 0.8125;   (* index *)
    pt 0.25 0.9375; pt 0.25 0.90625; pt 0.25 0.921875; pt 0.25 0.9375;     (* middle *)
    pt 0.28125 0.9375; pt 0.28125 0.90625; pt 0.28125 0.921875; pt 0.28125 0.9375;
    pt 0.3125 0.9375; pt 0.3125 0.90625; pt 0.3125 0.921875; pt 0.3125 0.9375 ]%float.

(** The same hand moved right by [dx] (normalized units). *)
Definition shifted (dx : float) (h : Hand) : Hand :=
  map (fun p => Landmark.mk (Landmark.x p + dx)%float (Landmark.y p) (Landmark.z p)) h.

Definition frame_of (hs : list Hand) : Frame :=
  {| frame_width := 640; frame_height := 480; hands := hs |}.

(** The globals when the module has just been loaded. *)
Definition fresh : Globals :=
  {| game := None; swipe_history := []; fist_history := [] |}.


(** The game of a 640 x 480 session in which the slingshot has been
    pinched at the bird (164, 282) and dragged to (124, 362). *)
Definition pulled_game : SimpleGame.t :=
  SimpleGame.update_pull (L := ieee_libm)
    (SimpleGame.start_pull (L := ieee_libm) (SimpleGame.init 640 480) 164 282)
    124 362.

(** ... and released: the bird flies with velocity (6, -12). *)
Definition flying_game : SimpleGame.t := state_of (SimpleGame.release pulled_game).

(** ... and 19 physics ticks later: the trail holds 20 points. *)
Definition full_trail_game : SimpleGame.t := updates (L := ieee_libm) 19 flying_game.

(** C9 as the specification words it: with a full trail, a flying tick
    drops the oldest point and appends the newest. *)
Definition trail_slides_when_full : Prop :=
  forall (b : SimpleBird.t) (p : Z * Z),
    SimpleBird.is_flying b = true ->
    length (SimpleBird.trail b) = 20%nat ->
    SimpleBird.pixel (SimpleBird.integrate b) = Some p ->
    SimpleBird.trail (state_of (SimpleBird.update b))
    = tl (SimpleBird.trail b) ++ [p].

Definition trail_ok (g : SimpleGame.t) : Prop :=
  (length (SimpleBird.trail (SimpleGame.bird g)) <= 20)%nat.


(** The pointer positions of the [check_button_hover] calls in a call
    record, in order. *)
Definition hover_calls (cs : list Call) : list (float * float) :=
  flat_map (fun c => match c with
                     | call_check_button_hover px py => [(px, py)]
                     | _ => []
                     end) cs.

Definition hover_call (p : float * float) : Call :=
  call_check_button_hover (fst p) (snd p).

(** The calls of a record that are not button checks. *)
Definition other_calls (cs : list Call) : list Call :=
  filter (fun c => match c with
                   | call_check_button_hover _ _ => false
                   | _ => true
                   end) cs.

(** The index fingertip of a hand if it is detected as pointing. *)
Definition hand_pointer (width height : Z) (hand : Hand) : list (float * float) :=
  let (pointing, point_pos) := detect_pointing (Some hand) width height in
  if pointing then [point_pos] else [].

(** The index-fingertip positions of the hands of a frame that are
    detected as pointing, in the order of the hands. *)
Definition pointers (fr : Frame) : list (float * float) :=
  flat_map (hand_pointer (frame_width fr) (frame_height fr)) (hands fr).

(** The position the callback's locals hold for the button. *)
Definition pointer_of (l : Locals) : float * float :=
  if is_pointing l then point_position l else (-1, -1)%float.

(** The position handed to the button in the unpaused phase: that of the
    last pointing hand, or (-1, -1) when no hand points. *)
Definition final_pointer (fr : Frame) : float * float :=
  last (pointers fr) (-1, -1)%float.

(** The game a frame starts from. *)
Definition game_at (fr : Frame) (gl : Globals) : SimpleGame.t :=
  match game gl with
  | Some g => g
  | None => SimpleGame.init (frame_width fr) (frame_height fr)
  end.

(** C5 as the specification words it, for the button: in a tick of a
    transition, input updates are suspended, so the tick leaves the
    progress of the restart button where it was. *)
Definition input_suspended_while_transitioning : Prop :=
  forall (L : Libm) (fr : Frame) (gl : Globals) (g : SimpleGame.t),
    game gl = Some g ->
    SimpleGame.is_transitioning g = true ->
    Button.progress
      (SimpleGame.reset_button (game_at fr (fst (video_frame_callback fr gl))))
    = Button.progress (SimpleGame.reset_button g).

(** C10 as worded: a tick in which a pointing gesture is detected and
    which is not paused evaluates [check_button_hover] twice. *)
Definition hover_checked_twice_when_pointing : Prop :=
  forall (L : Libm) (fr : Frame) (gl : Globals),
    pointers fr <> [] ->
    SimpleGame.is_paused (game_at fr (fst (video_frame_callback fr gl))) = false ->
    length (hover_calls (snd (video_frame_callback fr gl))) = 2%nat.

(** A session that is in the level transition started by [next_level()]
    on a fresh 640 x 480 game. *)
Definition transitioning_session : Globals :=
  {| game := Some (SimpleGame.next_level (SimpleGame.init 640 480));
     swipe_history := []; fist_history := [] |}.

(** Two frames: a closed hand, then a pointing hand. *)
Definition fist_frame : Frame := frame_of [row_fist].
Definition pointing_frame : Frame := frame_of [pointing_hand].
Definition two_pointers_frame : Frame :=
  frame_of [pointing_hand; shifted 0.03125 pointing_hand].

(** The fields of the button that hit-testing and the trigger read and
    that nothing writes. *)
Definition geometry (b : Button.t) : Z * Z * Z * Z * Z * Z :=
  (Button.x b, Button.y b, Button.width b, Button.height b,
   Button.detection_padding b, Button.max_progress b).

(** The callback's state when the loop over the hands starts, when it
    has ended, and after [game.update_pause_state()]. *)
Definition at_start (fr : Frame) (gl : Globals) : Run :=
  {| locals := no_gesture; the_game := game_at fr gl;
     swipes := swipe_history gl; fists := fist_history gl; calls := [] |}.

Definition after_hands {L : Libm} (fr : Frame) (gl : Globals) : Run :=
  fold_left (process_hand (frame_width fr) (frame_height fr)) (hands fr)
            (at_start fr gl).

Definition after_pause {L : Libm} (fr : Frame) (gl : Globals) : Run :=
  with_game (after_hands fr gl)
            (SimpleGame.update_pause_state (the_game (after_hands fr gl)))
            [call_update_pause_state].






(* ================================================================== *)
(** * Further notions used by the properties of the remaining code *)
(* ================================================================== *)

Unset Implicit Arguments.

(** How many targets of a list are destroyed. *)
Definition destroyed_count (ts : list SimpleTarget.t) : Z :=
  Z.of_nat (length (filter SimpleTarget.is_destroyed ts)).

(** A target after a tick: the same place and size, and still destroyed
    if it was. *)
Definition same_target_or_hit (tg tg' : SimpleTarget.t) : Prop :=
  SimpleTarget.x tg' = SimpleTarget.x tg
  /\ SimpleTarget.y tg' = SimpleTarget.y tg
  /\ SimpleTarget.radius tg' = SimpleTarget.radius tg
  /\ (SimpleTarget.is_destroyed tg = true -> SimpleTarget.is_destroyed tg' = true).

(** A 640 x 480 game whose bird flies, at rest for an instant, at
    (470, 330), six pixels from the first target of level 1 at
    (476, 332). *)
Definition hit_game : SimpleGame.t :=
  SimpleGame.set_bird (SimpleGame.init 640 480)
    (SimpleBird.mk 470 330 164 282 15 0 0 true [(470, 330)%Z]).

(** A 640 x 480 game whose bird flies at (570, 300) with velocity
    (10, 0): the next tick takes it past the right edge at 576. *)
Definition leaving_game : SimpleGame.t :=
  SimpleGame.set_bird (SimpleGame.init 640 480)
    (SimpleBird.mk 570 300 164 282 15 10 0 true [(570, 300)%Z]).

(** A won 640 x 480 game, 33 ticks into the transition to level 2. *)
Definition ending_transition_game : SimpleGame.t :=
  updates (L := ieee_libm) 33
    (SimpleGame.next_level
       (SimpleGame.set_game_won (SimpleGame.set_score (SimpleGame.init 640 480) 300) true)).

(** The methods of [SimpleGame] that the frame callback invokes, as one
    step each on the game object. *)
Inductive method_step {L : Libm} : SimpleGame.t -> SimpleGame.t -> Prop :=
| step_check_button_hover (g : SimpleGame.t) (px py : float) :
    method_step g (fst (SimpleGame.check_button_hover g px py))
| step_fist_detected (g : SimpleGame.t) (v : bool) :
    method_step g (SimpleGame.set_fist_detected g v)
| step_update_pause_state (g : SimpleGame.t) :
    method_step g (SimpleGame.update_pause_state g)
| step_start_pull (g : SimpleGame.t) (px py : float) :
    method_step g (SimpleGame.start_pull g px py)
| step_update_pull (g : SimpleGame.t) (px py : float) :
    method_step g (SimpleGame.update_pull g px py)
| step_release (g : SimpleGame.t) :
    method_step g (state_of (SimpleGame.release g))
| step_next_level (g : SimpleGame.t) :
    method_step g (SimpleGame.next_level g)
| step_update (g : SimpleGame.t) :
    method_step g (state_of (SimpleGame.update g)).

(** A property of the game that every such step preserves. *)
Definition invariant {L : Libm} (P : SimpleGame.t -> Prop) : Prop :=
  forall g g', method_step g g' -> P g -> P g'.

(** Every game reached from [g] by a sequence of such steps. *)
Inductive reached {L : Libm} (g : SimpleGame.t) : SimpleGame.t -> Prop :=
| reached_here : reached g g
| reached_step (g1 g2 : SimpleGame.t) :
    reached g g1 -> method_step g1 g2 -> reached g g2.

(** The restart button is within its range; once triggered it shows full
    progress and remembers that the pointer is inside; and it shows no
    progress unless the pointer was inside at the last evaluation. *)
Definition button_ok (g : SimpleGame.t) : Prop :=
  let b := SimpleGame.reset_button g in
  (0 <= Button.progress b <= Button.max_progress b)%Z
  /\ (Button.has_triggered b = true ->
      Button.progress b = Button.max_progress b /\ Button.was_in_area b = true)
  /\ (Button.was_in_area b = false -> Button.progress b = 0%Z).

(** The level number is within its range. *)
Definition level_ok (g : SimpleGame.t) : Prop :=
  (1 <= SimpleGame.current_level g <= SimpleGame.max_level g)%Z.

(** The transition progress is a multiple of 3 between 0 and 99, and 0
    when no transition is running. *)
Definition transition_ok (g : SimpleGame.t) : Prop :=
  (0 <= SimpleGame.transition_progress g <= 99)%Z
  /\ (SimpleGame.transition_progress g mod 3 = 0)%Z
  /\ (SimpleGame.is_transitioning g = false -> SimpleGame.transition_progress g = 0%Z).

(** The score is a non-negative multiple of 100. *)
Definition score_ok (g : SimpleGame.t) : Prop :=
  (0 <= SimpleGame.score g)%Z /\ (SimpleGame.score g mod 100 = 0)%Z.

(** The pause message timer is between 0 and 119. *)
Definition timer_ok (g : SimpleGame.t) : Prop :=
  (0 <= SimpleGame.pause_message_timer g <= 119)%Z.

(** What [__init__] derives from the size of the first frame. *)
Definition sizing (g : SimpleGame.t)
  : Z * Z * (float * float * float * float) * Z * (Z * Z * Z * Z * Z * Z) :=
  (SimpleGame.width g, SimpleGame.height g,
   (SimpleGame.game_area_width g, SimpleGame.game_area_height g,
    SimpleGame.game_offset_x g, SimpleGame.game_offset_y g),
   SimpleGame.max_level g, geometry (SimpleGame.reset_button g)).

(** Place and size of the targets, without their destroyed flags. *)
Definition placement (ts : list SimpleTarget.t) : list (float * float * Z) :=
  map (fun tg => (SimpleTarget.x tg, SimpleTarget.y tg, SimpleTarget.radius tg)) ts.

(** The level whose targets are on the field: the current one, or the
    previous one while the transition to the current one is running. *)
Definition level_on_field (g : SimpleGame.t) : Z :=
  if SimpleGame.is_transitioning g then (SimpleGame.current_level g - 1)%Z
  else SimpleGame.current_level g.

(** The targets on the field are those of [level_on_field], and the
    bird's rest position is the slingshot of the play field. *)
Definition field_ok (g : SimpleGame.t) : Prop :=
  placement (SimpleGame.targets g)
  = placement (SimpleGame.level_targets (SimpleGame.game_offset_x g)
                 (SimpleGame.game_offset_y g) (SimpleGame.game_area_width g)
                 (SimpleGame.game_area_height g) (level_on_field g))
  /\ SimpleBird.start_x (SimpleGame.bird g) = (SimpleGame.game_offset_x g + 100)%float
  /\ SimpleBird.start_y (SimpleGame.bird g)
     = (SimpleGame.game_offset_y g + SimpleGame.game_area_height g - 150)%float
  /\ SimpleBird.radius (SimpleGame.bird g) = 15%Z.

(** The eight methods by name. *)
Inductive method : Type :=
| m_check_button_hover | m_fist_detected | m_update_pause_state
| m_start_pull | m_update_pull | m_release | m_next_level | m_update.

(** One call of the named method. *)
Inductive call_of {L : Libm} : method -> SimpleGame.t -> SimpleGame.t -> Prop :=
| does_check_button_hover (g : SimpleGame.t) (px py : float) :
    call_of m_check_button_hover g (fst (SimpleGame.check_button_hover g px py))
| does_fist_detected (g : SimpleGame.t) (v : bool) :
    call_of m_fist_detected g (SimpleGame.set_fist_detected g v)
| does_update_pause_state (g : SimpleGame.t) :
    call_of m_update_pause_state g (SimpleGame.update_pause_state g)
| does_start_pull (g : SimpleGame.t) (px py : float) :
    call_of m_start_pull g (SimpleGame.start_pull g px py)
| does_update_pull (g : SimpleGame.t) (px py : float) :
    call_of m_update_pull g (SimpleGame.update_pull g px py)
| does_release (g : SimpleGame.t) :
    call_of m_release g (state_of (SimpleGame.release g))
| does_next_level (g : SimpleGame.t) :
    call_of m_next_level g (SimpleGame.next_level g)
| does_update (g : SimpleGame.t) :
    call_of m_update g (state_of (SimpleGame.update g)).

(** A sequence of calls of methods from a given set. *)
Inductive calls_among {L : Libm} (allowed : method -> bool) (g : SimpleGame.t)
  : SimpleGame.t -> Prop :=
| among_none : calls_among allowed g g
| among_more (m : method) (g1 g2 : SimpleGame.t) :
    calls_among allowed g g1 -> allowed m = true -> call_of m g1 g2 ->
    calls_among allowed g g2.

(** The methods the loop over the hands can call, and those of the
    slingshot and button block. *)
Definition in_hands_loop (m : method) : bool :=
  match m with m_check_button_hover | m_fist_detected => true | _ => false end.

Definition in_game_logic (m : method) : bool :=
  match m with
  | m_start_pull | m_update_pull | m_release | m_check_button_hover => true
  | _ => false
  end.

(** The pause state of the game. *)
Definition pause_state (g : SimpleGame.t) : bool * bool * bool * Z :=
  (SimpleGame.is_paused g, SimpleGame.fist_detected g, SimpleGame.last_fist_state g,
   SimpleGame.pause_message_timer g).

(** The stabilized fist value that the loop over the hands leaves in
    [game.fist_detected]: that of the last hand, or the old value when
    there is no hand. *)
Fixpoint fist_after_hands {L : Libm} (hs : list Hand) (fist_history : list bool)
         (old : bool) : bool :=
  match hs with
  | [] => old
  | hand :: rest =>
      let (fh, stable) := update_fist_detection fist_history (detect_fist (Some hand)) in
      fist_after_hands rest fh stable
  end.

(** A finger is up when its tip is above its PIP joint (image y grows
    downwards). *)
Definition finger_up (h : Hand) (tip pip : nat) : bool :=
  (Landmark.y (landmark h tip) <? Landmark.y (landmark h pip))%float.

(** How many samples of a swipe history are swipes. *)
Definition swipe_count (l : list (bool * (float * float))) : Z :=
  Z.of_nat (length (filter (fun sp : bool * (float * float) => fst sp) l)).

(** A frame of a 640 x 480 session without any hand. *)
Definition no_hands_frame : Frame := frame_of [].

(** The session after its first frame, in which a hand pointed at the
    restart button. *)
Definition pointed_session : Globals :=
  fst (video_frame_callback (L := ieee_libm) pointing_frame fresh).

(** The session after its first frame, in which a closed hand paused the
    game. *)
Definition paused_session : Globals :=
  fst (video_frame_callback (L := ieee_libm) fist_frame fresh).

(** A session whose slingshot is pulled to (124, 362). *)
Definition pulling_session : Globals :=
  {| game := Some pulled_game; swipe_history := []; fist_history := [] |}.

(** A 1280 x 720 frame without any hand. *)
Definition large_frame : Frame :=
  {| frame_width := 1280; frame_height := 720; hands := [] |}.

Set Implicit Arguments.
(* ================================================================== *)
(** * Projectile physics *)
(* ================================================================== *)

Section Physics.
Context {L : Libm}.

Lemma update_keeps_motion (b : SimpleBird.t) :
  SimpleBird.is_flying b = true ->
  state_of (SimpleBird.update b)
  = SimpleBird.set_trail (SimpleBird.integrate b)
      (SimpleBird.trail (state_of (SimpleBird.update b))).
Proof.
  intros Hfly. unfold SimpleBird.update. rewrite Hfly.
  destruct (Z.of_nat _ <? 20)%Z.
  - destruct (SimpleBird.pixel _); reflexivity.
  - reflexivity.
Qed.

Lemma check_collisions_length (b : SimpleBird.t) (ts : list SimpleTarget.t) (sc : Z) :
  length (fst (SimpleGame.check_collisions b ts sc)) = length ts.
Proof.
  revert sc. induction ts as [|tg rest IH]; intros sc; simpl.
  - reflexivity.
  - destruct (SimpleTarget.check_collision tg b) as [tg' hit].
    specialize (IH (if hit then (sc + 100)%Z else sc)).
    destruct (SimpleGame.check_collisions b rest _) as [rest' sc''].
    simpl in *. now rewrite IH.
Qed.

Lemma after_physics_bird (g : SimpleGame.t) :
  SimpleGame.bird (SimpleGame.after_physics g) = SimpleGame.bird g
  \/ SimpleGame.bird (SimpleGame.after_physics g)
     = SimpleBird.reset (SimpleGame.bird g).
Proof.
  unfold SimpleGame.after_physics.
  destruct (SimpleGame.check_collisions _ _ _) as [ts sc].
  destruct (SimpleGame.out_of_bounds _); [|now left].
  cbn [SimpleGame.bird SimpleGame.set_score SimpleGame.set_targets].
  destruct (SimpleBird.is_flying _); [now right | now left].
Qed.

(** The bird of a game while it is not in a level transition: [update]
    runs the bird's physics, and then at most resets it. *)
Lemma update_runs_physics (g : SimpleGame.t) :
  SimpleGame.is_transitioning g = false ->
  let b' := state_of (SimpleBird.update (SimpleGame.bird g)) in
  SimpleGame.bird (state_of (SimpleGame.update g)) = b'
  \/ SimpleGame.bird (state_of (SimpleGame.update g)) = SimpleBird.reset b'.
Proof.
  intros Htr. unfold SimpleGame.update. rewrite Htr.
  destruct (SimpleBird.update (SimpleGame.bird g)) as [b|b]; cbn [state_of].
  - destruct (after_physics_bird (SimpleGame.set_bird g b)) as [E|E];
      rewrite E; [now left | now right].
  - now left.
Qed.

(** C1: in a tick in which the bird is flying and no level transition is
    in progress, the physics update adds 0.3 to the vertical velocity
    (gravity), then multiplies the horizontal velocity by 0.995 (drag),
    then moves the position by the new velocity; [SimpleGame.update]
    runs exactly this update on its bird (and afterwards at most returns
    an out-of-bounds bird to its start). *)
Theorem C1_flying_tick_physics (g : SimpleGame.t) :
  SimpleGame.is_transitioning g = false ->
  SimpleBird.is_flying (SimpleGame.bird g) = true ->
  let b := SimpleGame.bird g in
  let b' := state_of (SimpleBird.update b) in
  (SimpleBird.vel_y b' = (SimpleBird.vel_y b + 0.3)%float
   /\ SimpleBird.vel_x b' = (SimpleBird.vel_x b * 0.995)%float
   /\ SimpleBird.x b' = (SimpleBird.x b + SimpleBird.vel_x b')%float
   /\ SimpleBird.y b' = (SimpleBird.y b + SimpleBird.vel_y b')%float)
  /\ (SimpleGame.bird (state_of (SimpleGame.update g)) = b'
      \/ SimpleGame.bird (state_of (SimpleGame.update g)) = SimpleBird.reset b').
Proof.
  intros Htr Hfly b b'. split.
  - subst b'. rewrite (update_keeps_motion b Hfly). repeat split.
  - apply update_runs_physics, Htr.
Qed.

End Physics.

Lemma C1_flying_tick_physics_witness :
  SimpleGame.is_transitioning flying_game = false
  /\ SimpleBird.is_flying (SimpleGame.bird flying_game) = true
  /\ SimpleBird.vel_y (state_of (SimpleBird.update (SimpleGame.bird flying_game)))
     = (SimpleBird.vel_y (SimpleGame.bird flying_game) + 0.3)%float.
Proof.
  split; [reflexivity|]. split; [reflexivity|].
  exact (proj1 (proj1 (C1_flying_tick_physics (L := ieee_libm) flying_game
                         eq_refl eq_refl))).
Defined.

(* ================================================================== *)
(** * The trail *)
(* ================================================================== *)

Lemma update_trail_full (b : SimpleBird.t) :
  SimpleBird.is_flying b = true ->
  length (SimpleBird.trail b) = 20%nat ->
  SimpleBird.update b = Normal (SimpleBird.integrate b).
Proof.
  intros Hfly Hlen. unfold SimpleBird.update. rewrite Hfly.
  cbn [SimpleBird.trail SimpleBird.integrate]. rewrite Hlen. reflexivity.
Qed.

Lemma update_trail_bound (b : SimpleBird.t) :
  (length (SimpleBird.trail b) <= 20)%nat ->
  (length (SimpleBird.trail (state_of (SimpleBird.update b))) <= 20)%nat.
Proof.
  intros Hlen. unfold SimpleBird.update.
  destruct (SimpleBird.is_flying b); [|exact Hlen].
  cbn [SimpleBird.trail SimpleBird.integrate].
  destruct (Z.ltb_spec (Z.of_nat (length (SimpleBird.trail b))) 20) as [Hlt|Hge].
  - destruct (SimpleBird.pixel _); cbn [state_of SimpleBird.trail SimpleBird.set_trail].
    + rewrite length_app. simpl. lia.
    + exact Hlen.
  - exact Hlen.
Qed.

Lemma launch_trail_bound (b : SimpleBird.t) (vx vy : float) :
  (length (SimpleBird.trail b) <= 20)%nat ->
  (length (SimpleBird.trail (state_of (SimpleBird.launch b vx vy))) <= 20)%nat.
Proof.
  intros Hlen. unfold SimpleBird.launch.
  destruct (SimpleBird.pixel _); cbn [state_of SimpleBird.trail SimpleBird.set_trail].
  - simpl. lia.
  - exact Hlen.
Qed.

(** C9 (amended): every operation on the bird keeps the trail at 20
    points or fewer.  A flying tick appends the new position while the
    trail holds fewer than 20 points; once it holds 20 the tick leaves it
    as it is: nothing is dropped and nothing is appended, so the trail is
    the launch point and the first 19 positions of the flight. *)
Theorem C9_trail_bounded_and_frozen_when_full (b : SimpleBird.t) :
  (length (SimpleBird.trail b) <= 20)%nat ->
  (length (SimpleBird.trail (SimpleBird.reset b)) <= 20)%nat
  /\ (forall vx vy,
        (length (SimpleBird.trail (state_of (SimpleBird.launch b vx vy))) <= 20)%nat)
  /\ (length (SimpleBird.trail (state_of (SimpleBird.update b))) <= 20)%nat
  /\ (SimpleBird.is_flying b = true ->
      (length (SimpleBird.trail b) < 20)%nat ->
      forall p, SimpleBird.pixel (SimpleBird.integrate b) = Some p ->
      SimpleBird.trail (state_of (SimpleBird.update b)) = SimpleBird.trail b ++ [p])
  /\ (SimpleBird.is_flying b = true ->
      length (SimpleBird.trail b) = 20%nat ->
      SimpleBird.trail (state_of (SimpleBird.update b)) = SimpleBird.trail b).
Proof.
  intros Hlen. split; [simpl; lia|].
  split; [intros vx vy; now apply launch_trail_bound|].
  split; [now apply update_trail_bound|]. split.
  - intros Hfly Hlt p Hp. unfold SimpleBird.update. rewrite Hfly.
    cbn [SimpleBird.trail SimpleBird.integrate].
    destruct (Z.ltb_spec (Z.of_nat (length (SimpleBird.trail b))) 20) as [_|Hge]; [|lia].
    fold (SimpleBird.integrate b). rewrite Hp. reflexivity.
  - intros Hfly Hfull. rewrite (update_trail_full b Hfly Hfull). reflexivity.
Qed.

Lemma C9_trail_bounded_and_frozen_when_full_witness :
  (length (SimpleBird.trail (SimpleGame.bird full_trail_game)) <= 20)%nat
  /\ SimpleBird.trail (state_of (SimpleBird.update (SimpleGame.bird full_trail_game)))
     = SimpleBird.trail (SimpleGame.bird full_trail_game).
Proof.
  assert (Hlen : (length (SimpleBird.trail (SimpleGame.bird full_trail_game)) <= 20)%nat)
    by (vm_compute; apply le_n).
  split; [exact Hlen|].
  apply (C9_trail_bounded_and_frozen_when_full (SimpleGame.bird full_trail_game) Hlen);
    reflexivity.
Defined.

(** C9 as worded fails: the bird of [full_trail_game] is flying with 20
    trail points (launch at (124, 362) with velocity (6, -12), then 19
    ticks); the next tick moves it to pixel (237, 185), and the trail
    still starts with (124, 362) and still ends with (232, 191). *)
Lemma C9_counterexample : ~ trail_slides_when_full.
Proof.
  intros Hslide.
  specialize (Hslide (SimpleGame.bird full_trail_game) (237, 185)%Z
                     eq_refl eq_refl eq_refl).
  vm_compute in Hslide. discriminate Hslide.
Qed.

(* ================================================================== *)
(** * Releasing the slingshot *)
(* ================================================================== *)

(** C2: [release()] while pulling launches the bird with velocity
    [(start - position) * 0.15] in each coordinate, makes the trail the
    single point at the launch position and clears [pulling]; [release()]
    while not pulling changes nothing, so a second [release()] has no
    effect.  (The launch position is finite: [pixel] is its [int]
    conversion.) *)
Theorem C2_release_launches_once (g : SimpleGame.t) :
  (SimpleGame.pulling g = true ->
   forall p, SimpleBird.pixel (SimpleGame.bird g) = Some p ->
   exists g',
     SimpleGame.release g = Normal g'
     /\ SimpleBird.vel_x (SimpleGame.bird g')
        = ((SimpleBird.start_x (SimpleGame.bird g) - SimpleBird.x (SimpleGame.bird g))
           * 0.15)%float
     /\ SimpleBird.vel_y (SimpleGame.bird g')
        = ((SimpleBird.start_y (SimpleGame.bird g) - SimpleBird.y (SimpleGame.bird g))
           * 0.15)%float
     /\ SimpleBird.is_flying (SimpleGame.bird g') = true
     /\ SimpleBird.x (SimpleGame.bird g') = SimpleBird.x (SimpleGame.bird g)
     /\ SimpleBird.y (SimpleGame.bird g') = SimpleBird.y (SimpleGame.bird g)
     /\ SimpleBird.trail (SimpleGame.bird g') = [p]
     /\ SimpleGame.pulling g' = false
     /\ SimpleGame.release g' = Normal g')
  /\ (SimpleGame.pulling g = false -> SimpleGame.release g = Normal g).
Proof.
  split.
  - intros Hpull p Hp. unfold SimpleGame.release at 1. rewrite Hpull.
    unfold SimpleBird.launch, SimpleBird.pixel in *. cbn [SimpleBird.x SimpleBird.y] in *.
    rewrite Hp. eexists. split; [reflexivity|]. repeat split.
  - intros Hnot. unfold SimpleGame.release. now rewrite Hnot.
Qed.

Lemma C2_release_launches_once_witness :
  SimpleGame.pulling pulled_game = true
  /\ SimpleBird.pixel (SimpleGame.bird pulled_game) = Some (124, 362)%Z
  /\ exists g',
       SimpleGame.release pulled_game = Normal g'
       /\ SimpleBird.vel_x (SimpleGame.bird g') = 6%float
       /\ SimpleBird.vel_y (SimpleGame.bird g') = (-12)%float
       /\ SimpleBird.trail (SimpleGame.bird g') = [(124, 362)%Z]
       /\ SimpleGame.pulling g' = false.
Proof.
  split; [reflexivity|]. split; [reflexivity|].
  destruct (proj1 (C2_release_launches_once pulled_game) eq_refl (124, 362)%Z eq_refl)
    as (g' & Hrel & Hvx & Hvy & _ & _ & _ & Htrail & Hpull & _).
  exists g'. repeat split; assumption.
Defined.

(* ================================================================== *)
(** * The restart command *)
(* ================================================================== *)

(** C7: [reset_game()] returns the bird to its start position with zero
    velocity and an empty trail, clears every target's destroyed flag,
    zeroes the score, clears [game_won] and [pulling], and changes no
    other field: level, transition state, pause state, button and
    geometry stay as they are.  When the button trigger fires it, the
    game differs from that only in the button. *)
Theorem C7_reset_game_frame (g : SimpleGame.t) :
  let g' := SimpleGame.reset_game g in
  (SimpleGame.bird g'
   = SimpleBird.mk (SimpleBird.start_x (SimpleGame.bird g))
                   (SimpleBird.start_y (SimpleGame.bird g))
                   (SimpleBird.start_x (SimpleGame.bird g))
                   (SimpleBird.start_y (SimpleGame.bird g))
                   (SimpleBird.radius (SimpleGame.bird g)) 0 0 false [])
  /\ Forall (fun tg => SimpleTarget.is_destroyed tg = false) (SimpleGame.targets g')
  /\ map SimpleTarget.x (SimpleGame.targets g') = map SimpleTarget.x (SimpleGame.targets g)
  /\ map SimpleTarget.y (SimpleGame.targets g') = map SimpleTarget.y (SimpleGame.targets g)
  /\ map SimpleTarget.radius (SimpleGame.targets g')
     = map SimpleTarget.radius (SimpleGame.targets g)
  /\ SimpleGame.score g' = 0%Z
  /\ SimpleGame.game_won g' = false
  /\ SimpleGame.pulling g' = false
  /\ SimpleGame.current_level g' = SimpleGame.current_level g
  /\ SimpleGame.max_level g' = SimpleGame.max_level g
  /\ SimpleGame.is_transitioning g' = SimpleGame.is_transitioning g
  /\ SimpleGame.transition_progress g' = SimpleGame.transition_progress g
  /\ SimpleGame.transition_direction g' = SimpleGame.transition_direction g
  /\ SimpleGame.is_paused g' = SimpleGame.is_paused g
  /\ SimpleGame.fist_detected g' = SimpleGame.fist_detected g
  /\ SimpleGame.last_fist_state g' = SimpleGame.last_fist_state g
  /\ SimpleGame.pause_message_timer g' = SimpleGame.pause_message_timer g
  /\ SimpleGame.reset_button g' = SimpleGame.reset_button g
  /\ (SimpleGame.width g', SimpleGame.height g') = (SimpleGame.width g, SimpleGame.height g)
  /\ (SimpleGame.pull_x g', SimpleGame.pull_y g') = (SimpleGame.pull_x g, SimpleGame.pull_y g)
  /\ (SimpleGame.game_area_width g', SimpleGame.game_area_height g',
      SimpleGame.game_offset_x g', SimpleGame.game_offset_y g')
     = (SimpleGame.game_area_width g, SimpleGame.game_area_height g,
        SimpleGame.game_offset_x g, SimpleGame.game_offset_y g)
  /\ (forall px py,
        snd (SimpleGame.check_button_hover g px py) = true ->
        SimpleGame.set_reset_button (fst (SimpleGame.check_button_hover g px py))
                                    (SimpleGame.reset_button g)
        = g').
Proof.
  intros g'. subst g'. unfold SimpleGame.reset_game.
  cbn [SimpleGame.bird SimpleGame.targets SimpleGame.score SimpleGame.game_won
       SimpleGame.pulling SimpleGame.set_pulling SimpleGame.set_game_won
       SimpleGame.set_score SimpleGame.set_targets SimpleGame.set_bird].
  split; [reflexivity|].
  split; [apply Forall_forall; intros tg Hin; apply in_map_iff in Hin;
          destruct Hin as (t0 & <- & _); reflexivity|].
  do 3 (split; [rewrite map_map; reflexivity|]).
  do 16 (split; [reflexivity|]).
  intros px py. unfold SimpleGame.check_button_hover.
  repeat match goal with
         | |- context [if ?c then _ else _] => destruct c
         end; cbn [fst snd]; try discriminate; intros _;
    destruct g; reflexivity.
Qed.

(* ================================================================== *)
(** * The restart button *)
(* ================================================================== *)

Section ExactComparison.

Lemma int_le_float_mono (lo lo' : Z) (v : float) :
  (lo' <= lo)%Z -> Py.int_le_float lo v = true -> Py.int_le_float lo' v = true.
Proof.
  unfold Py.int_le_float, Py.compare_int. intros Hle.
  destruct (Prim2SF v) as [s|s| |s m e].
  - destruct (Z.compare_spec 0 lo), (Z.compare_spec 0 lo'); try discriminate; lia.
  - trivial.
  - trivial.
  - destruct (0 <=? e)%Z.
    + destruct (Z.compare_spec ((if s then Z.neg m else Z.pos m) * 2 ^ e) lo),
               (Z.compare_spec ((if s then Z.neg m else Z.pos m) * 2 ^ e) lo');
        try discriminate; lia.
    + assert (Hpow : (0 <= 2 ^ (- e))%Z) by (apply Z.pow_nonneg; lia).
      assert (Hmul : (lo' * 2 ^ (- e) <= lo * 2 ^ (- e))%Z)
        by (apply Z.mul_le_mono_nonneg_r; assumption).
      destruct (Z.compare_spec (if s then Z.neg m else Z.pos m) (lo * 2 ^ (- e))),
               (Z.compare_spec (if s then Z.neg m else Z.pos m) (lo' * 2 ^ (- e)));
        try discriminate; lia.
Qed.

Lemma float_le_int_mono (hi hi' : Z) (v : float) :
  (hi <= hi')%Z -> Py.float_le_int v hi = true -> Py.float_le_int v hi' = true.
Proof.
  unfold Py.float_le_int, Py.compare_int. intros Hle.
  destruct (Prim2SF v) as [s|s| |s m e].
  - destruct (Z.compare_spec 0 hi), (Z.compare_spec 0 hi'); try discriminate; lia.
  - trivial.
  - trivial.
  - destruct (0 <=? e)%Z.
    + destruct (Z.compare_spec ((if s then Z.neg m else Z.pos m) * 2 ^ e) hi),
               (Z.compare_spec ((if s then Z.neg m else Z.pos m) * 2 ^ e) hi');
        try discriminate; lia.
    + assert (Hpow : (0 <= 2 ^ (- e))%Z) by (apply Z.pow_nonneg; lia).
      assert (Hmul : (hi * 2 ^ (- e) <= hi' * 2 ^ (- e))%Z)
        by (apply Z.mul_le_mono_nonneg_r; assumption).
      destruct (Z.compare_spec (if s then Z.neg m else Z.pos m) (hi * 2 ^ (- e))),
               (Z.compare_spec (if s then Z.neg m else Z.pos m) (hi' * 2 ^ (- e)));
        try discriminate; lia.
Qed.

Lemma between_widen (lo lo' hi hi' : Z) (v : float) :
  (lo' <= lo)%Z -> (hi <= hi')%Z ->
  Button.between lo v hi = true -> Button.between lo' v hi' = true.
Proof.
  unfold Button.between. intros Hlo Hhi H.
  apply andb_true_iff in H. destruct H as [H1 H2]. apply andb_true_iff. split.
  - exact (int_le_float_mono _ Hlo H1).
  - exact (float_le_int_mono _ Hhi H2).
Qed.

End ExactComparison.

(** The literal rectangle lies inside the padded one. *)
Lemma button_area_in_expanded_area (b : Button.t) (px py : float) :
  (0 <= Button.detection_padding b)%Z ->
  Button.in_button_area b px py = true ->
  Button.in_expanded_area b px py = true.
Proof.
  unfold Button.in_button_area, Button.in_expanded_area. intros Hpad H.
  apply andb_true_iff in H. destruct H as [Hx Hy]. apply andb_true_iff. split.
  - apply (between_widen (lo := Button.x b) (hi := Button.x b + Button.width b));
      [lia | lia | exact Hx].
  - apply (between_widen (lo := Button.y b) (hi := Button.y b + Button.height b));
      [lia | lia | exact Hy].
Qed.

Ltac button_cbn :=
  cbn [Button.x Button.y Button.width Button.height Button.clicked Button.hover
       Button.progress Button.max_progress Button.active Button.detection_padding
       Button.fallback_activated Button.has_triggered Button.was_in_area
       Button.trigger_cooldown
       Button.set_hover Button.set_progress Button.set_active
       Button.set_has_triggered Button.set_was_in_area
       SimpleGame.reset_button SimpleGame.set_reset_button fst snd] in *.

Lemma reset_game_button (g : SimpleGame.t) :
  SimpleGame.reset_button (SimpleGame.reset_game g) = SimpleGame.reset_button g.
Proof. reflexivity. Qed.

Lemma hover_keeps_geometry (g : SimpleGame.t) (px py : float) :
  geometry (SimpleGame.reset_button (fst (SimpleGame.check_button_hover g px py)))
  = geometry (SimpleGame.reset_button g).
Proof.
  unfold SimpleGame.check_button_hover.
  repeat match goal with
         | |- context [if ?c then _ else _] => destruct c
         end; reflexivity.
Qed.

Lemma expanded_area_geometry (b b' : Button.t) (px py : float) :
  geometry b = geometry b' ->
  Button.in_expanded_area b px py = Button.in_expanded_area b' px py.
Proof.
  unfold geometry, Button.in_expanded_area. intros E. injection E as -> -> -> -> -> _.
  reflexivity.
Qed.

Lemma button_area_geometry (b b' : Button.t) (px py : float) :
  geometry b = geometry b' ->
  Button.in_button_area b px py = Button.in_button_area b' px py.
Proof.
  unfold geometry, Button.in_button_area. intros E. injection E as -> -> -> -> _ _.
  reflexivity.
Qed.

(** One evaluation with the pointer in the literal rectangle, the button
    not yet triggered. *)
Lemma hover_in_button (g : SimpleGame.t) (px py : float) :
  let b := SimpleGame.reset_button g in
  Button.in_expanded_area b px py = true ->
  Button.in_button_area b px py = true ->
  Button.has_triggered b = false ->
  let r := SimpleGame.check_button_hover g px py in
  let b' := SimpleGame.reset_button (fst r) in
  Button.was_in_area b' = true
  /\ if (Button.max_progress b <=? Button.progress b + 2)%Z
     then snd r = true /\ Button.has_triggered b' = true
          /\ Button.progress b' = Button.max_progress b
     else snd r = false /\ Button.has_triggered b' = false
          /\ Button.progress b' = (Button.progress b + 2)%Z.
Proof.
  intros b Hexp Hin Hnot r b'. subst r b' b.
  unfold SimpleGame.check_button_hover. cbv zeta. rewrite Hexp, Hin.
  cbn [negb andb]. rewrite Hnot. cbn [negb]. button_cbn.
  destruct (Button.max_progress _ <=? Button.progress _ + 2)%Z; button_cbn;
    repeat split; assumption.
Qed.



Lemma hover_run_app (g : SimpleGame.t) (ps qs : list (float * float)) :
  hover_run g (ps ++ qs)
  = (fst (hover_run (fst (hover_run g ps)) qs),
     snd (hover_run g ps) ++ snd (hover_run (fst (hover_run g ps)) qs)).
Proof.
  revert g. induction ps as [|p ps IH]; intros g; simpl.
  - now destruct (hover_run g qs).
  - destruct (SimpleGame.check_button_hover g (fst p) (snd p)) as [g1 fired].
    rewrite IH. destruct (hover_run g1 ps) as [g2 fs]. simpl.
    now destruct (hover_run g2 qs).
Qed.









(* ================================================================== *)
(** * Fist detection and its stabilizer *)
(* ================================================================== *)

(** C6: the fist history is a FIFO of capacity 3 (a fourth sample evicts
    the oldest).  With an empty history the raw sample is returned; as
    soon as two samples exist the stabilized value is true iff one of the
    last two raw samples is: the previous one or the new one.  From an
    empty history the raw samples F T T F T give F T T T T. *)
Theorem C6_fist_stabilizer (fist_history : list bool) (raw : bool) :
  (length fist_history <= 3)%nat ->
  let r := update_fist_detection fist_history raw in
  (length (fst r) <= 3)%nat
  /\ fst r = (if (length fist_history <? 3)%nat then fist_history
              else tl fist_history) ++ [raw]
  /\ (fist_history = [] -> snd r = raw)
  /\ (fist_history <> [] ->
      Py.last_n 2 (fst r) = [last fist_history false; raw]
      /\ snd r = last fist_history false || raw)
  /\ snd (fist_run [] [false; true; true; false; true])
     = [false; true; true; true; true].
Proof.
  intros Hlen r. subst r.
  destruct fist_history as [|a [|b [|c [|d rest]]]]; simpl in Hlen; try lia;
    (split; [simpl; lia|]);
    (split; [reflexivity|]);
    (split; [try discriminate; reflexivity|]);
    (split; [|reflexivity]); intros Hne; try congruence.
  - split; [reflexivity|]. destruct a, raw; reflexivity.
  - split; [reflexivity|]. destruct b, raw; reflexivity.
  - split; [reflexivity|]. destruct c, raw; reflexivity.
Qed.

Lemma C6_fist_stabilizer_witness :
  (length [true; true; false] <= 3)%nat
  /\ fst (update_fist_detection [true; true; false] true) = [true; false; true]
  /\ snd (fist_run [] [false; true; true; false; true])
     = [false; true; true; true; true].
Proof.
  assert (Hlen : (length [true; true; false] <= 3)%nat) by (simpl; lia).
  split; [exact Hlen|].
  pose proof (C6_fist_stabilizer [true; true; false] true Hlen) as (_ & Hfifo & _ & _ & Hseq).
  split; [exact Hfifo | exact Hseq].
Defined.

Lemma sum_bool_five (a b c d e : bool) :
  Py.sum_bool [a; b; c; d; e]
  = (Z.b2z a + Z.b2z b + Z.b2z c + Z.b2z d + Z.b2z e)%Z.
Proof. destruct a, b, c, d, e; reflexivity. Qed.

Section FistDetector.
Context {L : Libm}.

(** C8 (amended): [detect_fist] is true iff at least 4 of the 5 fingers
    are bent (thumb: tip closer to the palm centre than 0.95 of its
    base; other fingers: tip below the PIP joint and closer to the palm
    centre than 0.9 of the base) and the largest distance between
    neighbouring non-thumb fingertips (index-middle, middle-ring,
    ring-pinky) is below half the hand size. *)
Theorem C8_fist_is_bent_count_and_adjacent_tips (h : Hand) :
  detect_fist (Some h) = fist_by_adjacent_tips h.
Proof.
  unfold detect_fist, fist_by_adjacent_tips, bent_count, max_adjacent_tip_distance,
  greatest, thumb_is_bent, finger_is_bent, to_palm, palm_center, tip_distance,
  hand_size, finger_tips, finger_pips, finger_mcps.
cbn [map combine app fold_left seq length Nat.sub Nat.add nth fst snd].
rewrite sum_bool_five. reflexivity.
Qed.

End FistDetector.

(** C8 as worded fails on [row_fist]: all five fingers are bent and each
    fingertip is 0.125 from its neighbour (below 0.25, half the hand
    size), so [detect_fist] answers true; but index tip and pinky tip are
    0.375 apart, so the greatest pairwise distance is not below 0.25. *)
Lemma C8_counterexample :
  detect_fist (L := ieee_libm) (Some row_fist) = true
  /\ max_pairwise_tip_distance (L := ieee_libm) row_fist = 0.375%float
  /\ hand_size (L := ieee_libm) row_fist = 0.5%float
  /\ detect_fist (L := ieee_libm) (Some row_fist)
     <> fist_as_specified (L := ieee_libm) row_fist.
Proof.
  split; [reflexivity|]. split; [reflexivity|]. split; [reflexivity|].
  vm_compute. discriminate.
Qed.

(* ================================================================== *)
(** * Level transitions *)
(* ================================================================== *)

Section Levels.
Context {L : Libm}.

Lemma set_transition_progress_same (g : SimpleGame.t) :
  SimpleGame.set_transition_progress g (SimpleGame.transition_progress g) = g.
Proof. now destruct g. Qed.

Lemma set_transition_progress_twice (g : SimpleGame.t) (a b : Z) :
  SimpleGame.set_transition_progress (SimpleGame.set_transition_progress g a) b
  = SimpleGame.set_transition_progress g b.
Proof. reflexivity. Qed.

(** A transition tick below 100: [update] only advances the progress. *)
Lemma update_while_transitioning (g : SimpleGame.t) :
  SimpleGame.is_transitioning g = true ->
  (SimpleGame.transition_progress g + 3 < 100)%Z ->
  SimpleGame.update g
  = Normal (SimpleGame.set_transition_progress g (SimpleGame.transition_progress g + 3)).
Proof.
  intros Htr Hlt. unfold SimpleGame.update, SimpleGame.update_transition.
  rewrite Htr. cbn [SimpleGame.transition_progress SimpleGame.set_transition_progress].
  destruct (Z.leb_spec 100 (SimpleGame.transition_progress g + 3)); [lia|reflexivity].
Qed.

(** The transition tick that reaches 100: the level is built. *)
Lemma update_ends_transition (g : SimpleGame.t) :
  SimpleGame.is_transitioning g = true ->
  (100 <= SimpleGame.transition_progress g + 3)%Z ->
  SimpleGame.update g
  = Normal (SimpleGame.init_level
              (SimpleGame.set_transition_progress
                 (SimpleGame.set_is_transitioning g false) 0)).
Proof.
  intros Htr Hge. unfold SimpleGame.update, SimpleGame.update_transition.
  rewrite Htr. cbn [SimpleGame.transition_progress SimpleGame.set_transition_progress].
  destruct (Z.leb_spec 100 (SimpleGame.transition_progress g + 3)); [|lia].
  reflexivity.
Qed.

Lemma updates_while_transitioning (k : nat) (g : SimpleGame.t) :
  SimpleGame.is_transitioning g = true ->
  (SimpleGame.transition_progress g + 3 * Z.of_nat k < 100)%Z ->
  updates k g
  = SimpleGame.set_transition_progress g
      (SimpleGame.transition_progress g + 3 * Z.of_nat k).
Proof.
  revert g. induction k as [|k IH]; intros g Htr Hlt.
  - cbn [updates]. replace (SimpleGame.transition_progress g + 3 * Z.of_nat 0)%Z
      with (SimpleGame.transition_progress g) by lia.
    symmetry. apply set_transition_progress_same.
  - cbn [updates]. rewrite update_while_transitioning; [|exact Htr|lia].
    cbn [state_of]. rewrite IH; [|exact Htr|].
    + cbn [SimpleGame.transition_progress SimpleGame.set_transition_progress].
      rewrite set_transition_progress_twice. f_equal. lia.
    + cbn [SimpleGame.transition_progress SimpleGame.set_transition_progress]. lia.
Qed.

Lemma updates_succ (k : nat) (g : SimpleGame.t) :
  updates (S k) g = state_of (SimpleGame.update (updates k g)).
Proof.
  revert g. induction k as [|k IH]; intros g; [reflexivity|].
  change (updates (S (S k)) g) with (updates (S k) (state_of (SimpleGame.update g))).
  now rewrite IH.
Qed.

(** C5 (amended): [next_level()] changes nothing unless no transition is
    running and the level is below [max_level]; when it fires it
    increments [current_level] at once and starts a transition at
    progress 0, the bird and the targets still being those of the old
    level.  While transitioning, a [game.update()] that stays below 100
    adds exactly 3 to the progress and changes nothing else: no physics,
    no collision check, no boundary or victory check.  The first update
    that reaches 100 (the 34th) ends the transition, resets the progress
    to 0 and builds bird and targets from the already incremented
    [current_level].  (Slingshot and button input are handled by the
    frame callback, outside [update()], also during a transition.) *)
Theorem C5_next_level_and_transition (g : SimpleGame.t) :
  (SimpleGame.is_transitioning g = true
   \/ (SimpleGame.max_level g <= SimpleGame.current_level g)%Z ->
   SimpleGame.next_level g = g)
  /\ (SimpleGame.is_transitioning g = true ->
      (SimpleGame.transition_progress g + 3 < 100)%Z ->
      SimpleGame.update g
      = Normal (SimpleGame.set_transition_progress g
                  (SimpleGame.transition_progress g + 3)))
  /\ (SimpleGame.is_transitioning g = false ->
      (SimpleGame.current_level g < SimpleGame.max_level g)%Z ->
      let g1 := SimpleGame.next_level g in
      g1 = SimpleGame.set_current_level
             (SimpleGame.set_transition_direction
                (SimpleGame.set_transition_progress
                   (SimpleGame.set_is_transitioning g true) 0) "left"%string)
             (SimpleGame.current_level g + 1)
      /\ (forall k, (k <= 33)%nat ->
            updates k g1 = SimpleGame.set_transition_progress g1 (3 * Z.of_nat k))
      /\ updates 34 g1
         = SimpleGame.set_pulling
             (SimpleGame.set_targets
                (SimpleGame.set_bird
                   (SimpleGame.set_transition_progress
                      (SimpleGame.set_is_transitioning g1 false) 0)
                   (SimpleGame.level_bird (SimpleGame.game_offset_x g)
                      (SimpleGame.game_offset_y g) (SimpleGame.game_area_height g)))
                (SimpleGame.level_targets (SimpleGame.game_offset_x g)
                   (SimpleGame.game_offset_y g) (SimpleGame.game_area_width g)
                   (SimpleGame.game_area_height g) (SimpleGame.current_level g + 1)))
             false).
Proof.
  split; [|split].
  - intros [Htr|Hmax]; unfold SimpleGame.next_level.
    + now rewrite Htr.
    + destruct (Z.ltb_spec (SimpleGame.current_level g) (SimpleGame.max_level g));
        [lia|]. now rewrite andb_false_r.
  - apply update_while_transitioning.
  - intros Htr Hlvl g1.
    assert (Hg1 : g1 = SimpleGame.set_current_level
             (SimpleGame.set_transition_direction
                (SimpleGame.set_transition_progress
                   (SimpleGame.set_is_transitioning g true) 0) "left"%string)
             (SimpleGame.current_level g + 1)).
    { subst g1. unfold SimpleGame.next_level. rewrite Htr.
      destruct (Z.ltb_spec (SimpleGame.current_level g) (SimpleGame.max_level g));
        [reflexivity|lia]. }
    split; [exact Hg1|].
    assert (Htr1 : SimpleGame.is_transitioning g1 = true) by (rewrite Hg1; reflexivity).
    assert (Hp1 : SimpleGame.transition_progress g1 = 0%Z) by (rewrite Hg1; reflexivity).
    assert (Hrun : forall k, (k <= 33)%nat ->
              updates k g1 = SimpleGame.set_transition_progress g1 (3 * Z.of_nat k)).
    { intros k Hk. rewrite updates_while_transitioning; [|exact Htr1|rewrite Hp1; lia].
      now rewrite Hp1. }
    split; [exact Hrun|].
    rewrite updates_succ, (Hrun 33%nat) by lia.
    rewrite update_ends_transition; [|now rewrite Hg1|now rewrite Hg1].
    rewrite Hg1. reflexivity.
Qed.

End Levels.

Lemma C5_next_level_and_transition_witness :
  let g := SimpleGame.init 640 480 in
  SimpleGame.is_transitioning g = false
  /\ (SimpleGame.current_level g < SimpleGame.max_level g)%Z
  /\ SimpleGame.current_level (updates (L := ieee_libm) 34 (SimpleGame.next_level g)) = 2%Z
  /\ length (SimpleGame.targets (updates (L := ieee_libm) 34 (SimpleGame.next_level g)))
     = 4%nat
  /\ SimpleGame.is_transitioning (updates (L := ieee_libm) 34 (SimpleGame.next_level g))
     = false.
Proof.
  intros g.
  assert (Htr : SimpleGame.is_transitioning g = false) by reflexivity.
  assert (Hlvl : (SimpleGame.current_level g < SimpleGame.max_level g)%Z) by reflexivity.
  split; [exact Htr|]. split; [exact Hlvl|].
  destruct (proj2 (proj2 (C5_next_level_and_transition (L := ieee_libm) g)) Htr Hlvl)
    as (_ & _ & Hend).
  rewrite Hend. repeat split.
Defined.

(* ================================================================== *)
(** * The frame callback *)
(* ================================================================== *)

Section Callback.
Context {L : Libm}.

(** ** What each method leaves alone *)

Lemma hover_button_congr (g1 g2 : SimpleGame.t) (px py : float) :
  SimpleGame.reset_button g1 = SimpleGame.reset_button g2 ->
  SimpleGame.reset_button (fst (SimpleGame.check_button_hover g1 px py))
  = SimpleGame.reset_button (fst (SimpleGame.check_button_hover g2 px py))
  /\ snd (SimpleGame.check_button_hover g1 px py)
     = snd (SimpleGame.check_button_hover g2 px py).
Proof.
  intros E. unfold SimpleGame.check_button_hover. rewrite E.
  repeat match goal with
         | |- context [if ?c then _ else _] => destruct c
         end; split; reflexivity.
Qed.

Lemma hover_run_button_congr (ps : list (float * float)) (g1 g2 : SimpleGame.t) :
  SimpleGame.reset_button g1 = SimpleGame.reset_button g2 ->
  SimpleGame.reset_button (fst (hover_run g1 ps))
  = SimpleGame.reset_button (fst (hover_run g2 ps)).
Proof.
  revert g1 g2. induction ps as [|p ps IH]; intros g1 g2 E; [exact E|].
  simpl. pose proof (hover_button_congr g1 g2 (fst p) (snd p) E) as [Eb _].
  destruct (SimpleGame.check_button_hover g1 (fst p) (snd p)) as [g1' f1].
  destruct (SimpleGame.check_button_hover g2 (fst p) (snd p)) as [g2' f2].
  cbn [fst] in Eb. specialize (IH g1' g2' Eb).
  destruct (hover_run g1' ps), (hover_run g2' ps). exact IH.
Qed.

Lemma hover_paused (g : SimpleGame.t) (px py : float) :
  SimpleGame.is_paused (fst (SimpleGame.check_button_hover g px py))
  = SimpleGame.is_paused g.
Proof.
  unfold SimpleGame.check_button_hover.
  repeat match goal with
         | |- context [if ?c then _ else _] => destruct c
         end; reflexivity.
Qed.

Lemma start_pull_button (g : SimpleGame.t) (px py : float) :
  SimpleGame.reset_button (SimpleGame.start_pull g px py) = SimpleGame.reset_button g
  /\ SimpleGame.is_paused (SimpleGame.start_pull g px py) = SimpleGame.is_paused g.
Proof.
  unfold SimpleGame.start_pull.
  repeat match goal with
         | |- context [if ?c then _ else _] => destruct c
         end; split; reflexivity.
Qed.

Lemma update_pull_button (g : SimpleGame.t) (px py : float) :
  SimpleGame.reset_button (SimpleGame.update_pull g px py) = SimpleGame.reset_button g
  /\ SimpleGame.is_paused (SimpleGame.update_pull g px py) = SimpleGame.is_paused g.
Proof.
  unfold SimpleGame.update_pull.
  destruct (SimpleGame.pulling g); [|split; reflexivity].
  cbv zeta. destruct (_ <? _)%float; split; reflexivity.
Qed.

Lemma release_button (g : SimpleGame.t) :
  SimpleGame.reset_button (state_of (SimpleGame.release g)) = SimpleGame.reset_button g
  /\ SimpleGame.is_paused (state_of (SimpleGame.release g)) = SimpleGame.is_paused g.
Proof.
  unfold SimpleGame.release.
  destruct (SimpleGame.pulling g); [|split; reflexivity].
  cbv zeta. destruct (SimpleBird.launch _ _ _); split; reflexivity.
Qed.

Lemma next_level_button (g : SimpleGame.t) :
  SimpleGame.reset_button (SimpleGame.next_level g) = SimpleGame.reset_button g
  /\ SimpleGame.is_paused (SimpleGame.next_level g) = SimpleGame.is_paused g.
Proof.
  unfold SimpleGame.next_level. destruct (_ && _); split; reflexivity.
Qed.

Lemma update_button (g : SimpleGame.t) :
  SimpleGame.reset_button (state_of (SimpleGame.update g)) = SimpleGame.reset_button g
  /\ SimpleGame.is_paused (state_of (SimpleGame.update g)) = SimpleGame.is_paused g.
Proof.
  unfold SimpleGame.update, SimpleGame.update_transition, SimpleGame.after_physics.
  destruct (SimpleGame.is_transitioning g).
  - cbv zeta. destruct (100 <=? _)%Z; split; reflexivity.
  - destruct (SimpleBird.update _) as [b|b]; [|split; reflexivity].
    cbn [state_of]. destruct (SimpleGame.check_collisions _ _ _) as [ts sc].
    cbv zeta. destruct (SimpleGame.out_of_bounds _); [|split; reflexivity].
    destruct (SimpleBird.is_flying _); split; reflexivity.
Qed.

Lemma pause_state_button (g : SimpleGame.t) :
  SimpleGame.reset_button (SimpleGame.update_pause_state g) = SimpleGame.reset_button g.
Proof.
  unfold SimpleGame.update_pause_state. cbv zeta.
  repeat match goal with
         | |- context [if ?c then _ else _] => destruct c
         end; reflexivity.
Qed.

End Callback.

Lemma last_cons_default (A : Type) (l : list A) (a d d' : A) :
  last (a :: l) d = last (a :: l) d'.
Proof.
  revert a. induction l as [|b l IH]; intros a; [reflexivity|].
  change (last (b :: l) d = last (b :: l) d'). apply IH.
Qed.

Lemma last_app_default (A : Type) (l1 l2 : list A) (d : A) :
  last (l1 ++ l2) d = last l2 (last l1 d).
Proof.
  revert d. induction l1 as [|a l1 IH]; intros d; [reflexivity|].
  destruct l1 as [|b l1].
  - destruct l2 as [|c l2]; [reflexivity|].
    change (last (c :: l2) d = last (c :: l2) a). apply last_cons_default.
  - change (last ((b :: l1) ++ l2) d = last l2 (last (b :: l1) d)). apply IH.
Qed.

Section Frames.
Context {L : Libm}.

Lemma hover_calls_app (a b : list Call) :
  hover_calls (a ++ b) = hover_calls a ++ hover_calls b.
Proof. apply flat_map_app. Qed.

Lemma other_calls_app (a b : list Call) :
  other_calls (a ++ b) = other_calls a ++ other_calls b.
Proof. apply filter_app. Qed.

Lemma hover_calls_map (ps : list (float * float)) :
  hover_calls (map hover_call ps) = ps /\ other_calls (map hover_call ps) = [].
Proof.
  induction ps as [|[px py] ps [IH1 IH2]]; [split; reflexivity|].
  split; simpl; [now rewrite IH1 | exact IH2].
Qed.

(** ** The loop over the hands *)

Lemma process_hand_spec (width height : Z) (r : Run) (hand : Hand) :
  let ptr := hand_pointer width height hand in
  let r' := process_hand width height r hand in
  calls r' = calls r ++ map hover_call ptr
  /\ the_game r'
     = SimpleGame.set_fist_detected
         (fst (hover_run (the_game r) ptr))
         (snd (update_fist_detection (fists r) (detect_fist (Some hand))))
  /\ pointer_of (locals r') = last ptr (pointer_of (locals r))
  /\ is_pinching (locals r') = is_pinching (locals r)
                               || fst (fst (detect_pinch (Some hand) width height)).
Proof.
  unfold process_hand, hand_pointer.
  destruct (detect_pinch (Some hand) width height) as [[pinching center] distance].
  destruct (detect_pointing (Some hand) width height) as [pointing pos].
  destruct (detect_left_swipe (Some hand) width height) as [swiping spos].
  destruct (update_fist_detection (fists r) (detect_fist (Some hand))) as [fh stable].
  destruct pointing; cbn [fst snd map hover_run last].
  - destruct (SimpleGame.check_button_hover (the_game r) (fst pos) (snd pos)) as [g1 fired].
    destruct pinching, swiping; cbn; repeat split;
      rewrite ?orb_true_r, ?orb_false_r; reflexivity.
  - destruct pinching, swiping; cbn; rewrite ?app_nil_r; repeat split;
      rewrite ?orb_true_r, ?orb_false_r; reflexivity.
Qed.

Lemma fist_flag_button (g : SimpleGame.t) (v : bool) :
  SimpleGame.reset_button (SimpleGame.set_fist_detected g v) = SimpleGame.reset_button g.
Proof. reflexivity. Qed.

(** The hands loop: one button check per pointing hand, in order,
    whatever the pause state; the button is what these checks make of
    it; the pause flag is not touched. *)
Lemma hands_loop_spec (width height : Z) (hs : list Hand) (r : Run) :
  let ptrs := flat_map (hand_pointer width height) hs in
  let r' := fold_left (process_hand width height) hs r in
  calls r' = calls r ++ map hover_call ptrs
  /\ SimpleGame.reset_button (the_game r')
     = SimpleGame.reset_button (fst (hover_run (the_game r) ptrs))
  /\ SimpleGame.is_paused (the_game r') = SimpleGame.is_paused (the_game r)
  /\ pointer_of (locals r') = last ptrs (pointer_of (locals r)).
Proof.
  revert r. induction hs as [|hand hs IH]; intros r.
  - cbn. rewrite app_nil_r. repeat split.
  - cbn [fold_left flat_map].
    pose proof (process_hand_spec width height r hand) as (Hc & Hg & Hp & _).
    specialize (IH (process_hand width height r hand)).
    cbv zeta in *. destruct IH as (IHc & IHb & IHpz & IHp).
    split; [rewrite IHc, Hc, map_app, app_assoc; reflexivity|].
    split; [|split].
    + rewrite IHb, hover_run_app. cbn [fst].
      apply hover_run_button_congr. rewrite Hg. reflexivity.
    + rewrite IHpz, Hg.
      cbn [SimpleGame.is_paused SimpleGame.set_fist_detected].
      clear. generalize (the_game r).
      induction (hand_pointer width height hand) as [|p ps IHps]; intros g;
        [reflexivity|].
      simpl. pose proof (hover_paused g (fst p) (snd p)) as Hpz.
      destruct (SimpleGame.check_button_hover g (fst p) (snd p)) as [g1 fired].
      specialize (IHps g1). destruct (hover_run g1 ps) as [g2 fs].
      cbn [fst] in *. congruence.
    + rewrite IHp, Hp. clear.
      generalize (pointer_of (locals r)).
      generalize (flat_map (hand_pointer width height) hs).
      generalize (hand_pointer width height hand).
      intros l1 l2 d. rewrite last_app_default. reflexivity.
Qed.

End Frames.

Section FramePhases.
Context {L : Libm}.

(** A button check leaves the slingshot alone, unless it fires the
    restart, which ends any pull. *)
Lemma hover_slingshot (g : SimpleGame.t) (px py : float) :
  let g' := fst (SimpleGame.check_button_hover g px py) in
  (SimpleGame.pulling g' = SimpleGame.pulling g
   /\ SimpleGame.bird g' = SimpleGame.bird g)
  \/ SimpleGame.pulling g' = false.
Proof.
  unfold SimpleGame.check_button_hover.
  repeat match goal with
         | |- context [if ?c then _ else _] => destruct c
         end; cbn; auto.
Qed.

Lemma hover_run_slingshot (ps : list (float * float)) (g : SimpleGame.t) :
  let g' := fst (hover_run g ps) in
  (SimpleGame.pulling g' = SimpleGame.pulling g
   /\ SimpleGame.bird g' = SimpleGame.bird g)
  \/ SimpleGame.pulling g' = false.
Proof.
  revert g. induction ps as [|p ps IH]; intros g; [left; split; reflexivity|].
  simpl. pose proof (hover_slingshot g (fst p) (snd p)) as H1.
  destruct (SimpleGame.check_button_hover g (fst p) (snd p)) as [g1 fired].
  specialize (IH g1). destruct (hover_run g1 ps) as [g2 fs]. cbn [fst] in *.
  destruct IH as [[IHp IHb]|IHp]; [|now right].
  destruct H1 as [[Hp Hb]|Hp]; [left; split; congruence | right; congruence].
Qed.

Lemma hands_loop_slingshot (width height : Z) (hs : list Hand) (r : Run) :
  let r' := fold_left (process_hand width height) hs r in
  (SimpleGame.pulling (the_game r') = SimpleGame.pulling (the_game r)
   /\ SimpleGame.bird (the_game r') = SimpleGame.bird (the_game r))
  \/ SimpleGame.pulling (the_game r') = false.
Proof.
  revert r. induction hs as [|hand hs IH]; intros r; [left; split; reflexivity|].
  cbn [fold_left].
  pose proof (process_hand_spec width height r hand) as (_ & Hg & _).
  specialize (IH (process_hand width height r hand)). cbv zeta in *.
  destruct IH as [[IHp IHb]|IHp]; [|now right].
  rewrite Hg in IHp, IHb.
  cbn [SimpleGame.pulling SimpleGame.bird SimpleGame.set_fist_detected] in IHp, IHb.
  destruct (hover_run_slingshot (hand_pointer width height hand) (the_game r))
    as [[Hp Hb]|Hp]; [left; split; congruence | right; congruence].
Qed.

(** ** The phases after the loop *)

Lemma with_game_calls (r : Run) (g : SimpleGame.t) (c : list Call) :
  calls (with_game r g c) = calls r ++ c /\ the_game (with_game r g c) = g
  /\ locals (with_game r g c) = locals r.
Proof. repeat split. Qed.

(** The slingshot step makes no button check and leaves button and
    pause flag alone; it can only raise in a release from a position
    that has no pixel. *)
Lemma slingshot_logic_spec (r : Run) :
  let o := slingshot_logic r in
  hover_calls (calls (state_of o)) = hover_calls (calls r)
  /\ SimpleGame.reset_button (the_game (state_of o))
     = SimpleGame.reset_button (the_game r)
  /\ SimpleGame.is_paused (the_game (state_of o))
     = SimpleGame.is_paused (the_game r)
  /\ locals (state_of o) = locals r
  /\ ((SimpleGame.pulling (the_game r) = true ->
       SimpleBird.pixel (SimpleGame.bird (the_game r)) <> None) ->
      returned o = true).
Proof.
  unfold slingshot_logic. cbv zeta.
  destruct (is_pinching (locals r)); cbn [andb negb].
  - destruct (SimpleGame.pulling (the_game r)) eqn:Hp; cbn [negb state_of returned].
    + pose proof (update_pull_button (the_game r) (fst (pinch_center (locals r)))
                                     (snd (pinch_center (locals r)))) as [Hb Hz].
      cbn [with_game calls the_game locals]. rewrite hover_calls_app.
      cbn [hover_calls flat_map]. rewrite app_nil_r. repeat split; assumption.
    + pose proof (start_pull_button (the_game r) (fst (pinch_center (locals r)))
                                    (snd (pinch_center (locals r)))) as [Hb Hz].
      cbn [with_game calls the_game locals]. rewrite hover_calls_app.
      cbn [hover_calls flat_map]. rewrite app_nil_r. repeat split; assumption.
  - destruct (SimpleGame.pulling (the_game r)) eqn:Hp; cbn [state_of returned];
      [|repeat split].
    pose proof (release_button (the_game r)) as [Hb Hz].
    assert (Hret : (SimpleBird.pixel (SimpleGame.bird (the_game r)) <> None) ->
                   returned (SimpleGame.release (the_game r)) = true).
    { unfold SimpleGame.release, SimpleBird.launch. rewrite Hp. cbv zeta.
      unfold SimpleBird.pixel. cbn [SimpleBird.x SimpleBird.y].
      intros Hpix. destruct (Py.int (SimpleBird.x _)); [|congruence].
      destruct (Py.int (SimpleBird.y _)); [reflexivity|congruence]. }
    destruct (SimpleGame.release (the_game r)) as [g'|g'];
      cbn [state_of returned with_game calls the_game locals] in *;
      rewrite hover_calls_app; cbn [hover_calls flat_map]; rewrite app_nil_r;
      repeat split; try assumption.
    intros Hfin. apply Hret. now apply Hfin.
Qed.

Lemma button_logic_spec (r : Run) :
  calls (button_logic r) = calls r ++ [hover_call (pointer_of (locals r))]
  /\ the_game (button_logic r)
     = fst (SimpleGame.check_button_hover (the_game r)
              (fst (pointer_of (locals r))) (snd (pointer_of (locals r))))
  /\ locals (button_logic r) = locals r.
Proof.
  unfold button_logic, pointer_of, hover_call. cbv zeta.
  destruct (is_pointing (locals r)); repeat split.
Qed.

Lemma swipe_logic_spec (r : Run) :
  ((calls (swipe_logic r) = calls r /\ the_game (swipe_logic r) = the_game r)
   \/ (calls (swipe_logic r) = calls r ++ [call_next_level]
       /\ the_game (swipe_logic r) = SimpleGame.next_level (the_game r))).
Proof.
  unfold swipe_logic. cbv zeta.
  destruct (update_swipe_detection _ _ _) as [sh level_switched].
  cbn [the_game]. destruct (_ && _ && _); [|left; split; reflexivity].
  destruct (_ <? _)%Z; [right | left]; split; reflexivity.
Qed.

Lemma swipe_logic_keeps (r : Run) :
  hover_calls (calls (swipe_logic r)) = hover_calls (calls r)
  /\ SimpleGame.reset_button (the_game (swipe_logic r))
     = SimpleGame.reset_button (the_game r)
  /\ SimpleGame.is_paused (the_game (swipe_logic r))
     = SimpleGame.is_paused (the_game r).
Proof.
  destruct (swipe_logic_spec r) as [[Hc Hg]|[Hc Hg]]; rewrite Hc, Hg.
  - repeat split.
  - rewrite hover_calls_app. cbn [hover_calls flat_map]. rewrite app_nil_r.
    destruct (next_level_button (the_game r)) as [Hb Hz]. repeat split; assumption.
Qed.

Lemma update_logic_spec (r : Run) :
  let o := update_logic r in
  hover_calls (calls (state_of o)) = hover_calls (calls r)
  /\ SimpleGame.reset_button (the_game (state_of o))
     = SimpleGame.reset_button (the_game r)
  /\ SimpleGame.is_paused (the_game (state_of o))
     = SimpleGame.is_paused (the_game r)
  /\ (SimpleGame.is_paused (the_game r) = true -> o = Normal r).
Proof.
  unfold update_logic. cbv zeta.
  destruct (SimpleGame.is_paused (the_game r)) eqn:Hz; cbn [negb].
  - cbn [state_of]. repeat split. exact Hz.
  - destruct (update_button (the_game r)) as [Hb Hz'].
    destruct (SimpleGame.update (the_game r)) as [g'|g'];
      cbn [state_of with_game calls the_game] in *;
      rewrite hover_calls_app; cbn [hover_calls flat_map]; rewrite app_nil_r;
      repeat split; try assumption; try congruence; discriminate.
Qed.

End FramePhases.

Section FrameTheorems.
Context {L : Libm}.

Lemma hover_run_single (g : SimpleGame.t) (p : float * float) :
  fst (hover_run g [p]) = fst (SimpleGame.check_button_hover g (fst p) (snd p)).
Proof.
  simpl. now destruct (SimpleGame.check_button_hover g (fst p) (snd p)).
Qed.

Lemma run_frame_phases (fr : Frame) (gl : Globals) :
  run_frame fr gl
  = and_then (game_logic (after_pause fr gl))
             (fun r3 => update_logic (swipe_logic r3)).
Proof. reflexivity. Qed.

Lemma callback_result (fr : Frame) (gl : Globals) :
  game_at fr (fst (video_frame_callback fr gl)) = the_game (state_of (run_frame fr gl))
  /\ snd (video_frame_callback fr gl) = calls (state_of (run_frame fr gl)).
Proof. split; reflexivity. Qed.

Lemma after_pause_spec (fr : Frame) (gl : Globals) :
  let r2 := after_pause fr gl in
  hover_calls (calls r2) = pointers fr
  /\ other_calls (calls r2) = [call_update_pause_state]
  /\ SimpleGame.reset_button (the_game r2)
     = SimpleGame.reset_button (fst (hover_run (game_at fr gl) (pointers fr)))
  /\ pointer_of (locals r2) = final_pointer fr
  /\ ((SimpleGame.pulling (the_game r2) = SimpleGame.pulling (game_at fr gl)
       /\ SimpleGame.bird (the_game r2) = SimpleGame.bird (game_at fr gl))
      \/ SimpleGame.pulling (the_game r2) = false).
Proof.
  unfold after_pause, after_hands, pointers, final_pointer.
  pose proof (hands_loop_spec (frame_width fr) (frame_height fr) (hands fr)
                              (at_start fr gl)) as (Hc & Hb & _ & Hp).
  pose proof (hands_loop_slingshot (frame_width fr) (frame_height fr) (hands fr)
                                   (at_start fr gl)) as Hs.
  cbv zeta in *. cbn [with_game calls the_game locals].
  rewrite Hc. cbn [at_start calls app].
  rewrite hover_calls_app, other_calls_app.
  destruct (hover_calls_map
              (flat_map (hand_pointer (frame_width fr) (frame_height fr)) (hands fr)))
    as [Hh Ho].
  rewrite Hh, Ho. cbn [hover_calls other_calls flat_map filter app].
  rewrite app_nil_r. split; [reflexivity|]. split; [reflexivity|].
  split; [rewrite pause_state_button; exact Hb|].
  split; [exact Hp|].
  assert (Hps : forall g, SimpleGame.pulling (SimpleGame.update_pause_state g)
                          = SimpleGame.pulling g
                          /\ SimpleGame.bird (SimpleGame.update_pause_state g)
                             = SimpleGame.bird g).
  { intros g. unfold SimpleGame.update_pause_state. cbv zeta.
    repeat match goal with
           | |- context [if ?c then _ else _] => destruct c
           end; split; reflexivity. }
  destruct (Hps (the_game (fold_left (process_hand (frame_width fr) (frame_height fr))
                                     (hands fr) (at_start fr gl)))) as [Hpp Hpb].
  rewrite Hpp, Hpb. exact Hs.
Qed.

(** A frame that ends paused: the button has been checked once for each
    pointing hand, and apart from the pause update the only call that
    can follow is [next_level()]. *)
Lemma paused_frame_calls (fr : Frame) (gl : Globals) :
  SimpleGame.is_paused (the_game (after_pause fr gl)) = true ->
  let r := state_of (run_frame fr gl) in
  SimpleGame.is_paused (the_game r) = true
  /\ hover_calls (calls r) = pointers fr
  /\ (other_calls (calls r) = [call_update_pause_state]
      \/ other_calls (calls r) = [call_update_pause_state; call_next_level])
  /\ SimpleGame.reset_button (the_game r)
     = SimpleGame.reset_button (fst (hover_run (game_at fr gl) (pointers fr))).
Proof.
  intros Hz. rewrite run_frame_phases. unfold game_logic. rewrite Hz.
  cbn [negb and_then].
  destruct (after_pause_spec fr gl) as (Hh & Ho & Hb & _).
  destruct (swipe_logic_keeps (after_pause fr gl)) as (Hsh & Hsb & Hsz).
  destruct (update_logic_spec (swipe_logic (after_pause fr gl))) as (_ & _ & _ & Hno).
  rewrite Hno by (rewrite Hsz; exact Hz). cbn [state_of].
  split; [rewrite Hsz; exact Hz|]. split; [rewrite Hsh; exact Hh|].
  split; [|rewrite Hsb; exact Hb].
  destruct (swipe_logic_spec (after_pause fr gl)) as [[Hc _]|[Hc _]]; rewrite Hc.
  - left. exact Ho.
  - right. rewrite other_calls_app, Ho. reflexivity.
Qed.

(** A frame that ends unpaused: one more button check, at the position
    of the last pointing hand (or at (-1, -1)). *)
Lemma unpaused_frame_calls (fr : Frame) (gl : Globals) :
  SimpleGame.is_paused (the_game (after_pause fr gl)) = false ->
  (SimpleGame.pulling (game_at fr gl) = true ->
   SimpleBird.pixel (SimpleGame.bird (game_at fr gl)) <> None) ->
  let r := state_of (run_frame fr gl) in
  SimpleGame.is_paused (the_game r) = false
  /\ hover_calls (calls r) = pointers fr ++ [final_pointer fr]
  /\ SimpleGame.reset_button (the_game r)
     = SimpleGame.reset_button
         (fst (hover_run (game_at fr gl) (pointers fr ++ [final_pointer fr]))).
Proof.
  intros Hz Hfin. rewrite run_frame_phases. unfold game_logic. rewrite Hz.
  cbn [negb].
  destruct (after_pause_spec fr gl) as (Hh & _ & Hb & Hp & Hs).
  destruct (slingshot_logic_spec (after_pause fr gl)) as (Hlh & Hlb & Hlz & Hll & Hret).
  assert (Hok : returned (slingshot_logic (after_pause fr gl)) = true).
  { apply Hret. intros Hpull. destruct Hs as [[Hsp Hsb]|Hsp]; [|congruence].
    rewrite Hsb. apply Hfin. congruence. }
  destruct (slingshot_logic (after_pause fr gl)) as [rs|rs]; [|discriminate Hok].
  cbn [state_of and_then] in *.
  destruct (button_logic_spec rs) as (Hbc & Hbg & Hbl).
  destruct (swipe_logic_keeps (button_logic rs)) as (Hsh & Hsb & Hsz).
  destruct (update_logic_spec (swipe_logic (button_logic rs))) as (Huh & Hub & Huz & _).
  rewrite Huz, Huh, Hub, Hsz, Hsh, Hsb, Hbg, Hbc, hover_calls_app, Hlh, Hh, Hll, Hp.
  split; [rewrite hover_paused, Hlz; exact Hz|].
  split; [destruct (final_pointer fr); reflexivity|].
  rewrite hover_run_app. cbn [fst]. rewrite hover_run_single.
  apply hover_button_congr. rewrite Hlb. exact Hb.
Qed.

Lemma frame_pause_flag (fr : Frame) (gl : Globals) :
  SimpleGame.is_paused (the_game (state_of (run_frame fr gl)))
  = SimpleGame.is_paused (the_game (after_pause fr gl)).
Proof.
  rewrite run_frame_phases. unfold game_logic.
  destruct (SimpleGame.is_paused (the_game (after_pause fr gl))) eqn:Hz; cbn [negb].
  - cbn [and_then].
    destruct (swipe_logic_keeps (after_pause fr gl)) as (_ & _ & Hsz).
    destruct (update_logic_spec (swipe_logic (after_pause fr gl))) as (_ & _ & Huz & _).
    rewrite Huz, Hsz. exact Hz.
  - destruct (slingshot_logic_spec (after_pause fr gl)) as (_ & _ & Hlz & _).
    destruct (slingshot_logic (after_pause fr gl)) as [rs|rs]; cbn [state_of and_then] in *.
    + destruct (button_logic_spec rs) as (_ & Hbg & _).
      destruct (swipe_logic_keeps (button_logic rs)) as (_ & _ & Hsz).
      destruct (update_logic_spec (swipe_logic (button_logic rs))) as (_ & _ & Huz & _).
      rewrite Huz, Hsz, Hbg, hover_paused, Hlz. exact Hz.
    + rewrite Hlz. exact Hz.
Qed.

(** C10 (amended): in a frame the callback calls [check_button_hover]
    once for every hand detected as pointing, at that hand's fingertip,
    whether the game is paused or not, and, when the game is not paused,
    once more at the fingertip of the last pointing hand.  The button
    after the frame is what these calls make of it.  So with exactly one
    pointing hand, its fingertip in the literal rectangle, the game not
    paused and the button not triggered and at least 4 below its
    threshold, the progress grows by 4 in the frame. *)
Theorem C10_button_checked_per_pointing_hand_and_once_more
        (fr : Frame) (gl : Globals) :
  let g0 := game_at fr gl in
  let g' := game_at fr (fst (video_frame_callback fr gl)) in
  let cs := hover_calls (snd (video_frame_callback fr gl)) in
  (SimpleGame.is_paused g' = true ->
   cs = pointers fr
   /\ SimpleGame.reset_button g' = SimpleGame.reset_button (fst (hover_run g0 cs)))
  /\ (SimpleGame.is_paused g' = false ->
      (SimpleGame.pulling g0 = true ->
       SimpleBird.pixel (SimpleGame.bird g0) <> None) ->
      cs = pointers fr ++ [final_pointer fr]
      /\ SimpleGame.reset_button g' = SimpleGame.reset_button (fst (hover_run g0 cs))
      /\ forall p,
           pointers fr = [p] ->
           let b := SimpleGame.reset_button g0 in
           Button.in_button_area b (fst p) (snd p) = true ->
           Button.has_triggered b = false ->
           (0 <= Button.detection_padding b)%Z ->
           (Button.progress b + 4 <= Button.max_progress b)%Z ->
           cs = [p; p]
           /\ Button.progress (SimpleGame.reset_button g')
              = (Button.progress b + 4)%Z).
Proof.
  intros g0 g' cs. subst g0 g' cs.
  destruct (callback_result fr gl) as [Hg Hc]. rewrite Hg, Hc.
  rewrite frame_pause_flag. split.
  - intros Hz. destruct (paused_frame_calls fr gl Hz) as (_ & Hh & _ & Hb).
    rewrite Hh. split; [reflexivity | exact Hb].
  - intros Hz Hfin. destruct (unpaused_frame_calls fr gl Hz Hfin) as (_ & Hh & Hb).
    rewrite Hh. split; [reflexivity|]. split; [exact Hb|].
    intros p Hp b Hin Hnot Hpad Hroom. subst b.
    unfold final_pointer in *. rewrite Hp in *. cbn [app last] in *.
    split; [reflexivity|]. rewrite Hb. clear Hb Hh.
    set (g := game_at fr gl) in *.
    assert (Hexp : Button.in_expanded_area (SimpleGame.reset_button g) (fst p) (snd p) = true)
      by (apply button_area_in_expanded_area; assumption).
    pose proof (hover_in_button g (fst p) (snd p) Hexp Hin Hnot) as (_ & Hstep).
    pose proof (hover_keeps_geometry g (fst p) (snd p)) as Hgeo.
    destruct (Z.leb_spec (Button.max_progress (SimpleGame.reset_button g))
                         (Button.progress (SimpleGame.reset_button g) + 2)); [lia|].
    destruct Hstep as (_ & Hnot1 & Hprog1).
    cbn [hover_run].
    destruct (SimpleGame.check_button_hover g (fst p) (snd p)) as [g1 f1].
    cbn [fst] in *.
    assert (Hin1 : Button.in_button_area (SimpleGame.reset_button g1) (fst p) (snd p) = true)
      by (rewrite (button_area_geometry _ _ Hgeo); exact Hin).
    assert (Hexp1 : Button.in_expanded_area (SimpleGame.reset_button g1) (fst p) (snd p) = true)
      by (rewrite (expanded_area_geometry _ _ Hgeo); exact Hexp).
    pose proof (hover_in_button g1 (fst p) (snd p) Hexp1 Hin1 Hnot1) as (_ & Hstep2).
    unfold geometry in Hgeo. injection Hgeo as _ _ _ _ _ Hmax.
    destruct (SimpleGame.check_button_hover g1 (fst p) (snd p)) as [g2 f2].
    cbn [fst snd] in *.
    destruct (Z.leb_spec (Button.max_progress (SimpleGame.reset_button g1))
                         (Button.progress (SimpleGame.reset_button g1) + 2));
      destruct Hstep2 as (_ & _ & Hprog2); lia.
Qed.

End FrameTheorems.

Lemma C10_button_checked_per_pointing_hand_and_once_more_witness :
  SimpleGame.is_paused
    (game_at pointing_frame
             (fst (video_frame_callback (L := ieee_libm) pointing_frame fresh))) = false
  /\ pointers pointing_frame = [(80, 390)%float]
  /\ hover_calls (snd (video_frame_callback (L := ieee_libm) pointing_frame fresh))
     = [(80, 390); (80, 390)]%float
  /\ Button.progress
       (SimpleGame.reset_button
          (game_at pointing_frame
             (fst (video_frame_callback (L := ieee_libm) pointing_frame fresh))))
     = 4%Z.
Proof.
  assert (Hz : SimpleGame.is_paused
                 (game_at pointing_frame
                    (fst (video_frame_callback (L := ieee_libm) pointing_frame fresh)))
               = false) by reflexivity.
  assert (Hfin : SimpleGame.pulling (game_at pointing_frame fresh) = true ->
                 SimpleBird.pixel (SimpleGame.bird (game_at pointing_frame fresh)) <> None)
    by (intros _; vm_compute; discriminate).
  split; [exact Hz|]. split; [reflexivity|].
  destruct (proj2 (C10_button_checked_per_pointing_hand_and_once_more
                     (L := ieee_libm) pointing_frame fresh) Hz Hfin) as (_ & _ & Hfour).
  destruct (Hfour (80, 390)%float eq_refl eq_refl eq_refl) as [Hcs Hprog].
  - vm_compute. discriminate.
  - vm_compute. discriminate.
  - split; [exact Hcs | exact Hprog].
Defined.

(** C10 as worded fails when two hands point: in [two_pointers_frame]
    (fingertips at (80, 390) and (100, 390), fresh session, not paused)
    the button is checked three times, at (80, 390), (100, 390) and
    (100, 390) again, and its progress goes from 0 to 6. *)
Lemma C10_counterexample : ~ hover_checked_twice_when_pointing.
Proof.
  intros Htwice.
  specialize (Htwice ieee_libm two_pointers_frame fresh).
  assert (Hptr : pointers two_pointers_frame <> []) by (vm_compute; discriminate).
  specialize (Htwice Hptr eq_refl). vm_compute in Htwice. discriminate Htwice.
Qed.

(* ================================================================== *)
(** * Pause *)
(* ================================================================== *)

(** C4, the code at the failing input.  A fresh 640 x 480 session sees
    [fist_frame] (a closed hand): the game pauses.  It then sees
    [pointing_frame]: a hand pointing at pixel (80, 390), inside the
    restart button; the raw fist sample is false, the stabilized one is
    still true, so the game stays paused through the whole frame.  The
    frame makes no slingshot call and no [update()], but it does call
    [check_button_hover(80, 390)] from the loop over the hands, and the
    button progress goes from 0 to 2 while the game is paused. *)
Theorem C4_paused_frame_advances_button :
  let gl1 := fst (video_frame_callback (L := ieee_libm) fist_frame fresh) in
  let res := video_frame_callback (L := ieee_libm) pointing_frame gl1 in
  let g1 := game_at pointing_frame gl1 in
  let g2 := game_at pointing_frame (fst res) in
  SimpleGame.is_paused g1 = true
  /\ SimpleGame.is_paused g2 = true
  /\ snd res = [call_check_button_hover 80 390; call_update_pause_state]
  /\ Button.progress (SimpleGame.reset_button g1) = 0%Z
  /\ Button.progress (SimpleGame.reset_button g2) = 2%Z
  /\ SimpleGame.bird g2 = SimpleGame.bird g1
  /\ SimpleGame.targets g2 = SimpleGame.targets g1.
Proof. vm_compute. repeat split. Qed.

(** The part of C4 that the code keeps, for every frame that ends
    paused: no slingshot call and no [update()], hence no physics and no
    collision check; the pause update itself runs; the button is checked
    only from the loop over the hands. *)
Lemma paused_frame_skips_game_logic {L : Libm} (fr : Frame) (gl : Globals) :
  let res := video_frame_callback fr gl in
  SimpleGame.is_paused (game_at fr (fst res)) = true ->
  hover_calls (snd res) = pointers fr
  /\ (other_calls (snd res) = [call_update_pause_state]
      \/ other_calls (snd res) = [call_update_pause_state; call_next_level]).
Proof.
  intros res Hz. subst res.
  destruct (callback_result fr gl) as [Hg Hc]. rewrite Hg in Hz. rewrite Hc.
  rewrite frame_pause_flag in Hz.
  destruct (paused_frame_calls fr gl Hz) as (_ & Hh & Ho & _). split; assumption.
Qed.

(** C5 as worded fails for input: in [transitioning_session] (a fresh
    640 x 480 game on which [next_level()] has started the transition to
    level 2) the frame [pointing_frame] is handled as in any other tick:
    the button is checked twice at (80, 390) and its progress goes from 0
    to 4, while [update()] only moves the transition from 0 to 3. *)
Lemma C5_counterexample : ~ input_suspended_while_transitioning.
Proof.
  intros Hsusp.
  specialize (Hsusp ieee_libm pointing_frame transitioning_session
                    (SimpleGame.next_level (SimpleGame.init 640 480))
                    eq_refl eq_refl).
  vm_compute in Hsusp. discriminate Hsusp.
Qed.

(* ================================================================== *)
(** * The restart button across ticks *)
(* ================================================================== *)

Unset Implicit Arguments.

Section Restart.
Context {L : Libm}.
















End Restart.




(* ================================================================== *)
(** * Collisions, score and bounds *)
(* ================================================================== *)

Unset Implicit Arguments.

Section Targets.
Context {L : Libm}.

Lemma check_collision_cases (tg : SimpleTarget.t) (b b2 : SimpleBird.t) :
  let r := SimpleTarget.check_collision tg b in
  (SimpleTarget.is_destroyed tg = true -> r = (tg, false))
  /\ (snd r = true ->
      SimpleTarget.is_destroyed tg = false
      /\ fst r = SimpleTarget.set_destroyed tg true
      /\ SimpleTarget.check_collision (fst r) b2 = (fst r, false))
  /\ (snd r = false -> fst r = tg)
  /\ same_target_or_hit tg (fst r).
Proof.
  unfold SimpleTarget.check_collision, same_target_or_hit. cbv zeta.
  destruct (SimpleTarget.is_destroyed tg) eqn:Hd.
  - cbn [fst snd]. repeat split; try discriminate; auto.
  - destruct (Py.float_lt_int _ _); cbn [fst snd]; repeat split;
      try discriminate; auto.
Qed.

(** [check_collision] is a one-shot edge: on a destroyed target it
    returns [False] and changes nothing, whatever the distance; a hit
    destroys the target, so the next check of that target returns [False];
    position and radius never change. *)
Theorem check_collision_one_shot (tg : SimpleTarget.t) (b b2 : SimpleBird.t) :
  let r := SimpleTarget.check_collision tg b in
  (SimpleTarget.is_destroyed tg = true -> r = (tg, false))
  /\ (snd r = true ->
      SimpleTarget.is_destroyed tg = false
      /\ fst r = SimpleTarget.set_destroyed tg true
      /\ SimpleTarget.check_collision (fst r) b2 = (fst r, false))
  /\ (snd r = false -> fst r = tg)
  /\ same_target_or_hit tg (fst r).
Proof. exact (check_collision_cases tg b b2). Qed.

Lemma destroyed_count_cons (tg : SimpleTarget.t) (ts : list SimpleTarget.t) :
  destroyed_count (tg :: ts)
  = (Z.b2z (SimpleTarget.is_destroyed tg) + destroyed_count ts)%Z.
Proof.
  unfold destroyed_count. cbn [filter].
  destruct (SimpleTarget.is_destroyed tg); cbn [length Z.b2z]; lia.
Qed.

Lemma destroyed_count_bounds (ts : list SimpleTarget.t) :
  (0 <= destroyed_count ts <= Z.of_nat (length ts))%Z.
Proof.
  unfold destroyed_count. pose proof (filter_length_le SimpleTarget.is_destroyed ts). lia.
Qed.

Lemma destroyed_count_all (ts : list SimpleTarget.t) :
  forallb SimpleTarget.is_destroyed ts = true
  <-> destroyed_count ts = Z.of_nat (length ts).
Proof.
  induction ts as [|tg ts IH]; [split; reflexivity|].
  rewrite destroyed_count_cons. cbn [forallb length].
  pose proof (destroyed_count_bounds ts) as Hb.
  destruct (SimpleTarget.is_destroyed tg); cbn [andb Z.b2z].
  - rewrite IH. lia.
  - split; [discriminate | lia].
Qed.

(** The collision loop: every target is checked once against the bird;
    the score grows by 100 for each target destroyed in this pass. *)
Lemma check_collisions_spec (b : SimpleBird.t) (ts : list SimpleTarget.t) (sc : Z) :
  let r := SimpleGame.check_collisions b ts sc in
  Forall2 same_target_or_hit ts (fst r)
  /\ snd r = (sc + 100 * (destroyed_count (fst r) - destroyed_count ts))%Z
  /\ (destroyed_count ts <= destroyed_count (fst r))%Z.
Proof.
  revert sc. induction ts as [|tg ts IH]; intros sc.
  - cbn. split; [constructor|]. split; lia.
  - cbn [SimpleGame.check_collisions].
    pose proof (check_collision_cases tg b b) as (Hdead & Hhit & Hmiss & Hsame).
    cbv zeta in *.
    destruct (SimpleTarget.check_collision tg b) as [tg' hit]. cbn [fst snd] in *.
    specialize (IH (if hit then (sc + 100)%Z else sc)). cbv zeta in IH.
    destruct (SimpleGame.check_collisions b ts _) as [ts' sc'']. cbn [fst snd] in *.
    destruct IH as (IHsame & IHsc & IHmono).
    split; [constructor; assumption|].
    rewrite !destroyed_count_cons.
    destruct hit.
    + destruct (Hhit eq_refl) as (Hd & Hset & _). rewrite Hd, Hset.
      cbn [SimpleTarget.is_destroyed SimpleTarget.set_destroyed Z.b2z]. split; lia.
    + rewrite (Hmiss eq_refl). split; lia.
Qed.

(** What [update()] does to score, targets and victory flag in a tick
    without a level transition: targets keep their place and are never
    un-destroyed, the score grows by exactly 100 per target destroyed in
    the tick, and [game_won] is recomputed as "every target destroyed". *)
Theorem update_scores_100_per_new_hit (g g' : SimpleGame.t) :
  SimpleGame.is_transitioning g = false ->
  SimpleGame.update g = Normal g' ->
  Forall2 same_target_or_hit (SimpleGame.targets g) (SimpleGame.targets g')
  /\ SimpleGame.score g'
     = (SimpleGame.score g
        + 100 * (destroyed_count (SimpleGame.targets g')
                 - destroyed_count (SimpleGame.targets g)))%Z
  /\ (SimpleGame.score g <= SimpleGame.score g')%Z
  /\ (SimpleGame.game_won g' = true
      <-> destroyed_count (SimpleGame.targets g')
          = Z.of_nat (length (SimpleGame.targets g'))).
Proof.
  intros Htr Hup. unfold SimpleGame.update in Hup. rewrite Htr in Hup.
  destruct (SimpleBird.update (SimpleGame.bird g)) as [b|b]; [|discriminate].
  injection Hup as <-. unfold SimpleGame.after_physics.
  cbn [SimpleGame.bird SimpleGame.targets SimpleGame.score SimpleGame.set_bird].
  pose proof (check_collisions_spec b (SimpleGame.targets g) (SimpleGame.score g))
    as (Hsame & Hsc & Hmono).
  cbv zeta in *.
  destruct (SimpleGame.check_collisions b (SimpleGame.targets g) (SimpleGame.score g))
    as [ts sc]. cbn [fst snd] in *.
  assert (Htg : forall g1 : SimpleGame.t,
             SimpleGame.targets
               (if SimpleGame.out_of_bounds g1
                then if SimpleBird.is_flying (SimpleGame.bird g1)
                     then SimpleGame.set_bird g1 (SimpleBird.reset (SimpleGame.bird g1))
                     else g1
                else g1) = SimpleGame.targets g1
             /\ SimpleGame.score
               (if SimpleGame.out_of_bounds g1
                then if SimpleBird.is_flying (SimpleGame.bird g1)
                     then SimpleGame.set_bird g1 (SimpleBird.reset (SimpleGame.bird g1))
                     else g1
                else g1) = SimpleGame.score g1).
  { intros g1. destruct (SimpleGame.out_of_bounds g1); [|split; reflexivity].
    destruct (SimpleBird.is_flying _); split; reflexivity. }
  cbn [SimpleGame.targets SimpleGame.score SimpleGame.game_won SimpleGame.set_game_won].
  destruct (Htg (SimpleGame.set_score
                   (SimpleGame.set_targets (SimpleGame.set_bird g b) ts) sc)) as [Ht Hs].
  rewrite Ht, Hs.
  cbn [SimpleGame.targets SimpleGame.score SimpleGame.set_score SimpleGame.set_targets].
  split; [exact Hsame|]. split; [exact Hsc|]. split; [lia|].
  apply destroyed_count_all.
Qed.

(** The boundary rule of [update()]: after a completed tick without a
    level transition a bird that is still flying is inside the play
    field on the left, right and bottom (the top is open); a flying bird
    that left it is back at its start, at rest, with an empty trail. *)
Theorem update_keeps_flying_bird_in_bounds (g g' : SimpleGame.t) :
  SimpleGame.is_transitioning g = false ->
  SimpleGame.update g = Normal g' ->
  (SimpleBird.is_flying (SimpleGame.bird g') = true ->
   SimpleGame.out_of_bounds g' = false)
  /\ (forall b, SimpleBird.update (SimpleGame.bird g) = Normal b ->
      SimpleBird.is_flying b = true ->
      SimpleGame.out_of_bounds (SimpleGame.set_bird g b) = true ->
      SimpleGame.bird g' = SimpleBird.reset b)
  /\ (forall b, SimpleBird.update (SimpleGame.bird g) = Normal b ->
      SimpleGame.out_of_bounds (SimpleGame.set_bird g b) = false ->
      SimpleGame.bird g' = b).
Proof.
  intros Htr Hup. unfold SimpleGame.update in Hup. rewrite Htr in Hup.
  destruct (SimpleBird.update (SimpleGame.bird g)) as [b|b]; [|discriminate].
  injection Hup as <-. unfold SimpleGame.after_physics.
  cbn [SimpleGame.bird SimpleGame.targets SimpleGame.score SimpleGame.set_bird].
  destruct (SimpleGame.check_collisions b (SimpleGame.targets g) (SimpleGame.score g))
    as [ts sc].
  set (g1 := SimpleGame.set_score
               (SimpleGame.set_targets (SimpleGame.set_bird g b) ts) sc).
  assert (Hoob : SimpleGame.out_of_bounds (SimpleGame.set_bird g b)
                 = SimpleGame.out_of_bounds g1) by reflexivity.
  assert (Hb1 : SimpleGame.bird g1 = b) by reflexivity.
  split; [|split].
  - destruct (SimpleGame.out_of_bounds g1) eqn:Ho; [|intros _; exact Ho].
    destruct (SimpleBird.is_flying (SimpleGame.bird g1)) eqn:Hf.
    + cbn [SimpleGame.bird SimpleGame.set_bird SimpleGame.set_game_won
           SimpleBird.is_flying SimpleBird.reset]. discriminate.
    + cbn [SimpleGame.bird SimpleGame.set_game_won]. rewrite Hf. discriminate.
  - intros b0 Hb0 Hfly Hout. injection Hb0 as <-. rewrite Hoob in Hout.
    rewrite Hout, Hb1, Hfly. reflexivity.
  - intros b0 Hb0 Hin. injection Hb0 as <-. rewrite Hoob in Hin.
    rewrite Hin. reflexivity.
Qed.

(** The tick that ends a level transition builds the new level but does
    not touch score or victory flag: [game_won] keeps the value it had
    when the previous level was won, although every target of the new
    level is undestroyed, until the next tick recomputes it. *)
Theorem transition_end_keeps_score_and_win (g : SimpleGame.t) :
  SimpleGame.is_transitioning g = true ->
  (100 <= SimpleGame.transition_progress g + 3)%Z ->
  exists g',
    SimpleGame.update g = Normal g'
    /\ SimpleGame.is_transitioning g' = false
    /\ SimpleGame.transition_progress g' = 0%Z
    /\ SimpleGame.game_won g' = SimpleGame.game_won g
    /\ SimpleGame.score g' = SimpleGame.score g
    /\ SimpleGame.current_level g' = SimpleGame.current_level g
    /\ destroyed_count (SimpleGame.targets g') = 0%Z
    /\ (0 < length (SimpleGame.targets g'))%nat
    /\ SimpleGame.pulling g' = false
    /\ SimpleBird.is_flying (SimpleGame.bird g') = false.
Proof.
  intros Htr Hge. eexists. split; [apply update_ends_transition; assumption|].
  unfold SimpleGame.init_level, SimpleGame.level_targets, SimpleGame.level_offsets.
  cbn [SimpleGame.is_transitioning SimpleGame.transition_progress SimpleGame.game_won
       SimpleGame.score SimpleGame.current_level SimpleGame.targets SimpleGame.pulling
       SimpleGame.bird SimpleGame.set_pulling SimpleGame.set_targets SimpleGame.set_bird
       SimpleGame.set_transition_progress SimpleGame.set_is_transitioning
       SimpleGame.game_offset_x SimpleGame.game_offset_y SimpleGame.game_area_width
       SimpleGame.game_area_height].
  do 5 (split; [reflexivity|]).
  repeat match goal with
         | |- context [if ?c then _ else _] => destruct c
         end; cbn; repeat split; lia.
Qed.

End Targets.

Lemma update_scores_100_per_new_hit_witness :
  SimpleGame.is_transitioning hit_game = false
  /\ exists g',
       SimpleGame.update (L := ieee_libm) hit_game = Normal g'
       /\ SimpleGame.score g' = 100%Z
       /\ destroyed_count (SimpleGame.targets g') = 1%Z.
Proof.
  assert (Htr : SimpleGame.is_transitioning hit_game = false) by (vm_compute; reflexivity).
  split; [exact Htr|].
  exists (state_of (SimpleGame.update (L := ieee_libm) hit_game)).
  assert (Hup : SimpleGame.update (L := ieee_libm) hit_game
                = Normal (state_of (SimpleGame.update (L := ieee_libm) hit_game)))
    by (vm_compute; reflexivity).
  split; [exact Hup|].
  destruct (update_scores_100_per_new_hit (L := ieee_libm) hit_game _ Htr Hup)
    as (_ & Hscore & _ & _).
  assert (Hcount : destroyed_count
                     (SimpleGame.targets (state_of (SimpleGame.update (L := ieee_libm) hit_game)))
                   = 1%Z) by (vm_compute; reflexivity).
  split; [|exact Hcount].
  rewrite Hscore, Hcount. vm_compute. reflexivity.
Defined.

Lemma update_keeps_flying_bird_in_bounds_witness :
  SimpleGame.is_transitioning leaving_game = false
  /\ exists g',
       SimpleGame.update (L := ieee_libm) leaving_game = Normal g'
       /\ SimpleGame.bird g' = SimpleBird.mk 164 282 164 282 15 0 0 false [].
Proof.
  assert (Htr : SimpleGame.is_transitioning leaving_game = false) by (vm_compute; reflexivity).
  split; [exact Htr|].
  exists (state_of (SimpleGame.update (L := ieee_libm) leaving_game)).
  assert (Hup : SimpleGame.update (L := ieee_libm) leaving_game
                = Normal (state_of (SimpleGame.update (L := ieee_libm) leaving_game)))
    by (vm_compute; reflexivity).
  split; [exact Hup|].
  destruct (update_keeps_flying_bird_in_bounds (L := ieee_libm) leaving_game _ Htr Hup)
    as (_ & Hreset & _).
  rewrite (Hreset (state_of (SimpleBird.update (SimpleGame.bird leaving_game)))).
  - vm_compute. reflexivity.
  - vm_compute. reflexivity.
  - vm_compute. reflexivity.
  - vm_compute. reflexivity.
Defined.

Lemma transition_end_keeps_score_and_win_witness :
  SimpleGame.is_transitioning ending_transition_game = true
  /\ SimpleGame.transition_progress ending_transition_game = 99%Z
  /\ exists g',
       SimpleGame.update (L := ieee_libm) ending_transition_game = Normal g'
       /\ SimpleGame.game_won g' = true
       /\ SimpleGame.score g' = 300%Z
       /\ destroyed_count (SimpleGame.targets g') = 0%Z.
Proof.
  assert (Htr : SimpleGame.is_transitioning ending_transition_game = true)
    by (vm_compute; reflexivity).
  assert (Hp : SimpleGame.transition_progress ending_transition_game = 99%Z)
    by (vm_compute; reflexivity).
  split; [exact Htr|]. split; [exact Hp|].
  destruct (transition_end_keeps_score_and_win (L := ieee_libm) ending_transition_game Htr)
    as (g' & Hup & _ & _ & Hwon & Hscore & _ & Hnone & _).
  - rewrite Hp. vm_compute. discriminate.
  - exists g'. split; [exact Hup|]. rewrite Hwon, Hscore.
    split; [vm_compute; reflexivity|]. split; [vm_compute; reflexivity|exact Hnone].
Defined.

(* ================================================================== *)
(** * What a frame can do to the game: sequences of method calls *)
(* ================================================================== *)

Section Reachability.
Context {L : Libm}.

Lemma reached_trans (g1 g2 g3 : SimpleGame.t) :
  reached g1 g2 -> reached g2 g3 -> reached g1 g3.
Proof.
  intros H12 H23. induction H23 as [|g g' _ IH Hstep]; [exact H12|].
  exact (reached_step g1 g g' IH Hstep).
Qed.

Lemma reached_one (g g' : SimpleGame.t) : method_step g g' -> reached g g'.
Proof. intros H. exact (reached_step g g g' (reached_here g) H). Qed.

Lemma invariant_reached (P : SimpleGame.t -> Prop) (g g' : SimpleGame.t) :
  invariant P -> reached g g' -> P g -> P g'.
Proof.
  intros Hinv Hr Hg. induction Hr as [|g1 g2 _ IH Hstep]; [exact Hg|].
  exact (Hinv g1 g2 Hstep IH).
Qed.

Lemma hover_run_reached (ps : list (float * float)) (g : SimpleGame.t) :
  reached g (fst (hover_run g ps)).
Proof.
  revert g. induction ps as [|p ps IH]; intros g; [apply reached_here|].
  cbn [hover_run].
  pose proof (step_check_button_hover g (fst p) (snd p)) as Hstep.
  destruct (SimpleGame.check_button_hover g (fst p) (snd p)) as [g1 fired].
  specialize (IH g1). destruct (hover_run g1 ps) as [g2 fs]. cbn [fst] in *.
  exact (reached_trans g g1 g2 (reached_one g g1 Hstep) IH).
Qed.

Lemma process_hand_reached (width height : Z) (r : Run) (hand : Hand) :
  reached (the_game r) (the_game (process_hand width height r hand)).
Proof.
  destruct (process_hand_spec width height r hand) as (_ & Hg & _).
  rewrite Hg.
  eapply reached_step; [apply hover_run_reached | apply step_fist_detected].
Qed.

Lemma hands_loop_reached (width height : Z) (hs : list Hand) (r : Run) :
  reached (the_game r) (the_game (fold_left (process_hand width height) hs r)).
Proof.
  revert r. induction hs as [|hand hs IH]; intros r; [apply reached_here|].
  cbn [fold_left].
  exact (reached_trans _ _ _ (process_hand_reached width height r hand)
                       (IH (process_hand width height r hand))).
Qed.

Lemma slingshot_logic_reached (r : Run) :
  reached (the_game r) (the_game (state_of (slingshot_logic r))).
Proof.
  unfold slingshot_logic. cbv zeta.
  destruct (is_pinching (locals r) && negb (SimpleGame.pulling (the_game r)));
    [apply reached_one, step_start_pull|].
  destruct (is_pinching (locals r) && SimpleGame.pulling (the_game r));
    [apply reached_one, step_update_pull|].
  destruct (negb (is_pinching (locals r)) && SimpleGame.pulling (the_game r));
    [|apply reached_here].
  pose proof (step_release (the_game r)) as Hstep.
  destruct (SimpleGame.release (the_game r)); apply reached_one; exact Hstep.
Qed.

Lemma button_logic_reached (r : Run) :
  reached (the_game r) (the_game (button_logic r)).
Proof.
  destruct (button_logic_spec r) as (_ & Hg & _). rewrite Hg.
  apply reached_one, step_check_button_hover.
Qed.

Lemma game_logic_reached (r : Run) :
  reached (the_game r) (the_game (state_of (game_logic r))).
Proof.
  unfold game_logic. destruct (negb (SimpleGame.is_paused (the_game r)));
    [|apply reached_here].
  pose proof (slingshot_logic_reached r) as Hs.
  destruct (slingshot_logic r) as [rs|rs]; cbn [and_then state_of] in *; [|exact Hs].
  exact (reached_trans _ _ _ Hs (button_logic_reached rs)).
Qed.

Lemma swipe_logic_reached (r : Run) :
  reached (the_game r) (the_game (swipe_logic r)).
Proof.
  destruct (swipe_logic_spec r) as [[_ Hg]|[_ Hg]]; rewrite Hg;
    [apply reached_here | apply reached_one, step_next_level].
Qed.

Lemma update_logic_reached (r : Run) :
  reached (the_game r) (the_game (state_of (update_logic r))).
Proof.
  unfold update_logic. destruct (negb (SimpleGame.is_paused (the_game r)));
    [|apply reached_here].
  pose proof (step_update (the_game r)) as Hstep.
  destruct (SimpleGame.update (the_game r)); apply reached_one; exact Hstep.
Qed.

(** The game after a frame is reached from the game before it by calls of
    the eight methods, whether the frame ends normally or in the [except]
    branch. *)
Lemma frame_reached (fr : Frame) (gl : Globals) :
  reached (game_at fr gl) (game_at fr (fst (video_frame_callback fr gl))).
Proof.
  destruct (callback_result fr gl) as [Hg _]. rewrite Hg, run_frame_phases.
  assert (H2 : reached (game_at fr gl) (the_game (after_pause fr gl))).
  { unfold after_pause. cbn [with_game the_game].
    eapply reached_step; [|apply step_update_pause_state].
    exact (hands_loop_reached (frame_width fr) (frame_height fr) (hands fr)
                              (at_start fr gl)). }
  pose proof (game_logic_reached (after_pause fr gl)) as H3.
  destruct (game_logic (after_pause fr gl)) as [r3|r3]; cbn [and_then state_of] in *.
  - exact (reached_trans _ _ _ H2
             (reached_trans _ _ _ H3
                (reached_trans _ _ _ (swipe_logic_reached r3)
                   (update_logic_reached (swipe_logic r3))))).
  - exact (reached_trans _ _ _ H2 H3).
Qed.

(** Hence a property that each method preserves holds after every frame
    (the game of a first frame is the one [__init__] builds). *)
Lemma frame_keeps_invariant (P : SimpleGame.t -> Prop) (fr : Frame) (gl : Globals) :
  invariant P ->
  P (game_at fr gl) ->
  P (game_at fr (fst (video_frame_callback fr gl))).
Proof.
  intros Hinv. exact (invariant_reached P _ _ Hinv (frame_reached fr gl)).
Qed.

End Reachability.

(* ================================================================== *)
(** * Invariants of the game across frames *)
(* ================================================================== *)

Ltac split_ifs :=
  repeat match goal with
         | |- context [if ?c then _ else _] => destruct c eqn:?
         end.

Ltac game_cbn :=
  cbn [SimpleGame.width SimpleGame.height SimpleGame.pulling SimpleGame.pull_x
       SimpleGame.pull_y SimpleGame.score SimpleGame.game_won SimpleGame.is_paused
       SimpleGame.fist_detected SimpleGame.last_fist_state
       SimpleGame.pause_message_timer SimpleGame.game_area_width
       SimpleGame.game_area_height SimpleGame.game_offset_x SimpleGame.game_offset_y
       SimpleGame.current_level SimpleGame.max_level SimpleGame.is_transitioning
       SimpleGame.transition_progress SimpleGame.transition_direction
       SimpleGame.reset_button SimpleGame.bird SimpleGame.targets
       SimpleGame.set_pulling SimpleGame.set_pull SimpleGame.set_score
       SimpleGame.set_game_won SimpleGame.set_is_paused SimpleGame.set_fist_detected
       SimpleGame.set_last_fist_state SimpleGame.set_pause_message_timer
       SimpleGame.set_current_level SimpleGame.set_is_transitioning
       SimpleGame.set_transition_progress SimpleGame.set_transition_direction
       SimpleGame.set_reset_button SimpleGame.set_bird SimpleGame.set_targets
       SimpleGame.reset_game SimpleGame.init_level SimpleGame.start_transition
       SimpleGame.move_bird
       SimpleBird.x SimpleBird.y SimpleBird.start_x SimpleBird.start_y
       SimpleBird.radius SimpleBird.vel_x SimpleBird.vel_y SimpleBird.is_flying
       SimpleBird.trail SimpleBird.reset SimpleBird.set_trail SimpleBird.integrate
       SimpleBird.init SimpleGame.level_bird
       state_of fst snd] in *.

Section Invariants.
Context {L : Libm}.

(** What each method can do to the game, field by field: the fields a
    method does not assign are the same before and after. *)
Lemma hover_shape (g : SimpleGame.t) (px py : float) :
  exists b,
    fst (SimpleGame.check_button_hover g px py) = SimpleGame.set_reset_button g b
    \/ fst (SimpleGame.check_button_hover g px py)
       = SimpleGame.set_reset_button (SimpleGame.reset_game g) b.
Proof.
  unfold SimpleGame.check_button_hover. cbv zeta.
  split_ifs; cbn [fst]; eexists; (left; reflexivity) || (right; reflexivity).
Qed.

Lemma pause_shape (g : SimpleGame.t) :
  exists p f t,
    SimpleGame.update_pause_state g
    = SimpleGame.set_pause_message_timer
        (SimpleGame.set_last_fist_state (SimpleGame.set_is_paused g p) f) t.
Proof.
  exists (SimpleGame.is_paused (SimpleGame.update_pause_state g)),
         (SimpleGame.last_fist_state (SimpleGame.update_pause_state g)),
         (SimpleGame.pause_message_timer (SimpleGame.update_pause_state g)).
  destruct g. unfold SimpleGame.update_pause_state. cbv zeta.
  repeat match goal with
         | |- context [if ?c then _ else _] => destruct c
         end; reflexivity.
Qed.

Lemma start_pull_shape (g : SimpleGame.t) (px py : float) :
  SimpleGame.start_pull g px py = g
  \/ SimpleGame.start_pull g px py = SimpleGame.set_pulling g true.
Proof. unfold SimpleGame.start_pull. cbv zeta. split_ifs; auto. Qed.

Lemma update_pull_shape (g : SimpleGame.t) (px py : float) :
  SimpleGame.update_pull g px py = g
  \/ exists qx qy,
       SimpleGame.update_pull g px py
       = SimpleGame.set_bird (SimpleGame.set_pull g qx qy)
                             (SimpleGame.move_bird (SimpleGame.bird g) qx qy).
Proof.
  unfold SimpleGame.update_pull. cbv zeta.
  destruct (SimpleGame.pulling g); [right|left; reflexivity].
  destruct (_ <? _)%float; do 2 eexists; reflexivity.
Qed.

Lemma release_shape (g : SimpleGame.t) :
  state_of (SimpleGame.release g) = g
  \/ exists vx vy,
       (state_of (SimpleGame.release g)
        = SimpleGame.set_bird g (state_of (SimpleBird.launch (SimpleGame.bird g) vx vy))
        \/ state_of (SimpleGame.release g)
           = SimpleGame.set_pulling
               (SimpleGame.set_bird g
                  (state_of (SimpleBird.launch (SimpleGame.bird g) vx vy))) false).
Proof.
  unfold SimpleGame.release. cbv zeta.
  destruct (SimpleGame.pulling g); [right|left; reflexivity].
  exists ((SimpleBird.start_x (SimpleGame.bird g) - SimpleBird.x (SimpleGame.bird g))
          * 0.15)%float,
         ((SimpleBird.start_y (SimpleGame.bird g) - SimpleBird.y (SimpleGame.bird g))
          * 0.15)%float.
  destruct (SimpleBird.launch _ _ _); cbn [state_of]; auto.
Qed.

Lemma next_level_shape (g : SimpleGame.t) :
  SimpleGame.next_level g = g
  \/ (SimpleGame.is_transitioning g = false
      /\ (SimpleGame.current_level g < SimpleGame.max_level g)%Z
      /\ SimpleGame.next_level g
         = SimpleGame.set_current_level
             (SimpleGame.start_transition g "left"%string)
             (SimpleGame.current_level g + 1)).
Proof.
  unfold SimpleGame.next_level.
  destruct (SimpleGame.is_transitioning g); [left; reflexivity|].
  destruct (Z.ltb_spec (SimpleGame.current_level g) (SimpleGame.max_level g));
    cbn [negb andb]; [right|left; reflexivity].
  repeat split; assumption.
Qed.

(** [update()]: a transition tick, or the end of a transition, or a
    physics tick (in which the bird's own update may raise). *)
Lemma update_shape (g : SimpleGame.t) :
  (SimpleGame.is_transitioning g = true
   /\ (SimpleGame.transition_progress g + 3 < 100)%Z
   /\ state_of (SimpleGame.update g)
      = SimpleGame.set_transition_progress g (SimpleGame.transition_progress g + 3))
  \/ (SimpleGame.is_transitioning g = true
      /\ state_of (SimpleGame.update g)
         = SimpleGame.init_level
             (SimpleGame.set_transition_progress
                (SimpleGame.set_is_transitioning g false) 0))
  \/ (SimpleGame.is_transitioning g = false
      /\ ((exists b, SimpleBird.update (SimpleGame.bird g) = Raised b
                     /\ state_of (SimpleGame.update g) = SimpleGame.set_bird g b)
          \/ (exists b, SimpleBird.update (SimpleGame.bird g) = Normal b
                        /\ state_of (SimpleGame.update g)
                           = SimpleGame.after_physics (SimpleGame.set_bird g b)))).
Proof.
  destruct (SimpleGame.is_transitioning g) eqn:Htr.
  - destruct (Z.ltb_spec (SimpleGame.transition_progress g + 3) 100).
    + left. rewrite update_while_transitioning by assumption. auto.
    + right. left. rewrite update_ends_transition by assumption. auto.
  - right. right. split; [reflexivity|]. unfold SimpleGame.update. rewrite Htr.
    destruct (SimpleBird.update (SimpleGame.bird g)) as [b|b]; [right|left];
      exists b; split; reflexivity.
Qed.

Lemma after_physics_shape (g : SimpleGame.t) :
  exists ts sc w b,
    SimpleGame.after_physics g
    = SimpleGame.set_game_won
        (SimpleGame.set_bird (SimpleGame.set_score (SimpleGame.set_targets g ts) sc) b) w
    /\ (ts, sc) = SimpleGame.check_collisions (SimpleGame.bird g)
                    (SimpleGame.targets g) (SimpleGame.score g)
    /\ (b = SimpleGame.bird g \/ b = SimpleBird.reset (SimpleGame.bird g)).
Proof.
  unfold SimpleGame.after_physics.
  destruct (SimpleGame.check_collisions _ _ _) as [ts sc]. cbv zeta.
  exists ts, sc.
  destruct (SimpleGame.out_of_bounds _).
  - destruct (SimpleBird.is_flying _) eqn:Hf.
    + do 2 eexists. split; [reflexivity|]. split; [reflexivity|]. right. reflexivity.
    + exists (forallb SimpleTarget.is_destroyed ts), (SimpleGame.bird g).
      split; [destruct g; reflexivity|]. split; [reflexivity|]. left. reflexivity.
  - exists (forallb SimpleTarget.is_destroyed ts), (SimpleGame.bird g).
    split; [destruct g; reflexivity|]. split; [reflexivity|]. left. reflexivity.
Qed.

End Invariants.

Ltac by_method g g' Hstep :=
  destruct Hstep as [g px py|g v|g|g px py|g px py|g|g|g];
  [ destruct (hover_shape g px py) as [b [-> | ->]]
  | idtac
  | destruct (pause_shape g) as (p & f & t & ->)
  | destruct (start_pull_shape g px py) as [-> | ->]
  | destruct (update_pull_shape g px py) as [-> | (qx & qy & ->)]
  | destruct (release_shape g) as [-> | (vx & vy & [-> | ->])]
  | destruct (next_level_shape g) as [-> | (Htr & Hlv & ->)]
  | destruct (update_shape g)
      as [(Htr & Hlt & ->) | [(Htr & ->) | (Htr & [(b & Hb & ->) | (b & Hb & ->)])]];
    [ | | | destruct (after_physics_shape (SimpleGame.set_bird g b))
              as (ts & sc & w & b' & -> & Hcol & Hb') ] ].

Section SimpleInvariants.
Context {L : Libm}.

(** No method of the game ever leaves more than 20 points in the trail. *)
Lemma trail_ok_invariant : invariant trail_ok.
Proof.
  intros g g' Hstep HP. unfold trail_ok in *.
  by_method g g' Hstep; game_cbn; try assumption; try (cbn; lia).
  - now apply launch_trail_bound.
  - now apply launch_trail_bound.
  - pose proof (update_trail_bound (SimpleGame.bird g) HP) as Hbd.
    rewrite Hb in Hbd. exact Hbd.
  - pose proof (update_trail_bound (SimpleGame.bird g) HP) as Hbd.
    rewrite Hb in Hbd. cbn [state_of] in Hbd.
    destruct Hb' as [-> | ->]; game_cbn; [exact Hbd | cbn; lia].
Qed.

(** The trail holds at most 20 points after every frame, whatever the
    frame contains and whether or not it ends in an exception. *)
Theorem frame_keeps_trail_bounded (fr : Frame) (gl : Globals) :
  trail_ok (game_at fr gl) ->
  trail_ok (game_at fr (fst (video_frame_callback fr gl))).
Proof. apply frame_keeps_invariant, trail_ok_invariant. Qed.

Lemma level_ok_invariant : invariant level_ok.
Proof.
  intros g g' Hstep HP. unfold level_ok in *.
  by_method g g' Hstep; game_cbn; try assumption; lia.
Qed.

Lemma transition_ok_invariant : invariant transition_ok.
Proof.
  intros g g' Hstep HP. unfold transition_ok in *.
  by_method g g' Hstep; game_cbn; try assumption.
  - split; [lia|]. split; [reflexivity|]. reflexivity.
  - destruct HP as (Hr & Hm & Hz). split; [lia|]. split.
    + rewrite <- Z.add_mod_idemp_l, Hm by lia. reflexivity.
    + intros Hf. congruence.
  - split; [lia|]. split; reflexivity.
Qed.

Lemma sizing_invariant (c : Z * Z * (float * float * float * float) * Z
                            * (Z * Z * Z * Z * Z * Z)) :
  invariant (fun g => sizing g = c).
Proof.
  intros g g' Hstep HP. subst c.
  destruct Hstep as [g px py|g v|g|g px py|g px py|g|g|g].
  - unfold sizing. rewrite hover_keeps_geometry.
    destruct (hover_shape g px py) as [b [-> | ->]]; reflexivity.
  - reflexivity.
  - destruct (pause_shape g) as (p & f & t & ->). reflexivity.
  - destruct (start_pull_shape g px py) as [-> | ->]; reflexivity.
  - destruct (update_pull_shape g px py) as [-> | (qx & qy & ->)]; reflexivity.
  - destruct (release_shape g) as [-> | (vx & vy & [-> | ->])]; reflexivity.
  - destruct (next_level_shape g) as [-> | (Htr & Hlv & ->)]; reflexivity.
  - destruct (update_shape g)
      as [(Htr & Hlt & ->) | [(Htr & ->) | (Htr & [(b & Hb & ->) | (b & Hb & ->)])]];
      try reflexivity.
    destruct (after_physics_shape (SimpleGame.set_bird g b))
      as (ts & sc & w & b' & -> & _ & _). reflexivity.
Qed.

(** The level number stays between 1 and [max_level] through every
    frame. *)
Theorem frame_keeps_level_in_range (fr : Frame) (gl : Globals) :
  level_ok (game_at fr gl) ->
  level_ok (game_at fr (fst (video_frame_callback fr gl))).
Proof. apply frame_keeps_invariant, level_ok_invariant. Qed.

(** The transition progress is a multiple of 3 in 0..99 after every
    frame, and 0 whenever no transition is running. *)
Theorem frame_keeps_transition_progress_in_range (fr : Frame) (gl : Globals) :
  transition_ok (game_at fr gl) ->
  transition_ok (game_at fr (fst (video_frame_callback fr gl))).
Proof. apply frame_keeps_invariant, transition_ok_invariant. Qed.

(** The game is sized once: frame size, game area, offsets, [max_level]
    and the button rectangle are the same after every frame, also when
    that frame has another size than the first one. *)
Theorem frame_keeps_sizing (fr : Frame) (gl : Globals) (g : SimpleGame.t) :
  game gl = Some g ->
  sizing (game_at fr (fst (video_frame_callback fr gl))) = sizing g.
Proof.
  intros Hg.
  apply (frame_keeps_invariant (fun g' => sizing g' = sizing g) fr gl
                               (sizing_invariant (sizing g))).
  unfold game_at. rewrite Hg. reflexivity.
Qed.

End SimpleInvariants.

Section ButtonInvariant.
Context {L : Libm}.

Lemma hover_keeps_button_ok (g : SimpleGame.t) (px py : float) :
  button_ok g -> button_ok (fst (SimpleGame.check_button_hover g px py)).
Proof.
  unfold button_ok, SimpleGame.check_button_hover. cbv zeta. intros (Hr & Ht & Hw).
  destruct (Button.in_expanded_area (SimpleGame.reset_button g) px py) eqn:Hexp;
    destruct (Button.was_in_area (SimpleGame.reset_button g)) eqn:Hwas;
    destruct (Button.has_triggered (SimpleGame.reset_button g)) eqn:Htr;
    cbn [negb andb]; button_cbn; rewrite ?Htr; cbn [negb andb]; button_cbn;
    try (destruct (Button.in_button_area (SimpleGame.reset_button g) px py));
    button_cbn;
    try match goal with
        | |- context [(?a <=? ?b)%Z] => destruct (Z.leb_spec a b)
        end; button_cbn;
    try (destruct (Ht eq_refl) as [Hfull Hin]);
    try (specialize (Hw eq_refl));
    try discriminate;
    (split; [lia | split;
       [intros Hx; try discriminate Hx; split; (lia || reflexivity || congruence)
       |intros Hx; try discriminate Hx; (lia || reflexivity)]]).
Qed.

Lemma button_ok_invariant : invariant button_ok.
Proof.
  intros g g' Hstep HP.
  destruct Hstep as [g px py|g v|g|g px py|g px py|g|g|g].
  - now apply hover_keeps_button_ok.
  - exact HP.
  - unfold button_ok in *. now rewrite pause_state_button.
  - unfold button_ok in *. destruct (start_pull_button g px py) as [-> _]. exact HP.
  - unfold button_ok in *. destruct (update_pull_button g px py) as [-> _]. exact HP.
  - unfold button_ok in *. destruct (release_button g) as [-> _]. exact HP.
  - unfold button_ok in *. destruct (next_level_button g) as [-> _]. exact HP.
  - unfold button_ok in *. destruct (update_button g) as [-> _]. exact HP.
Qed.

(** The restart button after every frame: its progress is between 0 and
    [max_progress], and while [has_triggered] is set the progress is
    pinned at [max_progress]. *)
Theorem frame_keeps_button_in_range (fr : Frame) (gl : Globals) :
  button_ok (game_at fr gl) ->
  button_ok (game_at fr (fst (video_frame_callback fr gl))).
Proof. apply frame_keeps_invariant, button_ok_invariant. Qed.

Lemma hover_outside_resets (g : SimpleGame.t) (px py : float) :
  button_ok g ->
  Button.in_expanded_area (SimpleGame.reset_button g) px py = false ->
  let r := SimpleGame.check_button_hover g px py in
  snd r = false
  /\ Button.progress (SimpleGame.reset_button (fst r)) = 0%Z
  /\ Button.has_triggered (SimpleGame.reset_button (fst r)) = false
  /\ Button.was_in_area (SimpleGame.reset_button (fst r)) = false
  /\ SimpleGame.set_reset_button (fst r) (SimpleGame.reset_button g) = g.
Proof.
  unfold button_ok. cbv zeta. intros (Hr & Ht & Hw) Hexp.
  assert (Hrest : forall g0 b1 b2,
             SimpleGame.set_reset_button (SimpleGame.set_reset_button g0 b1) b2
             = SimpleGame.set_reset_button g0 b2) by reflexivity.
  assert (Hsame : SimpleGame.set_reset_button g (SimpleGame.reset_button g) = g)
    by (destruct g; reflexivity).
  unfold SimpleGame.check_button_hover. cbv zeta. rewrite Hexp.
  destruct (Button.was_in_area (SimpleGame.reset_button g)) eqn:Hwas;
    cbn [negb andb]; button_cbn.
  - cbn [negb andb]. button_cbn. rewrite Hrest, Hsame.
    split; [reflexivity|]. split; [reflexivity|]. split; [reflexivity|].
    split; reflexivity.
  - destruct (Button.has_triggered (SimpleGame.reset_button g)) eqn:Htr.
    + destruct (Ht eq_refl) as [_ Hin]. discriminate Hin.
    + cbn [negb andb]. button_cbn. rewrite ?Htr. cbn [negb andb]. button_cbn.
      rewrite (Hw eq_refl), Hrest, Hsame.
      split; [reflexivity|]. split; [reflexivity|]. split; [reflexivity|].
      split; reflexivity.
Qed.

(** Leaving the padded rectangle clears the button at once: after an
    evaluation with the pointer outside it the progress is 0 and the
    button is armed again; the call fires nothing and changes nothing
    but the button.  (The 3-per-evaluation decay of the source applies
    only to a progress that is already 0.) *)
Theorem button_outside_resets (g : SimpleGame.t) (px py : float) :
  button_ok g ->
  Button.in_expanded_area (SimpleGame.reset_button g) px py = false ->
  let r := SimpleGame.check_button_hover g px py in
  snd r = false
  /\ Button.progress (SimpleGame.reset_button (fst r)) = 0%Z
  /\ Button.has_triggered (SimpleGame.reset_button (fst r)) = false
  /\ Button.was_in_area (SimpleGame.reset_button (fst r)) = false
  /\ SimpleGame.set_reset_button (fst r) (SimpleGame.reset_button g) = g.
Proof. exact (hover_outside_resets g px py). Qed.

(** The stand-in position (-1, -1) that the callback passes when no hand
    points is outside the padded rectangle of the button that [__init__]
    builds, for every frame height from 0 up.  (Its x is inside the
    padded x-range -10..140; only its y keeps it out.) *)
Lemma sentinel_outside_button (frame_height : Z) :
  (0 <= frame_height)%Z ->
  Button.in_expanded_area (Button.init frame_height) (-1) (-1) = false
  /\ Button.between (Button.x (Button.init frame_height)
                     - Button.detection_padding (Button.init frame_height)) (-1)
                    (Button.x (Button.init frame_height)
                     + Button.width (Button.init frame_height)
                     + Button.detection_padding (Button.init frame_height)) = true.
Proof.
  intros Hh. split; [|vm_compute; reflexivity].
  unfold Button.in_expanded_area, Button.init. cbv zeta. button_cbn.
  apply andb_false_iff. right. unfold Button.between. apply andb_false_iff. left.
  unfold Py.int_le_float, Py.compare_int.
  replace (Prim2SF (-1)) with (S754_finite true 4503599627370496 (-52))
    by (vm_compute; reflexivity).
  cbn [Z.leb Z.compare Z.opp].
  assert (Hdiv : (0 <= frame_height / 2)%Z) by (apply Z.div_pos; lia).
  remember ((frame_height / 2 + 130 - 20) * 2 ^ 52)%Z as t eqn:Et.
  assert (Ht : (0 < t)%Z) by (subst t; apply Z.mul_pos_pos; [lia | reflexivity]).
  destruct t; try lia; reflexivity.
Qed.

End ButtonInvariant.

Section MoreInvariants.
Context {L : Libm}.

Lemma score_ok_invariant : invariant score_ok.
Proof.
  intros g g' Hstep HP. unfold score_ok in *.
  by_method g g' Hstep; game_cbn; try assumption; try (split; reflexivity).
  pose proof (check_collisions_spec b (SimpleGame.targets g) (SimpleGame.score g))
    as (_ & Hsc & Hmono).
  cbv zeta in *. rewrite <- Hcol in *. cbn [fst snd] in *.
  destruct HP as [Hpos Hmod]. subst sc. split; [lia|].
  rewrite (Z.mul_comm 100), Z.mod_add by lia. exact Hmod.
Qed.

(** The score is a non-negative multiple of 100 after every frame. *)
Theorem frame_keeps_score_multiple_of_100 (fr : Frame) (gl : Globals) :
  score_ok (game_at fr gl) ->
  score_ok (game_at fr (fst (video_frame_callback fr gl))).
Proof. apply frame_keeps_invariant, score_ok_invariant. Qed.

Lemma pause_timer_step (g : SimpleGame.t) :
  timer_ok g -> timer_ok (SimpleGame.update_pause_state g).
Proof.
  unfold timer_ok, SimpleGame.update_pause_state. cbv zeta. intros HP.
  destruct (SimpleGame.fist_detected g && negb (SimpleGame.last_fist_state g));
    [game_cbn; cbn; lia|].
  destruct (negb (SimpleGame.fist_detected g) && SimpleGame.last_fist_state g);
    [game_cbn; cbn; lia|].
  game_cbn.
  destruct (Z.ltb_spec 0 (SimpleGame.pause_message_timer g)); game_cbn; lia.
Qed.

Lemma timer_ok_invariant : invariant timer_ok.
Proof.
  intros g g' Hstep HP.
  destruct Hstep as [g px py|g v|g|g px py|g px py|g|g|g];
    [ | | now apply pause_timer_step | | | | | ]; unfold timer_ok in *.
  - destruct (hover_shape g px py) as [b [-> | ->]]; exact HP.
  - exact HP.
  - destruct (start_pull_shape g px py) as [-> | ->]; exact HP.
  - destruct (update_pull_shape g px py) as [-> | (qx & qy & ->)]; exact HP.
  - destruct (release_shape g) as [-> | (vx & vy & [-> | ->])]; exact HP.
  - destruct (next_level_shape g) as [-> | (Htr & Hlv & ->)]; exact HP.
  - destruct (update_shape g)
      as [(Htr & Hlt & ->) | [(Htr & ->) | (Htr & [(b & Hb & ->) | (b & Hb & ->)])]];
      try exact HP.
    destruct (after_physics_shape (SimpleGame.set_bird g b))
      as (ts & sc & w & b' & -> & _ & _). exact HP.
Qed.

(** After every frame the pause message timer is between 0 and 119: it
    is set to 120 on a pause edge and to 60 on a resume edge, decremented
    in the same call of [update_pause_state], and never goes below 0. *)
Theorem frame_keeps_timer_in_range (fr : Frame) (gl : Globals) :
  timer_ok (game_at fr gl) ->
  timer_ok (game_at fr (fst (video_frame_callback fr gl))).
Proof. apply frame_keeps_invariant, timer_ok_invariant. Qed.


Lemma placement_same (ts ts' : list SimpleTarget.t) :
  Forall2 same_target_or_hit ts ts' -> placement ts' = placement ts.
Proof.
  induction 1 as [|tg tg' ts ts' (Hx & Hy & Hr & _) _ IH]; [reflexivity|].
  unfold placement in *. cbn [map]. now rewrite Hx, Hy, Hr, IH.
Qed.

Lemma placement_reset (ts : list SimpleTarget.t) :
  placement (map (fun tg => SimpleTarget.set_destroyed tg false) ts) = placement ts.
Proof. unfold placement. rewrite map_map. reflexivity. Qed.

Lemma bird_update_keeps_rest (b : SimpleBird.t) :
  SimpleBird.start_x (state_of (SimpleBird.update b)) = SimpleBird.start_x b
  /\ SimpleBird.start_y (state_of (SimpleBird.update b)) = SimpleBird.start_y b
  /\ SimpleBird.radius (state_of (SimpleBird.update b)) = SimpleBird.radius b.
Proof.
  unfold SimpleBird.update. destruct (SimpleBird.is_flying b); [|repeat split].
  cbv zeta. destruct (_ <? _)%Z; [|repeat split].
  destruct (SimpleBird.pixel _); repeat split.
Qed.

Lemma bird_launch_keeps_rest (b : SimpleBird.t) (vx vy : float) :
  SimpleBird.start_x (state_of (SimpleBird.launch b vx vy)) = SimpleBird.start_x b
  /\ SimpleBird.start_y (state_of (SimpleBird.launch b vx vy)) = SimpleBird.start_y b
  /\ SimpleBird.radius (state_of (SimpleBird.launch b vx vy)) = SimpleBird.radius b.
Proof.
  unfold SimpleBird.launch. cbv zeta. destruct (SimpleBird.pixel _); repeat split.
Qed.

Lemma field_ok_invariant : invariant field_ok.
Proof.
  intros g g' Hstep HP. unfold field_ok, level_on_field in *.
  destruct HP as (Hpl & Hsx & Hsy & Hrad).
  by_method g g' Hstep; game_cbn;
    try (repeat split; assumption).
  - (* restart *)
    rewrite placement_reset. repeat split; assumption.
  - destruct (bird_launch_keeps_rest (SimpleGame.bird g) vx vy) as (-> & -> & ->).
    repeat split; assumption.
  - destruct (bird_launch_keeps_rest (SimpleGame.bird g) vx vy) as (-> & -> & ->).
    repeat split; assumption.
  - (* next_level *)
    rewrite Htr in Hpl.
    replace (SimpleGame.current_level g + 1 - 1)%Z with (SimpleGame.current_level g)
      by lia.
    repeat split; assumption.
  - (* the bird's update raised *)
    destruct (bird_update_keeps_rest (SimpleGame.bird g)) as (Hx & Hy & Hr).
    rewrite Hb in Hx, Hy, Hr. cbn [state_of] in *. rewrite Hx, Hy, Hr.
    repeat split; assumption.
  - (* physics tick *)
    destruct (bird_update_keeps_rest (SimpleGame.bird g)) as (Hx & Hy & Hr).
    rewrite Hb in Hx, Hy, Hr. cbn [state_of] in *.
    pose proof (check_collisions_spec b (SimpleGame.targets g) (SimpleGame.score g))
      as (Hsame & _ & _).
    cbv zeta in Hsame. rewrite <- Hcol in Hsame. cbn [fst] in Hsame.
    rewrite (placement_same _ _ Hsame).
    destruct Hb' as [-> | ->]; game_cbn; rewrite ?Hx, ?Hy, ?Hr;
      repeat split; assumption.
Qed.

(** After every frame the targets on the field are, in place and size,
    those of the current level, or of the previous level while the
    transition to the current one runs; and the bird's rest position is
    the slingshot of the play field. *)
Theorem frame_keeps_field_of_level (fr : Frame) (gl : Globals) :
  field_ok (game_at fr gl) ->
  field_ok (game_at fr (fst (video_frame_callback fr gl))).
Proof. apply frame_keeps_invariant, field_ok_invariant. Qed.

(** The game that [__init__] builds is well formed for every frame size,
    also a degenerate one: its trail is empty, it is at level 1 of 5 with
    the three targets of level 1 on the field, no transition runs, the
    button shows no progress, score and pause timer are 0, and the bird
    rests at the slingshot.  So the properties that every frame keeps
    hold throughout a session. *)
Lemma init_is_well_formed (frame_width frame_height : Z) :
  let g := SimpleGame.init frame_width frame_height in
  trail_ok g /\ level_ok g /\ transition_ok g /\ button_ok g /\ score_ok g
  /\ timer_ok g /\ field_ok g.
Proof.
  cbv zeta. unfold trail_ok, level_ok, transition_ok, button_ok, score_ok, timer_ok,
    field_ok, level_on_field, SimpleGame.init. cbv zeta. game_cbn. button_cbn.
  cbn [Button.init Button.progress Button.max_progress Button.has_triggered
       Button.was_in_area length].
  repeat split; try lia; try discriminate.
Qed.

End MoreInvariants.

(* ================================================================== *)
(** * The anatomy of a frame *)
(* ================================================================== *)

Section Anatomy.
Context {L : Libm}.

Lemma among_trans (allowed : method -> bool) (g1 g2 g3 : SimpleGame.t) :
  calls_among allowed g1 g2 -> calls_among allowed g2 g3 -> calls_among allowed g1 g3.
Proof.
  intros H12 H23. induction H23 as [|m g g' _ IH Hm Hc]; [exact H12|].
  exact (among_more allowed g1 m g g' IH Hm Hc).
Qed.

Lemma among_one (allowed : method -> bool) (m : method) (g g' : SimpleGame.t) :
  allowed m = true -> call_of m g g' -> calls_among allowed g g'.
Proof. intros Hm Hc. exact (among_more allowed g m g g' (among_none allowed g) Hm Hc). Qed.

(** A property that the allowed methods preserve holds along the
    sequence. *)
Lemma among_keeps (allowed : method -> bool) (P : SimpleGame.t -> Prop)
      (g g' : SimpleGame.t) :
  (forall m g1 g2, allowed m = true -> call_of m g1 g2 -> P g1 -> P g2) ->
  calls_among allowed g g' -> P g -> P g'.
Proof.
  intros Hkeep Hc Hg. induction Hc as [|m g1 g2 _ IH Hm Hcall]; [exact Hg|].
  exact (Hkeep m g1 g2 Hm Hcall IH).
Qed.

Lemma hover_run_among (allowed : method -> bool) (ps : list (float * float))
      (g : SimpleGame.t) :
  allowed m_check_button_hover = true ->
  calls_among allowed g (fst (hover_run g ps)).
Proof.
  intros Hm. revert g. induction ps as [|p ps IH]; intros g; [apply among_none|].
  cbn [hover_run].
  pose proof (does_check_button_hover g (fst p) (snd p)) as Hstep.
  destruct (SimpleGame.check_button_hover g (fst p) (snd p)) as [g1 fired].
  specialize (IH g1). destruct (hover_run g1 ps) as [g2 fs]. cbn [fst] in *.
  exact (among_trans allowed g g1 g2 (among_one allowed _ g g1 Hm Hstep) IH).
Qed.

Lemma hands_loop_among (width height : Z) (hs : list Hand) (r : Run) :
  calls_among in_hands_loop (the_game r)
              (the_game (fold_left (process_hand width height) hs r)).
Proof.
  revert r. induction hs as [|hand hs IH]; intros r; [apply among_none|].
  cbn [fold_left].
  refine (among_trans _ _ _ _ _ (IH (process_hand width height r hand))).
  destruct (process_hand_spec width height r hand) as (_ & Hg & _). rewrite Hg.
  eapply among_more;
    [apply hover_run_among; reflexivity | | apply does_fist_detected]. reflexivity.
Qed.

Lemma game_logic_among (r : Run) :
  calls_among in_game_logic (the_game r) (the_game (state_of (game_logic r))).
Proof.
  unfold game_logic. destruct (negb (SimpleGame.is_paused (the_game r)));
    [|apply among_none].
  assert (Hs : calls_among in_game_logic (the_game r)
                           (the_game (state_of (slingshot_logic r)))).
  { unfold slingshot_logic. cbv zeta.
    destruct (is_pinching (locals r) && negb (SimpleGame.pulling (the_game r)));
      [eapply among_one; [|apply does_start_pull]; reflexivity|].
    destruct (is_pinching (locals r) && SimpleGame.pulling (the_game r));
      [eapply among_one; [|apply does_update_pull]; reflexivity|].
    destruct (negb (is_pinching (locals r)) && SimpleGame.pulling (the_game r));
      [|apply among_none].
    pose proof (does_release (the_game r)) as Hstep.
    destruct (SimpleGame.release (the_game r));
      (eapply among_one; [|exact Hstep]; reflexivity). }
  destruct (slingshot_logic r) as [rs|rs]; cbn [and_then state_of] in *; [|exact Hs].
  refine (among_trans _ _ _ _ Hs _).
  destruct (button_logic_spec rs) as (_ & Hg & _). rewrite Hg.
  eapply among_one; [|apply does_check_button_hover]. reflexivity.
Qed.

(** [next_level()] is called only on a won game with no transition
    running and a level below [max_level]. *)
Lemma swipe_logic_gate (r : Run) :
  the_game (swipe_logic r) = the_game r
  \/ (the_game (swipe_logic r) = SimpleGame.next_level (the_game r)
      /\ SimpleGame.game_won (the_game r) = true
      /\ SimpleGame.is_transitioning (the_game r) = false
      /\ (SimpleGame.current_level (the_game r) < SimpleGame.max_level (the_game r))%Z).
Proof.
  unfold swipe_logic. cbv zeta.
  destruct (update_swipe_detection _ _ _) as [sh level_switched].
  cbn [the_game].
  destruct level_switched; [|left; reflexivity].
  destruct (SimpleGame.game_won (the_game r)); [|left; reflexivity].
  destruct (SimpleGame.is_transitioning (the_game r)); [left; reflexivity|].
  cbn [andb negb].
  destruct (Z.ltb_spec (SimpleGame.current_level (the_game r))
                       (SimpleGame.max_level (the_game r))); [right|left; reflexivity].
  repeat split. assumption.
Qed.

(** A frame, from the game's point of view: button checks and fist
    flags from the loop over the hands; one pause update; then, unless
    paused, slingshot and button calls; then at most one [next_level()];
    then, unless paused or cut short by an exception, one [update()]. *)
Lemma frame_anatomy (fr : Frame) (gl : Globals) :
  exists g1 g2 g3,
    calls_among in_hands_loop (game_at fr gl) g1
    /\ g1 = the_game (after_hands fr gl)
    /\ calls_among in_game_logic (SimpleGame.update_pause_state g1) g2
    /\ (g3 = g2
        \/ (g3 = SimpleGame.next_level g2
            /\ SimpleGame.game_won g2 = true
            /\ SimpleGame.is_transitioning g2 = false
            /\ (SimpleGame.current_level g2 < SimpleGame.max_level g2)%Z))
    /\ (game_at fr (fst (video_frame_callback fr gl)) = g3
        \/ game_at fr (fst (video_frame_callback fr gl))
           = state_of (SimpleGame.update g3)).
Proof.
  destruct (callback_result fr gl) as [Hg _]. rewrite Hg, run_frame_phases.
  exists (the_game (after_hands fr gl)),
         (the_game (state_of (game_logic (after_pause fr gl)))).
  pose proof (hands_loop_among (frame_width fr) (frame_height fr) (hands fr)
                               (at_start fr gl)) as H1.
  pose proof (game_logic_among (after_pause fr gl)) as H2.
  destruct (game_logic (after_pause fr gl)) as [r3|r3]; cbn [and_then state_of] in *.
  - exists (the_game (swipe_logic r3)).
    split; [exact H1|]. split; [reflexivity|]. split; [exact H2|].
    split; [destruct (swipe_logic_gate r3) as [-> | (-> & Hgate)]; auto|].
    unfold update_logic. destruct (negb _); [|left; reflexivity].
    right. destruct (SimpleGame.update _); reflexivity.
  - exists (the_game r3).
    split; [exact H1|]. split; [reflexivity|]. split; [exact H2|].
    split; [left; reflexivity | left; reflexivity].
Qed.

End Anatomy.

(* ================================================================== *)
(** * Pause and level changes, frame by frame *)
(* ================================================================== *)

Section PauseAndLevel.
Context {L : Libm}.

(** Only [update_pause_state] and the fist flag of the hands loop write
    the pause state. *)
Lemma pause_state_kept (m : method) (g1 g2 : SimpleGame.t) :
  m <> m_update_pause_state -> m <> m_fist_detected ->
  call_of m g1 g2 -> pause_state g2 = pause_state g1.
Proof.
  intros Hp Hf Hc. destruct Hc as [g px py|g v|g|g px py|g px py|g|g|g];
    try congruence.
  - destruct (hover_shape g px py) as [b [-> | ->]]; reflexivity.
  - destruct (start_pull_shape g px py) as [-> | ->]; reflexivity.
  - destruct (update_pull_shape g px py) as [-> | (qx & qy & ->)]; reflexivity.
  - destruct (release_shape g) as [-> | (vx & vy & [-> | ->])]; reflexivity.
  - destruct (next_level_shape g) as [-> | (Htr & Hlv & ->)]; reflexivity.
  - destruct (update_shape g)
      as [(Htr & Hlt & ->) | [(Htr & ->) | (Htr & [(b & Hb & ->) | (b & Hb & ->)])]];
      try reflexivity.
    destruct (after_physics_shape (SimpleGame.set_bird g b))
      as (ts & sc & w & b' & -> & _ & _). reflexivity.
Qed.

Lemma pause_update_spec (g : SimpleGame.t) :
  let g' := SimpleGame.update_pause_state g in
  SimpleGame.fist_detected g' = SimpleGame.fist_detected g
  /\ SimpleGame.last_fist_state g' = SimpleGame.fist_detected g
  /\ SimpleGame.is_paused g'
     = (if xorb (SimpleGame.fist_detected g) (SimpleGame.last_fist_state g)
        then SimpleGame.fist_detected g else SimpleGame.is_paused g).
Proof.
  unfold SimpleGame.update_pause_state. cbv zeta.
  destruct (SimpleGame.fist_detected g) eqn:Hf, (SimpleGame.last_fist_state g) eqn:Hl;
    cbn [andb negb xorb]; game_cbn; rewrite ?Hf; split_ifs; game_cbn; repeat split;
    assumption || reflexivity.
Qed.

Lemma process_hand_fists (width height : Z) (r : Run) (hand : Hand) :
  fists (process_hand width height r hand)
  = fst (update_fist_detection (fists r) (detect_fist (Some hand))).
Proof.
  unfold process_hand.
  destruct (detect_pinch (Some hand) width height) as [[pinching center] distance].
  destruct (detect_pointing (Some hand) width height) as [pointing pos].
  destruct (detect_left_swipe (Some hand) width height) as [swiping spos].
  destruct (update_fist_detection (fists r) (detect_fist (Some hand))) as [fh stable].
  destruct pointing; reflexivity.
Qed.

Lemma hands_loop_fist (width height : Z) (hs : list Hand) (r : Run) :
  SimpleGame.fist_detected (the_game (fold_left (process_hand width height) hs r))
  = fist_after_hands hs (fists r) (SimpleGame.fist_detected (the_game r)).
Proof.
  revert r. induction hs as [|hand hs IH]; intros r; [reflexivity|].
  cbn [fold_left fist_after_hands]. rewrite IH, process_hand_fists.
  destruct (process_hand_spec width height r hand) as (_ & Hg & _). rewrite Hg.
  destruct (update_fist_detection (fists r) (detect_fist (Some hand))) as [fh stable].
  reflexivity.
Qed.

(** The pause state after a frame.  [fist_detected] is the stabilized
    fist value of the last hand of the frame, or its old value when the
    frame has no hand; [last_fist_state] equals it; provided the pause
    flag agreed with [last_fist_state] before the frame (as it does from
    [__init__] on), the game is paused after the frame exactly if that
    fist value is on.  Nothing else in the frame writes the pause state. *)
Theorem frame_pause_follows_fist (fr : Frame) (gl : Globals) :
  let g0 := game_at fr gl in
  let g' := game_at fr (fst (video_frame_callback fr gl)) in
  SimpleGame.fist_detected g'
  = fist_after_hands (hands fr) (fist_history gl) (SimpleGame.fist_detected g0)
  /\ SimpleGame.last_fist_state g' = SimpleGame.fist_detected g'
  /\ (SimpleGame.is_paused g0 = SimpleGame.last_fist_state g0 ->
      SimpleGame.is_paused g' = SimpleGame.fist_detected g')
  /\ (hands fr = [] ->
      SimpleGame.last_fist_state g0 = SimpleGame.fist_detected g0 ->
      SimpleGame.is_paused g' = SimpleGame.is_paused g0).
Proof.
  cbv zeta.
  destruct (frame_anatomy fr gl) as (g1 & g2 & g3 & H1 & E1 & H2 & H3 & H4).
  set (g' := game_at fr (fst (video_frame_callback fr gl))) in *.
  (* the loop over the hands keeps the pause flag and the last fist state *)
  assert (K1 : SimpleGame.is_paused g1 = SimpleGame.is_paused (game_at fr gl)
               /\ SimpleGame.last_fist_state g1
                  = SimpleGame.last_fist_state (game_at fr gl)).
  { refine (among_keeps in_hands_loop
              (fun g => SimpleGame.is_paused g = SimpleGame.is_paused (game_at fr gl)
                        /\ SimpleGame.last_fist_state g
                           = SimpleGame.last_fist_state (game_at fr gl))
              _ _ _ H1 (conj eq_refl eq_refl)).
    intros m ga gb Hm Hc HP. destruct Hc; try discriminate Hm.
    - destruct (hover_shape g px py) as [b [-> | ->]]; exact HP.
    - exact HP. }
  assert (F1 : SimpleGame.fist_detected g1
               = fist_after_hands (hands fr) (fist_history gl)
                                  (SimpleGame.fist_detected (game_at fr gl))).
  { rewrite E1. unfold after_hands. rewrite hands_loop_fist. reflexivity. }
  (* what follows the pause update keeps the pause state *)
  assert (K2 : pause_state g2 = pause_state (SimpleGame.update_pause_state g1)).
  { refine (among_keeps in_game_logic
              (fun g => pause_state g = pause_state (SimpleGame.update_pause_state g1))
              _ _ _ H2 eq_refl).
    intros m ga gb Hm Hc HP. rewrite <- HP.
    apply (pause_state_kept m); [| |exact Hc]; intros ->; discriminate Hm. }
  assert (K3 : pause_state g3 = pause_state g2).
  { destruct H3 as [-> | (-> & _)]; [reflexivity|].
    apply (pause_state_kept m_next_level); [discriminate|discriminate|].
    apply does_next_level. }
  assert (K4 : pause_state g' = pause_state g3).
  { destruct H4 as [-> | ->]; [reflexivity|].
    apply (pause_state_kept m_update); [discriminate|discriminate|].
    apply does_update. }
  rewrite K3, K2 in K4. unfold pause_state in K4.
  injection K4 as Kp Kf Kl _.
  destruct (pause_update_spec g1) as (Uf & Ul & Up). cbv zeta in *.
  destruct K1 as [K1p K1l].
  rewrite Kp, Kf, Kl, Up, Uf, Ul, F1.
  split; [reflexivity|]. split; [reflexivity|]. split.
  - intros Hagree. rewrite <- F1, K1p, K1l, Hagree.
    destruct (SimpleGame.fist_detected g1), (SimpleGame.last_fist_state (game_at fr gl));
      reflexivity.
  - intros Hno Hsettled. rewrite <- F1, K1p, K1l. rewrite F1, Hno. cbn [fist_after_hands].
    rewrite Hsettled. rewrite xorb_nilpotent. reflexivity.
Qed.

(** The level number after a frame: unchanged, or one higher; it rises
    only in a frame that starts with the game won, no transition running
    and the level below [max_level], and then a transition is running
    when the frame ends. *)
Theorem frame_raises_level_only_after_win (fr : Frame) (gl : Globals) :
  let g0 := game_at fr gl in
  let g' := game_at fr (fst (video_frame_callback fr gl)) in
  SimpleGame.current_level g' = SimpleGame.current_level g0
  \/ (SimpleGame.current_level g' = (SimpleGame.current_level g0 + 1)%Z
      /\ SimpleGame.game_won g0 = true
      /\ SimpleGame.is_transitioning g0 = false
      /\ (SimpleGame.current_level g0 < SimpleGame.max_level g0)%Z
      /\ SimpleGame.is_transitioning g' = true).
Proof.
  cbv zeta.
  destruct (frame_anatomy fr gl) as (g1 & g2 & g3 & H1 & E1 & H2 & H3 & H4).
  set (g0 := game_at fr gl) in *.
  set (quiet := fun g : SimpleGame.t =>
                  SimpleGame.current_level g = SimpleGame.current_level g0
                  /\ SimpleGame.max_level g = SimpleGame.max_level g0
                  /\ SimpleGame.is_transitioning g = SimpleGame.is_transitioning g0
                  /\ (SimpleGame.game_won g = true -> SimpleGame.game_won g0 = true)).
  assert (Q1 : quiet g1).
  { refine (among_keeps in_hands_loop quiet _ _ _ H1 _); [|repeat split; auto].
    intros m ga gb Hm Hc HP. destruct Hc; try discriminate Hm.
    - destruct (hover_shape g px py) as [b [-> | ->]]; [exact HP|].
      destruct HP as (Hl & Hm' & Ht & _). repeat split; try assumption. discriminate.
    - exact HP. }
  assert (Q1p : quiet (SimpleGame.update_pause_state g1)).
  { destruct (pause_shape g1) as (p & f & t & ->). exact Q1. }
  assert (Q2 : quiet g2).
  { refine (among_keeps in_game_logic quiet _ _ _ H2 Q1p).
    intros m ga gb Hm Hc HP. destruct Hc; try discriminate Hm.
    - destruct (hover_shape g px py) as [b [-> | ->]]; [exact HP|].
      destruct HP as (Hl & Hm' & Ht & _). repeat split; try assumption. discriminate.
    - destruct (start_pull_shape g px py) as [-> | ->]; exact HP.
    - destruct (update_pull_shape g px py) as [-> | (qx & qy & ->)]; exact HP.
    - destruct (release_shape g) as [-> | (vx & vy & [-> | ->])]; exact HP. }
  assert (Hup : forall g, SimpleGame.current_level (state_of (SimpleGame.update g))
                          = SimpleGame.current_level g).
  { intros g. destruct (update_shape g)
      as [(Htr & Hlt & ->) | [(Htr & ->) | (Htr & [(b & Hb & ->) | (b & Hb & ->)])]];
      try reflexivity.
    destruct (after_physics_shape (SimpleGame.set_bird g b))
      as (ts & sc & w & b' & -> & _ & _). reflexivity. }
  destruct Q2 as (Q2l & Q2m & Q2t & Q2w).
  destruct H3 as [-> | (-> & Hwon & Htr & Hlv)].
  - left. destruct H4 as [-> | ->]; [|rewrite Hup]; exact Q2l.
  - right.
    assert (E : SimpleGame.next_level g2
                = SimpleGame.set_current_level
                    (SimpleGame.start_transition g2 "left"%string)
                    (SimpleGame.current_level g2 + 1)).
    { destruct (next_level_shape g2) as [E | (_ & _ & E)]; [|exact E].
      unfold SimpleGame.next_level in *. rewrite Htr in *.
      destruct (Z.ltb_spec (SimpleGame.current_level g2) (SimpleGame.max_level g2));
        [reflexivity | lia]. }
    split; [|split; [auto|split; [congruence|split; [lia|]]]].
    + destruct H4 as [-> | ->]; [|rewrite Hup]; rewrite E; game_cbn; lia.
    + destruct H4 as [-> | ->]; rewrite E; [reflexivity|].
      rewrite update_while_transitioning; [reflexivity|reflexivity|game_cbn; lia].
Qed.

End PauseAndLevel.

(* ================================================================== *)
(** * Frames without a pointing hand, paused frames, frames without hands *)
(* ================================================================== *)

Section QuietFrames.
Context {L : Libm}.

(** An unpaused frame in which no hand points checks the button once, at
    (-1, -1); for the button that [__init__] builds this clears the
    progress at once and re-arms the button. *)
Theorem frame_without_pointer_clears_button
        (fr : Frame) (gl : Globals) (frame_height0 : Z) :
  let g0 := game_at fr gl in
  let g' := game_at fr (fst (video_frame_callback fr gl)) in
  button_ok g0 ->
  geometry (SimpleGame.reset_button g0) = geometry (Button.init frame_height0) ->
  (0 <= frame_height0)%Z ->
  pointers fr = [] ->
  SimpleGame.is_paused g' = false ->
  (SimpleGame.pulling g0 = true -> SimpleBird.pixel (SimpleGame.bird g0) <> None) ->
  hover_calls (snd (video_frame_callback fr gl)) = [(-1, -1)%float]
  /\ Button.progress (SimpleGame.reset_button g') = 0%Z
  /\ Button.has_triggered (SimpleGame.reset_button g') = false.
Proof.
  cbv zeta. intros Hok Hgeo Hh Hptr Hz Hfin.
  destruct (callback_result fr gl) as [Hg Hc]. rewrite Hg in *. rewrite Hc.
  rewrite frame_pause_flag in Hz.
  destruct (unpaused_frame_calls fr gl Hz Hfin) as (_ & Hcalls & Hbtn).
  unfold final_pointer in *. rewrite Hptr in *. cbn [app last] in *.
  split; [exact Hcalls|]. rewrite Hbtn, hover_run_single. cbn [fst snd].
  destruct (sentinel_outside_button frame_height0 Hh) as [Hout _].
  rewrite <- (expanded_area_geometry _ _ Hgeo) in Hout.
  destruct (hover_outside_resets (game_at fr gl) (-1) (-1) Hok Hout)
    as (_ & Hp & Ht & _).
  split; assumption.
Qed.

Lemma no_pointer_loop (width height : Z) (hs : list Hand) (r : Run) :
  flat_map (hand_pointer width height) hs = [] ->
  exists v,
    the_game (fold_left (process_hand width height) hs r)
    = SimpleGame.set_fist_detected (the_game r) v.
Proof.
  revert r. induction hs as [|hand hs IH]; intros r Hnone.
  - exists (SimpleGame.fist_detected (the_game r)). cbn [fold_left].
    now destruct (the_game r).
  - cbn [flat_map fold_left] in *. apply app_eq_nil in Hnone. destruct Hnone as [H1 H2].
    destruct (IH (process_hand width height r hand) H2) as [v Hv].
    exists v. rewrite Hv.
    destruct (process_hand_spec width height r hand) as (_ & Hg & _).
    rewrite Hg, H1. reflexivity.
Qed.

(** A frame that ends paused and in which no hand points leaves play
    untouched: bird, targets, score, victory flag, pulling flag and
    button are what they were, and neither a slingshot method nor
    [update()] is called. *)
Theorem paused_frame_freezes_play (fr : Frame) (gl : Globals) :
  let g0 := game_at fr gl in
  let g' := game_at fr (fst (video_frame_callback fr gl)) in
  SimpleGame.is_paused g' = true ->
  pointers fr = [] ->
  SimpleGame.bird g' = SimpleGame.bird g0
  /\ SimpleGame.targets g' = SimpleGame.targets g0
  /\ SimpleGame.score g' = SimpleGame.score g0
  /\ SimpleGame.game_won g' = SimpleGame.game_won g0
  /\ SimpleGame.pulling g' = SimpleGame.pulling g0
  /\ SimpleGame.reset_button g' = SimpleGame.reset_button g0
  /\ hover_calls (snd (video_frame_callback fr gl)) = []
  /\ (other_calls (snd (video_frame_callback fr gl)) = [call_update_pause_state]
      \/ other_calls (snd (video_frame_callback fr gl))
         = [call_update_pause_state; call_next_level]).
Proof.
  cbv zeta. intros Hz Hptr.
  destruct (paused_frame_skips_game_logic fr gl Hz) as [Hh Ho].
  rewrite Hptr in Hh.
  destruct (callback_result fr gl) as [Hg Hc]. rewrite Hg in *.
  rewrite frame_pause_flag in Hz.
  assert (Hrun : state_of (run_frame fr gl) = swipe_logic (after_pause fr gl)).
  { rewrite run_frame_phases. unfold game_logic. rewrite Hz. cbn [negb and_then].
    destruct (swipe_logic_keeps (after_pause fr gl)) as (_ & _ & Hsz).
    destruct (update_logic_spec (swipe_logic (after_pause fr gl))) as (_ & _ & _ & Hno).
    rewrite Hno by (rewrite Hsz; exact Hz). reflexivity. }
  rewrite Hrun.
  destruct (no_pointer_loop (frame_width fr) (frame_height fr) (hands fr)
                            (at_start fr gl) Hptr) as [v Hv].
  assert (Hpause : the_game (after_pause fr gl)
                   = SimpleGame.update_pause_state
                       (SimpleGame.set_fist_detected (game_at fr gl) v)).
  { unfold after_pause, after_hands. cbn [with_game the_game]. rewrite Hv. reflexivity. }
  destruct (pause_shape (SimpleGame.set_fist_detected (game_at fr gl) v))
    as (p & f & t & Eshape).
  rewrite Eshape in Hpause.
  destruct (swipe_logic_spec (after_pause fr gl)) as [[_ Hgm]|[_ Hgm]];
    rewrite Hgm, Hpause.
  - repeat split; assumption.
  - destruct (next_level_shape
                (SimpleGame.set_pause_message_timer
                   (SimpleGame.set_last_fist_state
                      (SimpleGame.set_is_paused
                         (SimpleGame.set_fist_detected (game_at fr gl) v) p) f) t))
      as [-> | (_ & _ & ->)]; repeat split; assumption.
Qed.

(** Losing the hand fires the shot: in an unpaused frame without hands,
    a slingshot that is being pulled is released (the calls are the pause
    update, [release()], the button check at (-1, -1), possibly
    [next_level()], and [update()]). *)
Theorem frame_without_hands_releases_pull (fr : Frame) (gl : Globals) :
  let g0 := game_at fr gl in
  let g' := game_at fr (fst (video_frame_callback fr gl)) in
  hands fr = [] ->
  SimpleGame.is_paused g' = false ->
  SimpleGame.pulling g0 = true ->
  SimpleBird.pixel (SimpleGame.bird g0) <> None ->
  hover_calls (snd (video_frame_callback fr gl)) = [(-1, -1)%float]
  /\ (other_calls (snd (video_frame_callback fr gl))
      = [call_update_pause_state; call_release; call_update]
      \/ other_calls (snd (video_frame_callback fr gl))
         = [call_update_pause_state; call_release; call_next_level; call_update])
  /\ SimpleGame.pulling g' = false.
Proof.
  cbv zeta. intros Hno Hz Hpull Hfin.
  destruct (callback_result fr gl) as [Hg Hc]. rewrite Hg in *. rewrite Hc.
  rewrite frame_pause_flag in Hz.
  assert (Hptr : pointers fr = []) by (unfold pointers; rewrite Hno; reflexivity).
  destruct (unpaused_frame_calls fr gl Hz (fun _ => Hfin)) as (_ & Hcalls & _).
  unfold final_pointer in Hcalls. rewrite Hptr in Hcalls. cbn [app last] in Hcalls.
  split; [exact Hcalls|].
  (* unfold the frame: no hand, so the locals are those of [no_gesture] *)
  assert (Hr2 : after_pause fr gl
                = with_game (at_start fr gl)
                            (SimpleGame.update_pause_state (game_at fr gl))
                            [call_update_pause_state]).
  { unfold after_pause, after_hands. rewrite Hno. reflexivity. }
  rewrite run_frame_phases. unfold game_logic. rewrite Hz. cbn [negb].
  rewrite Hr2 in *. clear Hr2.
  set (gp := SimpleGame.update_pause_state (game_at fr gl)) in *.
  cbn [with_game the_game] in Hz.
  assert (Hgp : SimpleGame.pulling gp = true /\ SimpleGame.bird gp = SimpleGame.bird (game_at fr gl)).
  { subst gp. destruct (pause_shape (game_at fr gl)) as (p & f & t & ->).
    split; [exact Hpull | reflexivity]. }
  destruct Hgp as [Hgpull Hgbird].
  unfold slingshot_logic. cbv zeta.
  cbn [with_game locals the_game at_start no_gesture is_pinching andb negb calls app].
  rewrite Hgpull. cbn [andb negb].
  assert (Hrel : exists gr, SimpleGame.release gp = Normal gr
                            /\ SimpleGame.pulling gr = false
                            /\ SimpleGame.is_paused gr = SimpleGame.is_paused gp).
  { unfold SimpleGame.release, SimpleBird.launch. rewrite Hgpull. cbv zeta.
    unfold SimpleBird.pixel in *. cbn [SimpleBird.x SimpleBird.y]. rewrite Hgbird.
    destruct (Py.int (SimpleBird.x (SimpleGame.bird (game_at fr gl)))); [|congruence].
    destruct (Py.int (SimpleBird.y (SimpleGame.bird (game_at fr gl)))); [|congruence].
    eexists. repeat split. }
  destruct Hrel as (gr & -> & Hrpull & Hrz).
  cbn [and_then state_of].
  set (rb := button_logic _).
  assert (Hrb : calls rb = [call_update_pause_state; call_release;
                            call_check_button_hover (-1) (-1)]
                /\ SimpleGame.pulling (the_game rb) = false
                /\ SimpleGame.is_paused (the_game rb) = false).
  { subst rb. unfold button_logic. cbv zeta.
    cbn [with_game locals the_game at_start no_gesture is_pointing calls app].
    split; [reflexivity|].
    destruct (hover_shape gr (-1) (-1)) as [b [-> | ->]]; game_cbn;
      (split; [assumption || reflexivity | congruence]). }
  destruct Hrb as (Hcb & Hpb & Hzb).
  assert (Hsw : (calls (swipe_logic rb) = calls rb
                 \/ calls (swipe_logic rb) = calls rb ++ [call_next_level])
                /\ SimpleGame.pulling (the_game (swipe_logic rb)) = false
                /\ SimpleGame.is_paused (the_game (swipe_logic rb)) = false).
  { destruct (swipe_logic_spec rb) as [[Hc1 Hg1]|[Hc1 Hg1]]; rewrite Hc1, Hg1.
    - split; [left; reflexivity|]. split; assumption.
    - split; [right; reflexivity|].
      destruct (next_level_shape (the_game rb)) as [-> | (_ & _ & ->)];
        split; assumption. }
  destruct Hsw as (Hcs & Hps & Hzs).
  unfold update_logic. rewrite Hzs. cbn [negb].
  assert (Hup : SimpleGame.pulling (state_of (SimpleGame.update (the_game (swipe_logic rb))))
                = false).
  { destruct (update_shape (the_game (swipe_logic rb)))
      as [(Htr & Hlt & ->) | [(Htr & ->) | (Htr & [(b & Hb & ->) | (b & Hb & ->)])]];
      try exact Hps; try reflexivity.
    destruct (after_physics_shape (SimpleGame.set_bird (the_game (swipe_logic rb)) b))
      as (ts & sc & w & b' & -> & _ & _). exact Hps. }
  destruct (SimpleGame.update (the_game (swipe_logic rb))) as [gu|gu];
    cbn [state_of with_game calls the_game] in *;
    (split; [|exact Hup]);
    rewrite other_calls_app; destruct Hcs as [-> | ->]; rewrite ?other_calls_app, Hcb;
    [left|right|left|right]; reflexivity.
Qed.

End QuietFrames.

(* ================================================================== *)
(** * The gesture detectors *)
(* ================================================================== *)

(** [a < b] excludes [b < a], for all floats (with [nan], both are
    false). *)
Lemma float_ltb_asym (a b : float) : (a <? b)%float = true -> (b <? a)%float = false.
Proof.
  rewrite !ltb_spec. unfold SFltb.
  destruct (Prim2SF a) as [sa|sa| |sa ma ea], (Prim2SF b) as [sb|sb| |sb mb eb];
    cbn [SFcompare]; try discriminate; try reflexivity;
    try (destruct sa; discriminate || reflexivity);
    try (destruct sb; discriminate || reflexivity);
    try (destruct sa, sb; discriminate || reflexivity).
  destruct sa, sb; try discriminate; try reflexivity.
  - rewrite (Z.compare_antisym ea eb).
    destruct (ea ?= eb)%Z; cbn [CompOpp]; try discriminate; try reflexivity.
    change (Pos.compare_cont Eq mb ma) with (mb ?= ma)%positive.
    change (Pos.compare_cont Eq ma mb) with (ma ?= mb)%positive.
    rewrite (Pos.compare_antisym ma mb).
    destruct (ma ?= mb)%positive; cbn [CompOpp]; discriminate || reflexivity.
  - rewrite (Z.compare_antisym ea eb).
    destruct (ea ?= eb)%Z; cbn [CompOpp]; try discriminate; try reflexivity.
    change (Pos.compare_cont Eq mb ma) with (mb ?= ma)%positive.
    change (Pos.compare_cont Eq ma mb) with (ma ?= mb)%positive.
    rewrite (Pos.compare_antisym ma mb).
    destruct (ma ?= mb)%positive; cbn [CompOpp]; discriminate || reflexivity.
Qed.

Lemma sum_five (a b c d e : Z) : Py.sum [a; b; c; d; e] = (a + b + c + d + e)%Z.
Proof. unfold Py.sum. cbn [fold_left]. lia. Qed.

Lemma sum_three (a b c : Z) : Py.sum [a; b; c] = (a + b + c)%Z.
Proof. unfold Py.sum. cbn [fold_left]. lia. Qed.

Lemma if_b2z (c : bool) : (if c then 1%Z else 0%Z) = Z.b2z c.
Proof. now destruct c. Qed.

Lemma b2z_range (c : bool) : (0 <= Z.b2z c <= 1)%Z.
Proof. destruct c; cbn; lia. Qed.

(** [detect_pointing]: pointing means the index finger up and at most one
    of middle, ring and pinky up; the thumb test of the source has no
    influence on the answer.  The position is the index fingertip in
    pixels. *)
Theorem pointing_is_index_up_and_two_fingers_down (h : Hand) (width height : Z) :
  detect_pointing (Some h) width height
  = (finger_up h 8 6
     && (Z.b2z (finger_up h 12 10) + Z.b2z (finger_up h 16 14)
         + Z.b2z (finger_up h 20 18) <=? 1)%Z,
     ((Landmark.x (landmark h 8) * Py.of_int width)%float,
      (Landmark.y (landmark h 8) * Py.of_int height)%float)).
Proof.
  unfold detect_pointing, four_fingers_up, finger_tips, finger_pips, finger_up.
  cbv zeta. cbn [map combine app nth skipn fst snd].
  rewrite sum_three, !if_b2z.
  destruct (Landmark.y (landmark h 8) <? Landmark.y (landmark h 6))%float; reflexivity.
Qed.

Section FistAndSwipe.
Context {L : Libm}.

Lemma detect_fist_rule (h : Hand) :
  detect_fist (Some h) = fist_by_adjacent_tips h.
Proof.
  unfold detect_fist, fist_by_adjacent_tips, bent_count, max_adjacent_tip_distance,
    greatest, thumb_is_bent, finger_is_bent, to_palm, palm_center, tip_distance,
    hand_size, finger_tips, finger_pips, finger_mcps.
  cbn [map combine app fold_left seq length Nat.sub Nat.add nth fst snd].
  rewrite sum_bool_five. reflexivity.
Qed.

(** A closed hand is never a left swipe: when [detect_fist] answers true
    for a hand, [detect_left_swipe] answers false for the same hand (a
    fist needs three of the four fingers with the tip below the PIP
    joint; an open palm needs two of them with the tip above it). *)
Theorem fist_is_never_left_swipe (h : Hand) (width height : Z) :
  detect_fist (Some h) = true ->
  fst (detect_left_swipe (Some h) width height) = false.
Proof.
  rewrite detect_fist_rule.
  unfold fist_by_adjacent_tips, bent_count, finger_is_bent.
  intros Hfist. apply andb_true_iff in Hfist. destruct Hfist as [Hcount _].
  apply Z.leb_le in Hcount.
  unfold detect_left_swipe, four_fingers_up, finger_tips, finger_pips.
  cbv zeta. cbn [map combine app fst snd].
  rewrite sum_five, !if_b2z.
  assert (Hex : forall tip pip (close : bool),
             (Z.b2z ((Landmark.y (landmark h pip) <? Landmark.y (landmark h tip))%float
                     && close)
              + Z.b2z (Landmark.y (landmark h tip) <? Landmark.y (landmark h pip))%float
              <= 1)%Z).
  { intros tip pip close.
    destruct (Landmark.y (landmark h pip) <? Landmark.y (landmark h tip))%float eqn:Hdown.
    - rewrite (float_ltb_asym _ _ Hdown). destruct close; cbn; lia.
    - cbn [andb Z.b2z]. pose proof (b2z_range (Landmark.y (landmark h tip)
                                               <? Landmark.y (landmark h pip))%float). lia. }
  pose proof (Hex 8%nat 6%nat (to_palm h 8 <? to_palm h 5 * 0.9)%float) as H1.
  pose proof (Hex 12%nat 10%nat (to_palm h 12 <? to_palm h 9 * 0.9)%float) as H2.
  pose proof (Hex 16%nat 14%nat (to_palm h 16 <? to_palm h 13 * 0.9)%float) as H3.
  pose proof (Hex 20%nat 18%nat (to_palm h 20 <? to_palm h 17 * 0.9)%float) as H4.
  pose proof (b2z_range (thumb_is_bent h)) as Ht.
  pose proof (b2z_range (Landmark.x (landmark h 3) <? Landmark.x (landmark h 4))%float) as Hs.
  apply andb_false_iff. left. apply Z.leb_gt. lia.
Qed.

End FistAndSwipe.

(* ================================================================== *)
(** * Swipe history, level layouts, pulling and releasing *)
(* ================================================================== *)

Lemma last_n_app_exact (A : Type) (pre l : list A) :
  Py.last_n (length l) (pre ++ l) = l.
Proof.
  unfold Py.last_n. rewrite length_app.
  replace (length pre + length l - length l)%nat with (length pre) by lia.
  rewrite skipn_app, skipn_all, Nat.sub_diag. reflexivity.
Qed.

(** [update_swipe_detection]: the history is a FIFO of capacity 10; the
    call answers false while fewer than 5 samples are recorded, and
    otherwise true exactly if at least 3 of the last 5 samples are
    swipes. *)
Theorem swipe_detector (swipe_history : list (bool * (float * float)))
        (is_swiping : bool) (position : float * float) :
  (length swipe_history <= 10)%nat ->
  let r := update_swipe_detection swipe_history is_swiping position in
  (length (fst r) <= 10)%nat
  /\ fst r = (if (length swipe_history <? 10)%nat then swipe_history
              else tl swipe_history) ++ [(is_swiping, position)]
  /\ ((length (fst r) < 5)%nat -> snd r = false)
  /\ (forall pre a b c d e,
        fst r = pre ++ [a; b; c; d; e] ->
        snd r = (3 <=? swipe_count [a; b; c; d; e])%Z).
Proof.
  intros Hlen. cbv zeta. unfold update_swipe_detection. cbv zeta.
  set (h1 := swipe_history ++ [(is_swiping, position)]).
  assert (Hl1 : length h1 = S (length swipe_history))
    by (subst h1; rewrite length_app; cbn; lia).
  set (h2 := if (10 <? Z.of_nat (length h1))%Z then tl h1 else h1).
  assert (Hh2 : h2 = (if (length swipe_history <? 10)%nat then swipe_history
                      else tl swipe_history) ++ [(is_swiping, position)]).
  { subst h2. rewrite Hl1.
    destruct (Z.ltb_spec 10 (Z.of_nat (S (length swipe_history)))),
             (Nat.ltb_spec (length swipe_history) 10); try lia; [|reflexivity].
    subst h1. destruct swipe_history; [cbn in *; lia | reflexivity]. }
  assert (Hl2 : (length h2 <= 10)%nat).
  { rewrite Hh2, length_app. cbn [length].
    destruct (Nat.ltb_spec (length swipe_history) 10); [lia|].
    destruct swipe_history; cbn [tl length] in *; lia. }
  destruct (Z.leb_spec 5 (Z.of_nat (length h2))) as [Hge|Hlt]; cbn [fst snd].
  - split; [exact Hl2|]. split; [exact Hh2|]. split; [lia|].
    intros pre a b c d e Hsplit. rewrite Hsplit.
    change 5%nat with (length [a; b; c; d; e]). rewrite last_n_app_exact.
    reflexivity.
  - split; [exact Hl2|]. split; [exact Hh2|]. split; [reflexivity|].
    intros pre a b c d e Hsplit. rewrite Hsplit, length_app in Hlt. cbn [length] in Hlt.
    lia.
Qed.

Lemma swipe_detector_witness :
  let h := [(true, (0, 0)); (false, (0, 0)); (true, (0, 0)); (false, (0, 0))]%float in
  (length h <= 10)%nat
  /\ snd (update_swipe_detection h true (0, 0)%float) = true.
Proof.
  intros h. assert (Hlen : (length h <= 10)%nat) by (cbn; lia).
  split; [exact Hlen|].
  destruct (swipe_detector h true (0, 0)%float Hlen) as (_ & Hfifo & _ & Hrule).
  rewrite (Hrule [] (true, (0, 0)%float) (false, (0, 0)%float) (true, (0, 0)%float)
                 (false, (0, 0)%float) (true, (0, 0)%float)).
  - reflexivity.
  - rewrite Hfifo. reflexivity.
Defined.

(** The level table of [init_level]: levels 1 to 4 have 3, 4, 5 and 6
    targets, and every other level number (5, but also 0 or 6) gets the
    7-target layout; every target is new: radius 20, not destroyed. *)
Theorem level_layout_sizes (gox goy gaw gah : float) (level : Z) :
  let ts := SimpleGame.level_targets gox goy gaw gah level in
  Z.of_nat (length ts)
  = (if (1 <=? level)%Z && (level <=? 4)%Z then level + 2 else 7)%Z
  /\ Forall (fun tg => SimpleTarget.radius tg = 20%Z
                       /\ SimpleTarget.is_destroyed tg = false) ts.
Proof.
  cbv zeta. unfold SimpleGame.level_targets, SimpleGame.level_offsets.
  destruct (Z.eqb_spec level 1) as [->|H1]; [split; [reflexivity|repeat constructor]|].
  destruct (Z.eqb_spec level 2) as [->|H2]; [split; [reflexivity|repeat constructor]|].
  destruct (Z.eqb_spec level 3) as [->|H3]; [split; [reflexivity|repeat constructor]|].
  destruct (Z.eqb_spec level 4) as [->|H4]; [split; [reflexivity|repeat constructor]|].
  split; [|repeat constructor].
  destruct (Z.leb_spec 1 level), (Z.leb_spec level 4); cbn [andb]; try reflexivity.
  lia.
Qed.

Section PullAndRelease.
Context {L : Libm}.

(** Pull and release compose: while pulling, [update_pull] to a point
    that is not farther than 100 from the rest position puts the bird
    exactly there, and the [release()] that follows launches it with
    velocity [(rest - point) * 0.15], its trail being that point alone. *)
Theorem pull_then_release (g : SimpleGame.t) (px py : float) (ix iy : Z) :
  let sx := SimpleBird.start_x (SimpleGame.bird g) in
  let sy := SimpleBird.start_y (SimpleGame.bird g) in
  SimpleGame.pulling g = true ->
  (100 <? sqrt (pow2 (px - sx) + pow2 (py - sy)))%float = false ->
  Py.int px = Some ix ->
  Py.int py = Some iy ->
  exists g',
    SimpleGame.release (SimpleGame.update_pull g px py) = Normal g'
    /\ SimpleGame.bird g'
       = SimpleBird.mk px py sx sy (SimpleBird.radius (SimpleGame.bird g))
                       ((sx - px) * 0.15)%float ((sy - py) * 0.15)%float
                       true [(ix, iy)]
    /\ SimpleGame.pulling g' = false
    /\ (SimpleGame.pull_x g', SimpleGame.pull_y g') = (px, py)
    /\ SimpleGame.targets g' = SimpleGame.targets g
    /\ SimpleGame.score g' = SimpleGame.score g.
Proof.
  cbv zeta. intros Hpull Hnear Hx Hy.
  unfold SimpleGame.update_pull. rewrite Hpull. cbv zeta. rewrite Hnear.
  unfold SimpleGame.release. game_cbn. rewrite Hpull.
  unfold SimpleBird.launch, SimpleBird.pixel. cbv zeta. game_cbn. rewrite Hx, Hy.
  eexists. split; [reflexivity|]. repeat split.
Qed.

(** Collisions do not wait for a launch: in a tick without a level
    transition a bird that is not flying stays where it is (also outside
    the play field), and the targets are checked against it all the
    same. *)
Theorem resting_bird_still_collides (g : SimpleGame.t) :
  SimpleGame.is_transitioning g = false ->
  SimpleBird.is_flying (SimpleGame.bird g) = false ->
  exists g',
    SimpleGame.update g = Normal g'
    /\ SimpleGame.bird g' = SimpleGame.bird g
    /\ (SimpleGame.targets g', SimpleGame.score g')
       = SimpleGame.check_collisions (SimpleGame.bird g) (SimpleGame.targets g)
                                     (SimpleGame.score g).
Proof.
  intros Htr Hrest. unfold SimpleGame.update, SimpleBird.update.
  rewrite Htr, Hrest. eexists. split; [reflexivity|].
  assert (Hsame : SimpleGame.set_bird g (SimpleGame.bird g) = g) by (now destruct g).
  rewrite Hsame. unfold SimpleGame.after_physics.
  destruct (SimpleGame.check_collisions _ _ _) as [ts sc]. cbv zeta.
  assert (Hb1 : SimpleBird.is_flying
                  (SimpleGame.bird (SimpleGame.set_score (SimpleGame.set_targets g ts) sc))
                = false) by exact Hrest.
  rewrite Hb1.
  destruct (SimpleGame.out_of_bounds _); split; reflexivity.
Qed.

End PullAndRelease.

(* ================================================================== *)
(** * The properties above on concrete sessions *)
(* ================================================================== *)

Ltac by_running :=
  vm_compute; repeat split; intros; try discriminate; try reflexivity; try lia.

Lemma frame_keeps_trail_bounded_witness :
  trail_ok (game_at pointing_frame pointed_session)
  /\ trail_ok (game_at pointing_frame
                 (fst (video_frame_callback (L := ieee_libm) pointing_frame pointed_session))).
Proof.
  assert (H : trail_ok (game_at pointing_frame pointed_session)) by by_running.
  split; [exact H|].
  exact (frame_keeps_trail_bounded (L := ieee_libm) pointing_frame pointed_session H).
Defined.

Lemma frame_keeps_level_in_range_witness :
  level_ok (game_at pointing_frame pointed_session)
  /\ level_ok (game_at pointing_frame
                 (fst (video_frame_callback (L := ieee_libm) pointing_frame pointed_session))).
Proof.
  assert (H : level_ok (game_at pointing_frame pointed_session)) by by_running.
  split; [exact H|].
  exact (frame_keeps_level_in_range (L := ieee_libm) pointing_frame pointed_session H).
Defined.

Lemma frame_keeps_transition_progress_in_range_witness :
  transition_ok (game_at no_hands_frame transitioning_session)
  /\ transition_ok (game_at no_hands_frame
                      (fst (video_frame_callback (L := ieee_libm) no_hands_frame
                              transitioning_session))).
Proof.
  assert (H : transition_ok (game_at no_hands_frame transitioning_session)) by by_running.
  split; [exact H|].
  exact (frame_keeps_transition_progress_in_range (L := ieee_libm) no_hands_frame
           transitioning_session H).
Defined.

Lemma frame_keeps_sizing_witness :
  sizing (game_at large_frame
            (fst (video_frame_callback (L := ieee_libm) large_frame pointed_session)))
  = sizing (SimpleGame.init 640 480).
Proof.
  assert (H : game pointed_session = Some (game_at no_hands_frame pointed_session))
    by (vm_compute; reflexivity).
  rewrite (frame_keeps_sizing (L := ieee_libm) large_frame pointed_session _ H).
  vm_compute. reflexivity.
Defined.

Lemma frame_keeps_button_in_range_witness :
  button_ok (game_at pointing_frame pointed_session)
  /\ button_ok (game_at pointing_frame
                  (fst (video_frame_callback (L := ieee_libm) pointing_frame pointed_session))).
Proof.
  assert (H : button_ok (game_at pointing_frame pointed_session)) by by_running.
  split; [exact H|].
  exact (frame_keeps_button_in_range (L := ieee_libm) pointing_frame pointed_session H).
Defined.

Lemma button_outside_resets_witness :
  let g := game_at no_hands_frame pointed_session in
  Button.progress (SimpleGame.reset_button g) = 4%Z
  /\ Button.progress
       (SimpleGame.reset_button (fst (SimpleGame.check_button_hover g (-1) (-1)))) = 0%Z.
Proof.
  intros g.
  assert (H4 : Button.progress (SimpleGame.reset_button g) = 4%Z) by (vm_compute; reflexivity).
  assert (Hok : button_ok g) by by_running.
  assert (Hout : Button.in_expanded_area (SimpleGame.reset_button g) (-1) (-1) = false)
    by (vm_compute; reflexivity).
  split; [exact H4|].
  exact (proj1 (proj2 (button_outside_resets g (-1) (-1) Hok Hout))).
Defined.

Lemma frame_keeps_score_multiple_of_100_witness :
  let gl := {| game := Some hit_game; swipe_history := []; fist_history := [] |} in
  score_ok (game_at no_hands_frame gl)
  /\ score_ok (game_at no_hands_frame
                 (fst (video_frame_callback (L := ieee_libm) no_hands_frame gl))).
Proof.
  intros gl.
  assert (H : score_ok (game_at no_hands_frame gl)) by by_running.
  split; [exact H|].
  exact (frame_keeps_score_multiple_of_100 (L := ieee_libm) no_hands_frame gl H).
Defined.

Lemma frame_keeps_timer_in_range_witness :
  timer_ok (game_at no_hands_frame paused_session)
  /\ timer_ok (game_at no_hands_frame
                 (fst (video_frame_callback (L := ieee_libm) no_hands_frame paused_session))).
Proof.
  assert (H : timer_ok (game_at no_hands_frame paused_session)) by by_running.
  split; [exact H|].
  exact (frame_keeps_timer_in_range (L := ieee_libm) no_hands_frame paused_session H).
Defined.

Lemma frame_keeps_field_of_level_witness :
  field_ok (game_at no_hands_frame transitioning_session)
  /\ field_ok (game_at no_hands_frame
                 (fst (video_frame_callback (L := ieee_libm) no_hands_frame
                         transitioning_session))).
Proof.
  assert (H : field_ok (game_at no_hands_frame transitioning_session)) by by_running.
  split; [exact H|].
  exact (frame_keeps_field_of_level (L := ieee_libm) no_hands_frame transitioning_session H).
Defined.

Lemma frame_without_pointer_clears_button_witness :
  let g0 := game_at no_hands_frame pointed_session in
  let g' := game_at no_hands_frame
              (fst (video_frame_callback (L := ieee_libm) no_hands_frame pointed_session)) in
  Button.progress (SimpleGame.reset_button g0) = 4%Z
  /\ Button.progress (SimpleGame.reset_button g') = 0%Z.
Proof.
  intros g0 g'.
  assert (H4 : Button.progress (SimpleGame.reset_button g0) = 4%Z) by (vm_compute; reflexivity).
  assert (Hok : button_ok g0) by by_running.
  assert (Hgeo : geometry (SimpleGame.reset_button g0) = geometry (Button.init 480))
    by (vm_compute; reflexivity).
  assert (Hh : (0 <= 480)%Z) by lia.
  assert (Hp : pointers no_hands_frame = []) by reflexivity.
  assert (Hun : SimpleGame.is_paused g' = false) by (vm_compute; reflexivity).
  assert (Hpix : SimpleGame.pulling g0 = true ->
                 SimpleBird.pixel (SimpleGame.bird g0) <> None)
    by (vm_compute; intros; discriminate).
  split; [exact H4|].
  exact (proj1 (proj2 (frame_without_pointer_clears_button (L := ieee_libm) no_hands_frame
                         pointed_session 480 Hok Hgeo Hh Hp Hun Hpix))).
Defined.

Lemma paused_frame_freezes_play_witness :
  let g0 := game_at no_hands_frame paused_session in
  let g' := game_at no_hands_frame
              (fst (video_frame_callback (L := ieee_libm) no_hands_frame paused_session)) in
  SimpleGame.is_paused g' = true
  /\ SimpleGame.bird g' = SimpleGame.bird g0
  /\ SimpleGame.targets g' = SimpleGame.targets g0.
Proof.
  intros g0 g'.
  assert (Hp : SimpleGame.is_paused g' = true) by (vm_compute; reflexivity).
  assert (Hn : pointers no_hands_frame = []) by reflexivity.
  split; [exact Hp|].
  destruct (paused_frame_freezes_play (L := ieee_libm) no_hands_frame paused_session Hp Hn)
    as (Hb & Ht & _).
  split; [exact Hb | exact Ht].
Defined.

Lemma frame_without_hands_releases_pull_witness :
  let g0 := game_at no_hands_frame pulling_session in
  let g' := game_at no_hands_frame
              (fst (video_frame_callback (L := ieee_libm) no_hands_frame pulling_session)) in
  SimpleGame.pulling g0 = true /\ SimpleGame.pulling g' = false.
Proof.
  intros g0 g'.
  assert (Hh : hands no_hands_frame = []) by reflexivity.
  assert (Hun : SimpleGame.is_paused g' = false) by (vm_compute; reflexivity).
  assert (Hpull : SimpleGame.pulling g0 = true) by (vm_compute; reflexivity).
  assert (Hpix : SimpleBird.pixel (SimpleGame.bird g0) <> None)
    by (vm_compute; intros; discriminate).
  split; [exact Hpull|].
  exact (proj2 (proj2 (frame_without_hands_releases_pull (L := ieee_libm) no_hands_frame
                         pulling_session Hh Hun Hpull Hpix))).
Defined.

Lemma fist_is_never_left_swipe_witness :
  detect_fist (L := ieee_libm) (Some row_fist) = true
  /\ fst (detect_left_swipe (Some row_fist) 640 480) = false.
Proof.
  assert (H : detect_fist (L := ieee_libm) (Some row_fist) = true)
    by (vm_compute; reflexivity).
  split; [exact H|].
  exact (fist_is_never_left_swipe (L := ieee_libm) row_fist 640 480 H).
Defined.

Lemma pull_then_release_witness :
  let g := SimpleGame.start_pull (L := ieee_libm) (SimpleGame.init 640 480) 164 282 in
  SimpleGame.pulling g = true
  /\ exists g',
       SimpleGame.release (SimpleGame.update_pull (L := ieee_libm) g 124 362) = Normal g'
       /\ SimpleBird.trail (SimpleGame.bird g') = [(124, 362)%Z]
       /\ SimpleGame.pulling g' = false.
Proof.
  intros g.
  assert (Hpull : SimpleGame.pulling g = true) by (vm_compute; reflexivity).
  assert (Hnear : (100 <? sqrt (@pow2 ieee_libm (124 - SimpleBird.start_x (SimpleGame.bird g))
                                + @pow2 ieee_libm (362 - SimpleBird.start_y (SimpleGame.bird g)))
                   )%float = false) by (vm_compute; reflexivity).
  assert (Hx : Py.int 124 = Some 124%Z) by (vm_compute; reflexivity).
  assert (Hy : Py.int 362 = Some 362%Z) by (vm_compute; reflexivity).
  split; [exact Hpull|].
  destruct (pull_then_release (L := ieee_libm) g 124 362 124 362 Hpull Hnear Hx Hy)
    as (g' & Hrel & Hbird & Hp & _).
  exists g'. split; [exact Hrel|]. split; [|exact Hp].
  rewrite Hbird. reflexivity.
Defined.

Lemma resting_bird_still_collides_witness :
  let g := SimpleGame.init 640 480 in
  SimpleBird.is_flying (SimpleGame.bird g) = false
  /\ exists g',
       SimpleGame.update (L := ieee_libm) g = Normal g'
       /\ SimpleGame.bird g' = SimpleGame.bird g.
Proof.
  intros g.
  assert (Ht : SimpleGame.is_transitioning g = false) by reflexivity.
  assert (Hf : SimpleBird.is_flying (SimpleGame.bird g) = false) by (vm_compute; reflexivity).
  split; [exact Hf|].
  destruct (resting_bird_still_collides (L := ieee_libm) g Ht Hf) as (g' & Hup & Hb & _).
  exists g'. split; [exact Hup | exact Hb].
Defined.
